(** * Business strategy generator: plan normaliser, calendar deriver and
      completion state

    A shallow embedding of the three TypeScript sources of the repository:

    - [Home]     : the home page (plan normaliser [coercePlan], [onGenerate]);
    - [Api]      : the server route [/api/generate] ([ensureArrayOfStrings],
                   [coercePlan]);
    - [Calendar] : the calendar page ([normalizeBullets], [planId],
                   [chunkEvenly], [buildDays], the check-box state).

    JavaScript strings are sequences of UTF-16 code units, JavaScript numbers
    that are used as counters and indices are [nat], the 32-bit arithmetic of
    the plan hash is written out on [Z]. *)

From Stdlib Require Import ZArith Lia.
From Stdlib Require Strings.String Strings.Ascii.
From stdpp Require Import base list gmap.
Import Stdlib.Strings.String.StringSyntax.
Delimit Scope string_scope with string.

Local Open Scope Z_scope.

(** ** JavaScript strings *)

Module JS.

(** A string is the list of its UTF-16 code units. *)
Definition jstring : Type := list Z.

(** Literals of the source that are plain ASCII are written with [lit];
    characters outside ASCII are given by their code unit. *)
Fixpoint lit (s : String.string) : jstring :=
  match s with
  | String.EmptyString => []
  | String.String a s' => Z.of_N (Ascii.N_of_ascii a) :: lit s'
  end.
Arguments lit s%_string.

(** Truthiness of a string: [Boolean(s)], [!!s]. *)
Definition truthyStr (s : jstring) : bool :=
  match s with [] => false | _ :: _ => true end.

(** [a || b] on two strings. *)
Definition orStr (a b : jstring) : jstring := if truthyStr a then a else b.

(** [a || b] where [a] may be [undefined]. *)
Definition orOpt (a : option jstring) (b : jstring) : jstring :=
  match a with
  | Some s => orStr s b
  | None => b
  end.

(** WhiteSpace and LineTerminator code points of ECMAScript: what
    [String.prototype.trim] removes and what [\s] matches. *)
Definition isWhite (c : Z) : bool :=
  ((9 <=? c) && (c <=? 13)) || (c =? 32) || (c =? 160) || (c =? 5760)
  || ((8192 <=? c) && (c <=? 8202)) || (c =? 8232) || (c =? 8233)
  || (c =? 8239) || (c =? 8287) || (c =? 12288) || (c =? 65279).

Fixpoint dropWhile {A} (p : A -> bool) (l : list A) : list A :=
  match l with
  | [] => []
  | x :: l' => if p x then dropWhile p l' else l
  end.

Definition trimStart (s : jstring) : jstring := dropWhile isWhite s.
Definition trimEnd (s : jstring) : jstring := rev (dropWhile isWhite (rev s)).
Definition trim (s : jstring) : jstring := trimEnd (trimStart s).

(** [s.split("\n")]: the pieces between line feeds (code unit 10); the empty
    string gives one empty piece. *)
Fixpoint splitLines (s : jstring) : list jstring :=
  match s with
  | [] => [[]]
  | c :: s' =>
      if c =? 10 then [] :: splitLines s'
      else match splitLines s' with
           | cur :: rest => (c :: cur) :: rest
           | [] => [[c]]
           end
  end.

(** The character class [[-•\d.)]] of the bullet regular expression:
    hyphen, U+2022, an ASCII digit, full stop, closing parenthesis. *)
Definition isMarker (c : Z) : bool :=
  (c =? 45) || (c =? 8226) || ((48 <=? c) && (c <=? 57)) || (c =? 46) || (c =? 41).

(** [x.replace(/^\s*[-•\d.)]+\s*/, "")].  The expression is anchored and has
    no flags.  White space and the class are disjoint, so the greedy match is
    the only candidate: all leading white space, then every class character
    (at least one, otherwise there is no match and [x] is returned as it is),
    then all white space that follows. *)
Definition stripMarker (x : jstring) : jstring :=
  match dropWhile isWhite x with
  | c :: rest =>
      if isMarker c then dropWhile isWhite (dropWhile isMarker rest) else x
  | [] => x
  end.

(** [arr.join(sep)] on strings. *)
Fixpoint join (sep : jstring) (l : list jstring) : jstring :=
  match l with
  | [] => []
  | [x] => x
  | x :: l' => x ++ sep ++ join sep l'
  end.

(** [n.toString(radix)] for a non-negative integer: digits, most significant
    first, no leading zero, lower-case letters above 9. *)
Definition digitChar (d : Z) : Z := if d <? 10 then 48 + d else 87 + d.

Fixpoint digitsOf (fuel : nat) (radix n : Z) (acc : jstring) : jstring :=
  match fuel with
  | O => acc
  | S f =>
      let acc' := digitChar (n mod radix) :: acc in
      if n / radix =? 0 then acc' else digitsOf f radix (n / radix) acc'
  end.

(** The number of digits of [n] is at most [log2 n + 1], which is the fuel. *)
Definition toStringRadix (radix n : Z) : jstring :=
  digitsOf (S (Z.to_nat (Z.log2 n))) radix n [].

Definition natToString (n : nat) : jstring := toStringRadix 10 (Z.of_nat n).

(** *** 32-bit integer operations *)

Definition toInt32 (z : Z) : Z := (z + 2 ^ 31) mod 2 ^ 32 - 2 ^ 31.
Definition toUint32 (z : Z) : Z := z mod 2 ^ 32.

(** [a ^ b]: both operands are converted to signed 32-bit integers. *)
Definition xor32 (a b : Z) : Z := Z.lxor (toInt32 a) (toInt32 b).

(** [Math.imul(a, b)]: the low 32 bits of the product, read as signed. *)
Definition Math_imul (a b : Z) : Z := toInt32 (toInt32 a * toInt32 b).

(** *** Completions *)

(** An expression either returns or throws an [Error] with a message
    (the only errors the modelled code can raise are [TypeError]s). *)
Inductive result (A : Type) : Type :=
  | Ok (a : A)
  | Throw (message : jstring).
Arguments Ok {A} a.
Arguments Throw {A} message.

Definition bind {A B} (r : result A) (k : A -> result B) : result B :=
  match r with
  | Ok a => k a
  | Throw m => Throw m
  end.

Notation "x <- r ;; k" := (bind r (fun x => k))
  (at level 100, r at next level, right associativity).

(** [for (let i = start; i < start + count; i++) body] with the loop state
    threaded through. *)
Fixpoint forRange {S} (i count : nat) (body : nat -> S -> result S) (s : S)
  : result S :=
  match count with
  | O => Ok s
  | Datatypes.S k => s' <- body i s ;; forRange (Datatypes.S i) k body s'
  end.

(** [for (const x of xs) body]. *)
Fixpoint forOf {A S} (xs : list A) (body : A -> S -> result S) (s : S)
  : result S :=
  match xs with
  | [] => Ok s
  | x :: xs' => s' <- body x s ;; forOf xs' body s'
  end.

(** [xs.map(f)] with a callback that may throw. *)
Definition mapResult {A B} (f : A -> result B) : list A -> result (list B) :=
  fix go (l : list A) : result (list B) :=
    match l with
    | [] => Ok []
    | x :: l' => y <- f x ;; ys <- go l' ;; Ok (y :: ys)
    end.

(** *** Untyped values ([any], [unknown]): the result of [JSON.parse] *)

(** Numbers are IEEE doubles in JavaScript.  The program never computes with
    a number of its input, it only tests its type, prints it or passes it on,
    so the representation of numbers is left open. *)
Class JSNumber (number : Type) := {
  Number_toString : number -> jstring;
  Number_truthy : number -> bool;
  Number_ofNat : nat -> number
}.

#[warnings="-register-all"]
Inductive value (number : Type) : Type :=
  | VUndefined
  | VNull
  | VBool (b : bool)
  | VNum (n : number)
  | VStr (s : jstring)
  | VArr (elems : list (value number))
  | VObj (props : list (jstring * value number)).
Arguments VUndefined {number}.
Arguments VNull {number}.
Arguments VBool {number} b.
Arguments VNum {number} n.
Arguments VStr {number} s.
Arguments VArr {number} elems.
Arguments VObj {number} props.

Section Values.
Context {number : Type} {numberOps : JSNumber number}.

Fixpoint assoc (k : jstring) (props : list (jstring * value number))
  : option (value number) :=
  match props with
  | [] => None
  | (k', v) :: props' => if decide (k = k') then Some v else assoc k props'
  end.

(** Property lookup on a value that is neither [null] nor [undefined].
    Only plain objects have the properties this program asks for: none of
    the names it uses is a property of a primitive wrapper, of
    [Array.prototype] or of [Object.prototype]. *)
Definition lookupProp (v : value number) (k : jstring) : value number :=
  match v with
  | VObj props => default VUndefined (assoc k props)
  | _ => VUndefined
  end.

Definition isNullish (v : value number) : bool :=
  match v with VUndefined | VNull => true | _ => false end.

(** [v?.k] *)
Definition optProp (v : value number) (k : jstring) : value number :=
  if isNullish v then VUndefined else lookupProp v k.

(** [v.k]: a [TypeError] on [null] and [undefined]. *)
Definition prop (v : value number) (k : jstring) : result (value number) :=
  if isNullish v then Throw (lit "Cannot read properties of null or undefined")
  else Ok (lookupProp v k).

(** [a ?? b] *)
Definition nullish (a b : value number) : value number :=
  if isNullish a then b else a.

Definition truthy (v : value number) : bool :=
  match v with
  | VUndefined | VNull => false
  | VBool b => b
  | VNum n => Number_truthy n
  | VStr s => truthyStr s
  | VArr _ | VObj _ => true
  end.

Definition isArray (v : value number) : bool :=
  match v with VArr _ => true | _ => false end.

(** [typeof v === "object"] *)
Definition typeofObject (v : value number) : bool :=
  match v with VNull | VArr _ | VObj _ => true | _ => false end.

(** [String(v)].  An array is joined with commas, [null] and [undefined]
    elements counting as empty.  A plain object gives "[object Object]",
    unless it has a property of its own called "toString": what [JSON.parse]
    puts there is never a function, so the conversion to a primitive
    fails with a [TypeError]. *)
Fixpoint String_ (v : value number) : result jstring :=
  match v with
  | VUndefined => Ok (lit "undefined")
  | VNull => Ok (lit "null")
  | VBool true => Ok (lit "true")
  | VBool false => Ok (lit "false")
  | VNum n => Ok (Number_toString n)
  | VStr s => Ok s
  | VArr elems =>
      parts <- mapResult (fun x => if isNullish x then Ok [] else String_ x) elems ;;
      Ok (join (lit ",") parts)
  | VObj props =>
      match assoc (lit "toString") props with
      | Some _ => Throw (lit "Cannot convert object to primitive value")
      | None => Ok (lit "[object Object]")
      end
  end.
End Values.

Section Indexing.
Context {number : Type}.

(** [v?.[i]] for an array index [i]: an element of an array, a character
    of a string, the property of that name of an object. *)
Definition optIndex (v : value number) (i : nat) : value number :=
  match v with
  | VArr elems => default VUndefined (elems !! i)
  | VStr s =>
      match s !! i with
      | Some c => VStr [c]
      | None => VUndefined
      end
  | VObj props => default VUndefined (assoc (natToString i) props)
  | _ => VUndefined
  end.
End Indexing.

(** *** [JSON.stringify] on strings and on maps to booleans *)

Definition hex4 (c : Z) : jstring :=
  map (fun k => digitChar ((c / 16 ^ k) mod 16)) [3; 2; 1; 0].

Definition isHighSurrogate (c : Z) : bool := (55296 <=? c) && (c <=? 56319).
Definition isLowSurrogate (c : Z) : bool := (56320 <=? c) && (c <=? 57343).

(** One code unit that is not part of a surrogate pair: 92 is the
    backslash, 34 the double quote. *)
Definition escapeUnit (c : Z) : jstring :=
  if c =? 8 then [92; 98]
  else if c =? 9 then [92; 116]
  else if c =? 10 then [92; 110]
  else if c =? 12 then [92; 102]
  else if c =? 13 then [92; 114]
  else if c =? 34 then [92; 34]
  else if c =? 92 then [92; 92]
  else if (c <? 32) || isHighSurrogate c || isLowSurrogate c
       then [92; 117] ++ hex4 c
  else [c].

Fixpoint quoteUnits (s : jstring) : jstring :=
  match s with
  | [] => []
  | c :: rest =>
      match rest with
      | d :: rest' =>
          if isHighSurrogate c && isLowSurrogate d
          then c :: d :: quoteUnits rest'
          else escapeUnit c ++ quoteUnits rest
      | [] => escapeUnit c
      end
  end.

Definition JSON_quote (s : jstring) : jstring := [34] ++ quoteUnits s ++ [34].

(** [JSON.stringify(o)] for [o : Record<string, boolean>], the properties
    in enumeration order. *)
Definition JSON_stringify_flags (o : list (jstring * bool)) : jstring :=
  lit "{"
  ++ join (lit ",")
       (map (fun kb : jstring * bool => JSON_quote (fst kb) ++ lit ":"
                       ++ (if snd kb then lit "true" else lit "false")) o)
  ++ lit "}".

(** *** [localStorage] *)

(** The store maps keys to strings.  [removeItem] is [delete].  [setItem]
    either stores the value or, when the browser refuses the write (quota),
    throws and leaves the store as it was; which writes are refused is up to
    the browser. *)
Class Browser := {
  accepts : gmap jstring jstring -> jstring -> jstring -> bool
}.

Definition setItem {browser : Browser} (ls : gmap jstring jstring) (k v : jstring)
  : result (gmap jstring jstring) :=
  if accepts ls k v then Ok (<[k := v]> ls)
  else Throw (lit "QuotaExceededError").

Definition removeItem (ls : gmap jstring jstring) (k : jstring)
  : gmap jstring jstring := delete k ls.

End JS.

Import JS.

(** ** The home page: plan normaliser and generation (source file of the
       page component that owns [coercePlan] and [onGenerate]) *)

Module Home.

Record Inputs := {
  targetCustomer : option jstring;
  coreOffer : option jstring;
  differentiator : option jstring;
  pricePoint : option jstring;
  geography : option jstring;
  goal14Day : option jstring;
  notes : option jstring
}.

Record Step := {
  title : jstring;
  summary : jstring;
  whatThisDoes : list jstring;
  howTo : list jstring;
  output : jstring
}.

Record Plan := {
  id : jstring;
  createdAt : jstring;
  idea : jstring;
  inputs : Inputs;
  steps : list Step
}.

Definition LS_PLAN_KEY : jstring := lit "bsg_latest_plan_v1".

(** What the page reads from its environment when it builds a plan:
    [Date.now()] and [Math.random().toString(16).slice(2)] as they would be
    printed, and [new Date().toISOString()]. *)
Record Env := {
  dateNow : jstring;
  randomHex : jstring;
  nowISO : jstring
}.

(** [a || b] where the last operand may be [undefined]. *)
Definition orField (a : jstring) (b : option jstring) : option jstring :=
  if truthyStr a then Some a else b.

Section WithNumber.
Context {number : Type} {numberOps : JSNumber number}.

Definition safeStr (v : value number) : jstring :=
  match v with
  | VStr s => trim s
  | _ => []
  end.

Definition toStrArray (v : value number) : list jstring :=
  match v with
  | VArr elems => List.filter truthyStr (map safeStr elems)
  | VStr s =>
      map (fun x => trim (stripMarker x))
        (List.filter truthyStr (map trim (splitLines s)))
  | _ => []
  end.

(** One element of [stepsRaw.slice(0, 3).map((s, i) => ...)]. *)
Definition coerceStep (s : value number) (i : nat) : Step :=
  {| title := orStr (safeStr (optProp s (lit "title")))
                (lit "Step " ++ natToString (i + 1));
     summary := orStr (safeStr (optProp s (lit "summary"))) [];
     whatThisDoes :=
       toStrArray
         (nullish (nullish (optProp s (lit "whatThisDoes"))
                           (optProp s (lit "what")))
                  (optProp s (lit "explain")));
     howTo :=
       toStrArray
         (nullish (nullish (optProp s (lit "howTo"))
                           (optProp s (lit "how_to")))
                  (optProp s (lit "checklist")));
     output :=
       orStr (safeStr (nullish (optProp s (lit "output"))
                               (optProp s (lit "deliverable")))) [] |}.

Definition emptyStep (n : nat) : Step :=
  {| title := lit "Step " ++ natToString n;
     summary := []; whatThisDoes := []; howTo := []; output := [] |}.

(** [while (steps.length < 3) steps.push(...)]: every iteration makes the
    list one longer, so the loop runs [3 - steps.length] times; [k] is the
    number of iterations that remain. *)
Fixpoint padSteps (k : nat) (steps : list Step) : list Step :=
  match k with
  | O => steps
  | S k' => padSteps k' (steps ++ [emptyStep (length steps + 1)])
  end.

Definition coerceInput (inputsRaw raw : value number) (k : jstring)
    (fallback : option jstring) : option jstring :=
  orField (orStr (safeStr (optProp inputsRaw k)) (safeStr (optProp raw k)))
          fallback.

Definition coercePlan (env : Env) (raw : value number)
    (ideaFallback : jstring) (inputsFallback : Inputs) : result Plan :=
  let id :=
    orStr (safeStr (optProp raw (lit "id")))
          (lit "plan_" ++ dateNow env ++ lit "_" ++ randomHex env) in
  let createdAt := orStr (safeStr (optProp raw (lit "createdAt"))) (nowISO env) in
  let idea := orStr (safeStr (optProp raw (lit "idea"))) ideaFallback in
  inputsRaw <-
    (if truthy (optProp raw (lit "inputs")) then
       ri <- prop raw (lit "inputs") ;;
       if typeofObject ri then prop raw (lit "inputs") else Ok (VObj [])
     else Ok (VObj [])) ;;
  let inputs :=
    {| targetCustomer :=
         coerceInput inputsRaw raw (lit "targetCustomer") (targetCustomer inputsFallback);
       coreOffer :=
         coerceInput inputsRaw raw (lit "coreOffer") (coreOffer inputsFallback);
       differentiator :=
         coerceInput inputsRaw raw (lit "differentiator") (differentiator inputsFallback);
       pricePoint :=
         coerceInput inputsRaw raw (lit "pricePoint") (pricePoint inputsFallback);
       geography :=
         coerceInput inputsRaw raw (lit "geography") (geography inputsFallback);
       goal14Day :=
         coerceInput inputsRaw raw (lit "goal14Day") (goal14Day inputsFallback);
       notes :=
         coerceInput inputsRaw raw (lit "notes") (notes inputsFallback) |} in
  stepsRaw <-
    (if isArray (optProp raw (lit "steps")) then
       rs <- prop raw (lit "steps") ;;
       match rs with
       | VArr elems => Ok elems
       | _ => Throw (lit "stepsRaw.slice is not a function")
       end
     else Ok []) ;;
  let steps := imap (fun i s => coerceStep s i) (take 3 stepsRaw) in
  let steps := padSteps (3 - length steps) steps in
  Ok {| id := id; createdAt := createdAt; idea := idea; inputs := inputs;
        steps := take 3 steps |}.

(** [a || b] on values. *)
Definition orVal (a b : value number) : value number :=
  if truthy a then a else b.

(** The state of the page component. *)
Record PageState := {
  st_idea : jstring;
  st_inputs : Inputs;
  st_loading : bool;
  st_error : value number;
  st_plan : option Plan
}.

Definition setError (e : value number) (p : PageState) : PageState :=
  {| st_idea := st_idea p; st_inputs := st_inputs p;
     st_loading := st_loading p; st_error := e; st_plan := st_plan p |}.
Definition setLoading (b : bool) (p : PageState) : PageState :=
  {| st_idea := st_idea p; st_inputs := st_inputs p;
     st_loading := b; st_error := st_error p; st_plan := st_plan p |}.
Definition setPlan (pl : option Plan) (p : PageState) : PageState :=
  {| st_idea := st_idea p; st_inputs := st_inputs p;
     st_loading := st_loading p; st_error := st_error p; st_plan := pl |}.

(** What [await fetch(...)] and [await resp.json()] give: the request
    rejects with a thrown value, or resolves to a response whose body
    either parses to [json = Some data] or does not ([None], which the
    [.catch(() => null)] turns into [null]). *)
Record Response := {
  ok : bool;
  status : nat;
  json : option (value number)
}.

Inductive Fetched :=
  | Rejected (e : value number)
  | Resolved (resp : Response).

Section Generate.
Context {browser : Browser}.
(** [JSON.stringify] on a plan record. *)
Variable JSON_stringify : Plan -> jstring.

(** The statements of the [try] block after the response has arrived;
    a [Throw] is what the [catch] clause receives, together with the
    page state at the moment of the throw. *)
Definition afterFetch (env : Env) (resp : Response) (ideaTrimmed : jstring)
    (p : PageState) (ls : gmap jstring jstring)
  : PageState * gmap jstring jstring :=
  let data := default VNull (json resp) in
  if negb (ok resp) || negb (truthy data) then
    (setError
       (orVal (optProp data (lit "error"))
              (VStr (lit "Generate failed (" ++ natToString (status resp) ++ lit ")")))
       p, ls)
  else
    match coercePlan env data ideaTrimmed (st_inputs p) with
    | Throw m =>
        (setError (orVal (VStr m) (VStr (lit "Something went wrong."))) p, ls)
    | Ok nextPlan =>
        let p := setPlan (Some nextPlan) p in
        match setItem ls LS_PLAN_KEY (JSON_stringify nextPlan) with
        | Throw m =>
            (setError (orVal (VStr m) (VStr (lit "Something went wrong."))) p, ls)
        | Ok ls' => (p, ls')
        end
    end.

(** [onGenerate], from the click to the end of the [finally] clause.
    [fetched] is the outcome of the one network request; it is not
    looked at when the idea is empty, because no request is made. *)
Definition onGenerate (env : Env) (fetched : Fetched)
    (p : PageState) (ls : gmap jstring jstring)
  : PageState * gmap jstring jstring :=
  let p := setError (VStr []) p in
  let ideaTrimmed := trim (st_idea p) in
  if negb (truthyStr ideaTrimmed) then
    (setError (VStr (lit "Type a business idea first.")) p, ls)
  else
    let p := setLoading true p in
    let '(p, ls) :=
      match fetched with
      | Rejected e =>
          (setError
             (orVal (optProp e (lit "message"))
                    (VStr (lit "Something went wrong."))) p, ls)
      | Resolved resp => afterFetch env resp ideaTrimmed p ls
      end in
    (setLoading false p, ls).

(** [clearAll] *)
Definition clearAll (p : PageState) (ls : gmap jstring jstring)
  : PageState * gmap jstring jstring :=
  let noInputs :=
    {| targetCustomer := Some []; coreOffer := Some [];
       differentiator := Some []; pricePoint := Some [];
       geography := Some []; goal14Day := Some []; notes := Some [] |} in
  ({| st_idea := []; st_inputs := noInputs; st_loading := st_loading p;
      st_error := VStr []; st_plan := None |},
   removeItem ls LS_PLAN_KEY).
End Generate.
End WithNumber.

Arguments PageState : clear implicits.
Arguments Response : clear implicits.
Arguments Fetched : clear implicits.

End Home.

(** ** The server route [/api/generate] *)

Module Api.

Record PlanStep := {
  title : jstring;
  summary : jstring;
  whatThisDoes : list jstring;
  howTo : list jstring;
  output : jstring
}.

Section WithNumber.
Context {number : Type} {numberOps : JSNumber number}.

Record CalendarDay := {
  day : value number;
  c_title : jstring;
  tasks : list jstring
}.

(** [inputs] is declared as [Inputs] but holds [raw.inputs] as it came
    when that is an object. *)
Record PlanObject := {
  id : jstring;
  createdAt : jstring;
  idea : jstring;
  inputs : value number + Home.Inputs;
  steps : list PlanStep;
  calendarDays : list CalendarDay
}.

(** [uid()] and [new Date().toISOString()] as the server would give them. *)
Record Env := {
  uid : jstring;
  nowISO : jstring
}.

Definition cleanStr (x : value number) : jstring :=
  match x with
  | VStr s => trim s
  | _ => []
  end.

Definition ensureArrayOfStrings (x : value number) : list jstring :=
  match x with
  | VArr elems =>
      List.filter truthyStr
        (map (fun v => match v with VStr s => trim s | _ => [] end) elems)
  | _ => []
  end.

Definition coerceStep (s : value number) (i : nat) : PlanStep :=
  {| title := orStr (cleanStr (optProp s (lit "title")))
                (lit "Step " ++ natToString (i + 1));
     summary := orStr (cleanStr (optProp s (lit "summary"))) [];
     whatThisDoes := ensureArrayOfStrings (optProp s (lit "whatThisDoes"));
     howTo := ensureArrayOfStrings (optProp s (lit "howTo"));
     output := orStr (cleanStr (optProp s (lit "output"))) [] |}.

Definition emptyStep (n : nat) : PlanStep :=
  {| title := lit "Step " ++ natToString n;
     summary := []; whatThisDoes := []; howTo := []; output := [] |}.

(** [while (steps.length < 3) steps.push(...)], [k] iterations to go. *)
Fixpoint padSteps (k : nat) (steps : list PlanStep) : list PlanStep :=
  match k with
  | O => steps
  | S k' => padSteps k' (steps ++ [emptyStep (length steps + 1)])
  end.

Definition isNumber (v : value number) : bool :=
  match v with VNum _ => true | _ => false end.

Definition coerceDay (d : value number) (idx : nat) : result CalendarDay :=
  dayNumber <-
    (if isNumber (optProp d (lit "day")) then prop d (lit "day")
     else Ok (VNum (Number_ofNat (idx + 1)))) ;;
  Ok {| day := dayNumber;
        c_title := orStr (cleanStr (optProp d (lit "title")))
                     (lit "Day " ++ natToString (idx + 1));
        tasks := ensureArrayOfStrings (optProp d (lit "tasks")) |}.

(** [arr.map((d, idx) => ...)] with a callback that may throw. *)
Fixpoint mapIdx {A B} (f : A -> nat -> result B) (idx : nat) (l : list A)
  : result (list B) :=
  match l with
  | [] => Ok []
  | x :: l' => y <- f x idx ;; ys <- mapIdx f (S idx) l' ;; Ok (y :: ys)
  end.

Definition fillerDay (n : nat) : CalendarDay :=
  {| day := VNum (Number_ofNat n);
     c_title := lit "Day " ++ natToString n;
     tasks := [lit "Do 30" ++ [8211] ++
               lit "60 minutes of execution based on your Step plan."] |}.

(** [while (calendarDays.length < 14) ...], [k] iterations to go. *)
Fixpoint padDays (k : nat) (days : list CalendarDay) : list CalendarDay :=
  match k with
  | O => days
  | S k' => padDays k' (days ++ [fillerDay (length days + 1)])
  end.

Definition coercePlan (env : Env) (raw : value number) (idea0 : jstring)
    (inputs0 : Home.Inputs) : result PlanObject :=
  stepsRaw <-
    (if isArray (optProp raw (lit "steps")) then
       rs <- prop raw (lit "steps") ;;
       match rs with
       | VArr elems => Ok elems
       | _ => Throw (lit "stepsRaw.slice is not a function")
       end
     else Ok []) ;;
  let steps := imap (fun i s => coerceStep s i) (take 3 stepsRaw) in
  let steps := padSteps (3 - length steps) steps in
  calRaw <-
    (if isArray (optProp raw (lit "calendarDays")) then
       rc <- prop raw (lit "calendarDays") ;;
       match rc with
       | VArr elems => Ok elems
       | _ => Throw (lit "calRaw.filter is not a function")
       end
     else Ok []) ;;
  calendarDays <-
    mapIdx coerceDay 0
      (take 14 (List.filter (fun d => typeofObject d && truthy d) calRaw)) ;;
  let calendarDays := padDays (14 - length calendarDays) calendarDays in
  inputs <-
    (if typeofObject (optProp raw (lit "inputs")) && truthy (optProp raw (lit "inputs"))
     then ri <- prop raw (lit "inputs") ;; Ok (inl ri)
     else Ok (inr inputs0)) ;;
  Ok {| id := orStr (cleanStr (optProp raw (lit "id"))) (uid env);
        createdAt := orStr (cleanStr (optProp raw (lit "createdAt"))) (nowISO env);
        idea := orStr (cleanStr (optProp raw (lit "idea"))) idea0;
        inputs := inputs;
        steps := steps;
        calendarDays := calendarDays |}.

(** A step of the response as the client reads it back from the JSON
    body. *)
Definition stepJSON (s : PlanStep) : value number :=
  VObj [ (lit "title", VStr (title s));
         (lit "summary", VStr (summary s));
         (lit "whatThisDoes", VArr (VStr <$> whatThisDoes s));
         (lit "howTo", VArr (VStr <$> howTo s));
         (lit "output", VStr (output s)) ].

(** *** The handler [POST] *)

(** A promise that has settled. *)
Inductive Settled (A : Type) : Type :=
  | Fulfilled (a : A)
  | RejectedWith (e : value number).

(** The response of the text-generation provider: [resp.ok], [resp.status],
    what [resp.text()] gives ([None] when it rejects) and what [resp.json()]
    gives. *)
Record Upstream := {
  up_ok : bool;
  up_status : nat;
  up_text : option jstring;
  up_json : Settled (value number)
}.

(** What the handler answers: [NextResponse.json(body, { status })], the
    body being an error object (with its [raw] field when it has one) or a
    plan. *)
Inductive Body :=
  | ErrorBody (error : value number) (raw : option jstring)
  | PlanBody (plan : PlanObject).

Record HttpResponse := {
  r_status : nat;
  r_body : Body
}.

(** The [Error] object that a [Throw] of the model stands for. *)
Definition thrownError (message : jstring) : value number :=
  VObj [(lit "message", VStr message)].

(** The outer [catch] clause. *)
Definition serverError (err : value number) : HttpResponse :=
  {| r_status := 500;
     r_body :=
       ErrorBody (Home.orVal (optProp err (lit "message"))
                             (VStr (lit "Unknown server error"))) None |}.

Section Route.
(** [JSON.parse] on a string: [None] is a [SyntaxError]. *)
Variable JSON_parse : jstring -> option (value number).

(** The handler from the provider's response on.  [JSON.parse(text)]
    first converts [text] to a string; when that conversion throws, the
    inner [catch] runs [String(text)], which throws again, into the outer
    [catch]. *)
Definition afterUpstream (env : Env) (idea0 : jstring) (inputs0 : Home.Inputs)
    (resp : Upstream) : HttpResponse :=
  if negb (up_ok resp) then
    {| r_status := 500;
       r_body :=
         ErrorBody
           (VStr (lit "OpenAI request failed (" ++ natToString (up_status resp)
                  ++ lit ")"))
           (Some (default [] (up_text resp))) |}
  else
    match up_json resp with
    | RejectedWith _ e => serverError e
    | Fulfilled _ data =>
        let text :=
          nullish
            (optProp (optProp (optIndex (optProp data (lit "choices")) 0)
                              (lit "message"))
                     (lit "content"))
            (VStr []) in
        match String_ text with
        | Throw m => serverError (thrownError m)
        | Ok str =>
            match JSON_parse str with
            | None =>
                {| r_status := 500;
                   r_body :=
                     ErrorBody
                       (VStr (lit "Model did not return valid JSON. Try again."))
                       (Some (take 2000 str)) |}
            | Some parsed =>
                match coercePlan env parsed idea0 inputs0 with
                | Ok plan => {| r_status := 200; r_body := PlanBody plan |}
                | Throw m => serverError (thrownError m)
                end
            end
        end
    end.

(** [POST(req)]: [body] is what [req.json()] gives ([None] when it
    rejects), [apiKey] is [process.env.OPENAI_API_KEY], [upstream] is the
    outcome of the one request to the provider, which is made only when the
    idea and the key are there. *)
Definition POST (env : Env) (body : option (value number))
    (apiKey : option jstring) (upstream : Settled Upstream) : HttpResponse :=
  let body := default (VObj []) body in
  let idea0 := cleanStr (optProp body (lit "idea")) in
  let inputs0 :=
    {| Home.targetCustomer := Some (cleanStr (optProp body (lit "targetCustomer")));
       Home.coreOffer := Some (cleanStr (optProp body (lit "coreOffer")));
       Home.differentiator := Some (cleanStr (optProp body (lit "differentiator")));
       Home.pricePoint := Some (cleanStr (optProp body (lit "pricePoint")));
       Home.geography := Some (cleanStr (optProp body (lit "geography")));
       Home.goal14Day := Some (cleanStr (optProp body (lit "goal14Day")));
       Home.notes := Some (cleanStr (optProp body (lit "notes"))) |} in
  if negb (truthyStr idea0) then
    {| r_status := 400;
       r_body := ErrorBody (VStr (lit "Missing business idea")) None |}
  else if negb (truthyStr (default [] apiKey)) then
    {| r_status := 500;
       r_body :=
         ErrorBody (VStr (lit "Missing OPENAI_API_KEY in .env.local")) None |}
  else
    match upstream with
    | RejectedWith _ e => serverError e
    | Fulfilled _ resp => afterUpstream env idea0 inputs0 resp
    end.
End Route.
End WithNumber.

Arguments CalendarDay : clear implicits.
Arguments PlanObject : clear implicits.
Arguments Settled : clear implicits.
Arguments Upstream : clear implicits.
Arguments Body : clear implicits.
Arguments HttpResponse : clear implicits.

End Api.

(** ** The calendar page *)

Module Calendar.

(** [string[] | string] *)
Inductive Bullets :=
  | BList (items : list jstring)
  | BText (text : jstring).

Record Step := {
  title : option jstring;
  summary : option jstring;
  whatThisDoes : option Bullets;
  howTo : option Bullets;
  output : option jstring
}.

Record Day := {
  day : nat;
  dateLabel : jstring;
  focus : jstring;
  tasks : list jstring
}.

(** An element of the [block] array of [buildDays]. *)
Record Block := {
  b_title : jstring;
  b_days : nat;
  b_bullets : list jstring
}.

(** [formatDate] of the local midnight of the current day moved on by the
    given number of calendar days. *)
Record Today := {
  labelAfter : nat -> jstring
}.

Definition PLAN_KEY : jstring := lit "bsg_latest_plan_v1".

Definition checksKey (id : jstring) : jstring :=
  lit "bsg_calendar_checks_v1_" ++ id.

Definition fallback1 : list jstring :=
  [ lit "Write your one-liner (who + outcome + why you).";
    lit "Draft landing page: headline + 3 bullets + proof + CTA.";
    lit "Write FAQs for top objections.";
    lit "Clarify pricing/packaging and a single CTA." ].

Definition fallback2 : list jstring :=
  [ lit "Pick ONE channel for the 14-day sprint.";
    lit "Create 3 hooks (pain/outcome/differentiator).";
    lit "Do today" ++ [8217] ++ lit "s outreach/content block (30" ++ [8211]
      ++ lit "60 min).";
    lit "Improve based on responses and iterate hooks.";
    lit "Follow up within 24 hours.";
    lit "Track: views " ++ [8594] ++ lit " leads " ++ [8594]
      ++ lit " conversions." ].

Definition fallback3 : list jstring :=
  [ lit "Collect proof (testimonial/screenshot/case study) and publish it.";
    lit "Improve activation/onboarding to value fast.";
    lit "Add a referral ask script and use it.";
    lit "Review metrics and lock the next sprint." ].

Definition filler : jstring :=
  lit "Execute the next best action from this step.".

(** [out[k].push(x)]; [k = None] stands for the index [NaN] that [i % 0]
    gives.  Reading a slot that does not exist gives [undefined], and
    calling [push] on it throws. *)
Definition pushAt (out : list (list jstring)) (k : option nat) (x : jstring)
  : result (list (list jstring)) :=
  match k ≫= (fun k => out !! k) with
  | Some b => Ok (<[default O k := b ++ [x]]> out)
  | None => Throw (lit "Cannot read properties of undefined (reading 'push')")
  end.

(** [i % buckets] on non-negative integers. *)
Definition remainder (i buckets : nat) : option nat :=
  match buckets with
  | O => None
  | S _ => Some (i mod buckets)%nat
  end.

(** The loop [for (let i = 0; i < items.length; i++)
    out[i % buckets].push(items[i])], from index [i] on, with the items
    that are still to come. *)
Fixpoint pushAll (buckets : nat) (i : nat) (items : list jstring)
    (out : list (list jstring)) : result (list (list jstring)) :=
  match items with
  | [] => Ok out
  | x :: rest =>
      out' <- pushAt out (remainder i buckets) x ;;
      pushAll buckets (S i) rest out'
  end.

(** [chunkEvenly(items, buckets)].  [buckets] is declared as [number];
    it is taken here as a count, a natural number (below 2^32, the longest
    array there is), which is what [buildDays] passes: 4, 6 and 4.  A
    negative or fractional count, or one from 2^32 on, is outside this
    definition. *)
Definition chunkEvenly (items : list jstring) (buckets : nat)
  : result (list (list jstring)) :=
  let out := replicate buckets [] in
  match items with
  | [] => Ok out
  | _ :: _ => pushAll buckets 0 items out
  end.

Section WithNumber.
Context {number : Type} {numberOps : JSNumber number}.

Record Plan := {
  id : option jstring;
  createdAt : option jstring;
  idea : option jstring;
  inputs : option (list (jstring * value number));
  steps : option (list Step)
}.

Definition normalizeBullets (v : value number) : result (list jstring) :=
  match v with
  | VArr elems =>
      strs <- mapResult
                (fun x => s <- String_ (nullish x (VStr [])) ;; Ok (trim s))
                elems ;;
      Ok (List.filter truthyStr strs)
  | VStr s =>
      Ok (map (fun x => trim (stripMarker x))
            (List.filter truthyStr (map trim (splitLines s))))
  | _ => Ok []
  end.

(** A field of type [string[] | string | undefined] as a value. *)
Definition bulletsValue (b : option Bullets) : value number :=
  match b with
  | None => VUndefined
  | Some (BList items) => VArr (map VStr items)
  | Some (BText text) => VStr text
  end.

(** The FNV-1a loop of [planId] as JavaScript runs it: [h] is a double
    that holds an integer, [^] and [Math.imul] work on signed 32-bit
    integers. *)
Definition hashLoop (base : jstring) : Z :=
  fold_left (fun h c => Math_imul (xor32 h c) 16777619) base 2166136261.

Definition planId (plan : option Plan) : jstring :=
  let base := orOpt (plan ≫= id) (orOpt (plan ≫= idea) (lit "latest")) in
  lit "plan_" ++ toStringRadix 16 (toUint32 (hashLoop base)).

(** [[...normalizeBullets(step?.howTo), ...normalizeBullets(step?.whatThisDoes)]] *)
Definition stepBullets (step : option Step) : result (list jstring) :=
  hs <- normalizeBullets (bulletsValue (step ≫= howTo)) ;;
  ws <- normalizeBullets (bulletsValue (step ≫= whatThisDoes)) ;;
  Ok (hs ++ ws).

(** [step?.title?.trim() || dflt] *)
Definition stepTitle (step : option Step) (dflt : jstring) : jstring :=
  orOpt (trim <$> (step ≫= title)) dflt.

(** [bullets.length ? bullets : fallback] *)
Definition orFallback (bullets fallback : list jstring) : list jstring :=
  match bullets with
  | [] => fallback
  | _ :: _ => bullets
  end.

Definition blocks (plan : option Plan) : result (list Block) :=
  let steps := default [] (plan ≫= steps) in
  let step1 := steps !! 0%nat in
  let step2 := steps !! 1%nat in
  let step3 := steps !! 2%nat in
  s1Bullets <- stepBullets step1 ;;
  s2Bullets <- stepBullets step2 ;;
  s3Bullets <- stepBullets step3 ;;
  Ok
  [ {| b_title := stepTitle step1 (lit "Step 1: Positioning");
       b_days := 4; b_bullets := orFallback s1Bullets fallback1 |};
    {| b_title := stepTitle step2 (lit "Step 2: Acquisition Sprint");
       b_days := 6; b_bullets := orFallback s2Bullets fallback2 |};
    {| b_title := stepTitle step3 (lit "Step 3: Retention & Proof");
       b_days := 4; b_bullets := orFallback s3Bullets fallback3 |} ].

(** [buckets[i].length ? buckets[i] : [filler]]; reading [length] of a
    slot that does not exist throws. *)
Definition dayTasks (buckets : list (list jstring)) (i : nat)
  : result (list jstring) :=
  match buckets !! i with
  | Some [] => Ok [filler]
  | Some bucket => Ok bucket
  | None => Throw (lit "Cannot read properties of undefined (reading 'length')")
  end.

(** The body of [for (const b of block)]; the loop state is [days] and
    the running day number [n]. *)
Definition blockDays (today : Today) (b : Block) (st : list Day * nat)
  : result (list Day * nat) :=
  buckets <- chunkEvenly (b_bullets b) (b_days b) ;;
  forRange 0 (b_days b)
    (fun i '(days, n) =>
       ts <- dayTasks buckets i ;;
       Ok (days ++ [ {| day := n; dateLabel := labelAfter today (n - 1);
                        focus := b_title b; tasks := ts |} ], S n))
    st.

Definition buildDays (today : Today) (plan : option Plan) : result (list Day) :=
  block <- blocks plan ;;
  st <- forOf block (blockDays today) ([], 1%nat) ;;
  Ok (take 14 (fst st)).

(** *** The check-box state of [CalendarPage] *)

(** [checks] is a [Record<string, boolean>], kept as its properties in
    enumeration order (the keys the page adds are never array indices, so
    a new key goes to the end). *)
Record PageState := {
  st_plan : option Plan;
  st_pid : jstring;
  st_checks : list (jstring * bool)
}.

Definition setChecks (c : list (jstring * bool)) (st : PageState) : PageState :=
  {| st_plan := st_plan st; st_pid := st_pid st; st_checks := c |}.

(** [prev[key]] *)
Fixpoint getCheck (key : jstring) (prev : list (jstring * bool)) : option bool :=
  match prev with
  | [] => None
  | (k, b) :: prev' => if decide (key = k) then Some b else getCheck key prev'
  end.

(** [{ ...prev, [key]: b }] *)
Fixpoint withCheck (key : jstring) (b : bool) (prev : list (jstring * bool))
  : list (jstring * bool) :=
  match prev with
  | [] => [(key, b)]
  | (k, b') :: prev' =>
      if decide (key = k) then (k, b) :: prev'
      else (k, b') :: withCheck key b prev'
  end.

Definition checkKey (day idx : nat) : jstring :=
  lit "d" ++ natToString day ++ lit "_t" ++ natToString idx.

Section Events.
Context {browser : Browser}.

(** The effect with dependencies [[checks, pid]].  React runs it after
    every render in which one of the two is not the same (by
    [Object.is]) as in the render before; every [setChecks] of the page
    passes a newly built object, so the effect runs after each of
    them.  A throw in the effect takes the page down. *)
Definition persistChecks (st : PageState) (ls : gmap jstring jstring)
  : result (gmap jstring jstring) :=
  setItem ls (checksKey (st_pid st)) (JSON_stringify_flags (st_checks st)).

(** The render that follows a state update, with its effect. *)
Definition commit (w : PageState * gmap jstring jstring)
  : result (PageState * gmap jstring jstring) :=
  ls' <- persistChecks (fst w) (snd w) ;;
  Ok (fst w, ls').

(** The body of [toggle]. *)
Definition toggle_handler (day idx : nat)
    (w : PageState * gmap jstring jstring)
  : PageState * gmap jstring jstring :=
  let key := checkKey day idx in
  let prev := st_checks (fst w) in
  (setChecks (withCheck key (negb (default false (getCheck key prev))) prev)
             (fst w),
   snd w).

(** The body of [resetChecks]. *)
Definition resetChecks_handler (w : PageState * gmap jstring jstring)
  : PageState * gmap jstring jstring :=
  (setChecks [] (fst w), removeItem (snd w) (checksKey (st_pid (fst w)))).

(** A click, up to the point where the page is idle again. *)
Definition toggle (day idx : nat) (w : PageState * gmap jstring jstring)
  : result (PageState * gmap jstring jstring) :=
  commit (toggle_handler day idx w).

Definition resetChecks (w : PageState * gmap jstring jstring)
  : result (PageState * gmap jstring jstring) :=
  commit (resetChecks_handler w).

(** *** Mounting the page *)

(** The state of the first render. *)
Definition initialState : PageState :=
  {| st_plan := None; st_pid := lit "latest"; st_checks := [] |}.

(** [safeJsonParse]: [raw] is what [localStorage.getItem] gave; [parse]
    is [JSON.parse] read at the type the caller asks for, [None] standing
    for a text that does not parse or that parses to [null]. *)
Definition safeJsonParse {T} (parse : jstring -> option T) (raw : option jstring)
  : option T :=
  match raw with
  | None => None
  | Some s => if truthyStr s then parse s else None
  end.

Section Mount.
Variable JSON_parse_plan : jstring -> option Plan.
Variable JSON_parse_checks : jstring -> option (list (jstring * bool)).

(** The first render and what follows it.  The loading effect reads the
    plan and the checks and asks for the three state updates; the
    persisting effect of the same render still sees the initial state; the
    render with the loaded state follows, and its persisting effect. *)
Definition mount (ls : gmap jstring jstring)
  : result (PageState * gmap jstring jstring) :=
  let p := safeJsonParse JSON_parse_plan (ls !! PLAN_KEY) in
  let id := planId p in
  let savedChecks := safeJsonParse JSON_parse_checks (ls !! checksKey id) in
  let st := {| st_plan := p; st_pid := id; st_checks := default [] savedChecks |} in
  ls1 <- persistChecks initialState ls ;;
  commit (st, ls1).
End Mount.
End Events.

(** *** A plan of the home page as this page reads it *)

(** What [JSON.parse] gives back from the [JSON.stringify] of a plan of
    the home page, at the types of this page: every field of a step is
    there, bullet fields are lists, an input that is [undefined] is left
    out. *)
Definition storedStep (s : Home.Step) : Step :=
  {| title := Some (Home.title s);
     summary := Some (Home.summary s);
     whatThisDoes := Some (BList (Home.whatThisDoes s));
     howTo := Some (BList (Home.howTo s));
     output := Some (Home.output s) |}.

Definition storedInputs (i : Home.Inputs) : list (jstring * value number) :=
  omap (fun kv : jstring * option jstring =>
          match snd kv with
          | Some s => Some (fst kv, VStr s)
          | None => None
          end)
    [ (lit "targetCustomer", Home.targetCustomer i);
      (lit "coreOffer", Home.coreOffer i);
      (lit "differentiator", Home.differentiator i);
      (lit "pricePoint", Home.pricePoint i);
      (lit "geography", Home.geography i);
      (lit "goal14Day", Home.goal14Day i);
      (lit "notes", Home.notes i) ].

Definition storedPlan (p : Home.Plan) : Plan :=
  {| id := Some (Home.id p);
     createdAt := Some (Home.createdAt p);
     idea := Some (Home.idea p);
     inputs := Some (storedInputs (Home.inputs p));
     steps := Some (storedStep <$> Home.steps p) |}.
End WithNumber.

Arguments Plan : clear implicits.
Arguments PageState : clear implicits.

End Calendar.

(** ** The specification's own words

    Definitions that follow the text of the specification, not the code;
    the theorems below compare the code with them. *)

Module Spec.

(** Round-robin bucketing: bucket [j] of [D] holds the items whose index
    [i] has [i mod D = j], in list order.  [roundRobinFrom D j i items] reads
    [items] as the part of the pool that starts at index [i]. *)
Fixpoint roundRobinFrom (D j i : nat) (items : list jstring) : list jstring :=
  match items with
  | [] => []
  | x :: rest =>
      if decide ((i mod D)%nat = j) then x :: roundRobinFrom D j (S i) rest
      else roundRobinFrom D j (S i) rest
  end.

Definition roundRobin (D : nat) (items : list jstring) : list (list jstring) :=
  map (fun j => roundRobinFrom D j 0 items) (seq 0 D).

(** 32-bit FNV-1a on unsigned integers: [h ^= code; h = h * 0x01000193]
    modulo [2^32], from [0x811c9dc5]. *)
Definition fnv1a (s : jstring) : Z :=
  fold_left (fun h c => (Z.lxor h c * 16777619) mod 2 ^ 32) s 2166136261.

(** The markers of the specification: a hyphen, a bullet dot, or digits
    followed by a full stop or a closing parenthesis.  [markerTokens pending s]
    says that [s] is a run of such markers, [pending] telling that digits
    have been read which still wait for their full stop or parenthesis. *)
Definition isDigit (c : Z) : bool := (48 <=? c) && (c <=? 57).


(** What follows the longest leading run of markers of a line: [last] is
    what followed the last marker read so far, [None] when none has been
    read. *)
Fixpoint afterMarkers (pending : bool) (last : option jstring) (s : jstring)
  : option jstring :=
  match s with
  | [] => last
  | c :: s' =>
      if isDigit c then afterMarkers true last s'
      else if pending then
        (if (c =? 46) || (c =? 41) then afterMarkers false (Some s') s' else last)
      else
        (if (c =? 45) || (c =? 8226) then afterMarkers false (Some s') s' else last)
  end.

(** "Strip a leading bullet/numbering marker (any run of such markers
    followed by whitespace) from the start of the line": the run goes with
    the white space after it; a line whose run of markers is not followed by
    white space, or that has no marker, is left as it is. *)
Definition stripLeadingMarker (x : jstring) : jstring :=
  match afterMarkers false None x with
  | Some (w :: rest) => if isWhite w then dropWhile isWhite rest else x
  | _ => x
  end.

Section WithNumber.
Context {number : Type} {numberOps : JSNumber number}.

(** The hashed string as the specification words it: [plan.id] if
    present, else [plan.idea], else ["latest"]. *)
Definition identityBase (plan : option (Calendar.Plan number)) : jstring :=
  match plan ≫= Calendar.id with
  | Some s => s
  | None =>
      match plan ≫= Calendar.idea with
      | Some s => s
      | None => lit "latest"
      end
  end.

Definition identityOf (plan : option (Calendar.Plan number)) : jstring :=
  lit "plan_" ++ toStringRadix 16 (fnv1a (identityBase plan)).

(** Bullet coercion: a list has every element stringified and trimmed
    and the empty ones dropped; a string is split on newlines, each line
    trimmed, the empty ones dropped, the leading marker of each line
    stripped; anything else gives the empty list. *)
Definition toList (v : value number) : result (list jstring) :=
  match v with
  | VArr elems =>
      strs <- mapResult (fun x => s <- String_ x ;; Ok (trim s)) elems ;;
      Ok (List.filter truthyStr strs)
  | VStr s =>
      Ok (map (fun x => trim (stripLeadingMarker x))
            (List.filter truthyStr (map trim (splitLines s))))
  | _ => Ok []
  end.
End WithNumber.

(** The calendar of the specification, section 4.2, on a plan of the
    declared type.  A bullet field is coerced to a list; the pool of a step
    is its checklist followed by its explanations (step 2); an empty pool is
    replaced by the canned list of the step's position (step 3); the
    allocation is 4, 6 and 4 days (step 1). *)
Definition coerced (b : option Calendar.Bullets) : list jstring :=
  match b with
  | None => []
  | Some (Calendar.BList items) => List.filter truthyStr (map trim items)
  | Some (Calendar.BText text) =>
      map (fun x => trim (stripMarker x))
        (List.filter truthyStr (map trim (splitLines text)))
  end.

Definition pool (step : option Calendar.Step) : list jstring :=
  coerced (step ≫= Calendar.howTo) ++ coerced (step ≫= Calendar.whatThisDoes).

Definition blocks {number : Type} (plan : option (Calendar.Plan number))
  : list Calendar.Block :=
  let steps := default [] (plan ≫= Calendar.steps) in
  [ {| Calendar.b_title :=
         Calendar.stepTitle (steps !! 0%nat) (lit "Step 1: Positioning");
       Calendar.b_days := 4;
       Calendar.b_bullets :=
         Calendar.orFallback (pool (steps !! 0%nat)) Calendar.fallback1 |};
    {| Calendar.b_title :=
         Calendar.stepTitle (steps !! 1%nat) (lit "Step 2: Acquisition Sprint");
       Calendar.b_days := 6;
       Calendar.b_bullets :=
         Calendar.orFallback (pool (steps !! 1%nat)) Calendar.fallback2 |};
    {| Calendar.b_title :=
         Calendar.stepTitle (steps !! 2%nat) (lit "Step 3: Retention & Proof");
       Calendar.b_days := 4;
       Calendar.b_bullets :=
         Calendar.orFallback (pool (steps !! 2%nat)) Calendar.fallback3 |} ].

(** An empty bucket gets the filler task (step 5); the days of a block are
    its buckets in order, numbered from [n] (steps 4 and 6); the calendar is
    the blocks' days one after the other, cut at 14 (step 7). *)
Definition tasksOf (bucket : list jstring) : list jstring :=
  match bucket with
  | [] => [Calendar.filler]
  | _ :: _ => bucket
  end.

Definition blockDays (today : Calendar.Today) (b : Calendar.Block) (n : nat)
  : list Calendar.Day :=
  imap (fun i bucket =>
          {| Calendar.day := n + i;
             Calendar.dateLabel := Calendar.labelAfter today (n + i - 1);
             Calendar.focus := Calendar.b_title b;
             Calendar.tasks := tasksOf bucket |})
       (roundRobin (Calendar.b_days b) (Calendar.b_bullets b)).

Fixpoint daysFrom (today : Calendar.Today) (bs : list Calendar.Block) (n : nat)
  : list Calendar.Day :=
  match bs with
  | [] => []
  | b :: bs' => blockDays today b n ++ daysFrom today bs' (n + Calendar.b_days b)
  end.

Definition deriveDays {number : Type}
    (today : Calendar.Today) (plan : option (Calendar.Plan number))
  : list Calendar.Day :=
  take 14 (daysFrom today (blocks plan) 1).

End Spec.

(** ** Predicates used in the statements *)

Module Props.

(** A string that [trim] leaves as it is. *)
Definition trimmed (s : jstring) : Prop := trim s = s.

(** A bullet as the list coercions give it: trimmed and not empty. *)
Definition bullet (s : jstring) : Prop := trim s = s /\ s <> [].

(** A line that the string coercion gives back unchanged: a bullet on one
    line that does not start with a marker character. *)
Definition plainLine (s : jstring) : Prop :=
  bullet s /\ Forall (fun c => c <> 10) s
  /\ match s with c :: _ => isMarker c = false | [] => True end.



(** A step as the server builds it. *)
Definition cleanStep (s : Api.PlanStep) : Prop :=
  bullet (Api.title s) /\ trimmed (Api.summary s) /\ trimmed (Api.output s)
  /\ Forall bullet (Api.whatThisDoes s) /\ Forall bullet (Api.howTo s).

(** A step as the home page's normaliser builds it: its bullets are
    trimmed, but one that came out of a multi-line string may be empty. *)
Definition cleanHomeStep (s : Home.Step) : Prop :=
  bullet (Home.title s) /\ trimmed (Home.summary s) /\ trimmed (Home.output s)
  /\ Forall trimmed (Home.whatThisDoes s) /\ Forall trimmed (Home.howTo s).

(** The calendar day the server makes of the object [d] that stands at
    position [idx] among the objects of [raw.calendarDays]. *)
Definition coercedDay {number : Type} {numberOps : JSNumber number}
    (d : value number) (idx : nat) : Api.CalendarDay number :=
  {| Api.day :=
       if Api.isNumber (optProp d (lit "day")) then optProp d (lit "day")
       else VNum (Number_ofNat (idx + 1));
     Api.c_title :=
       orStr (Api.cleanStr (optProp d (lit "title")))
             (lit "Day " ++ natToString (idx + 1));
     Api.tasks := Api.ensureArrayOfStrings (optProp d (lit "tasks")) |}.

(** The fields of a step of the home page, and of a step of the server. *)
Definition homeFields (s : Home.Step)
  : jstring * jstring * list jstring * list jstring * jstring :=
  (Home.title s, Home.summary s, Home.whatThisDoes s, Home.howTo s, Home.output s).

Definition apiFields (s : Api.PlanStep)
  : jstring * jstring * list jstring * list jstring * jstring :=
  (Api.title s, Api.summary s, Api.whatThisDoes s, Api.howTo s, Api.output s).

(** The number that a string of digits stands for in a radix: the
    reading of what [toString(radix)] writes. *)
Definition digitValue (c : Z) : Z := if c <? 58 then c - 48 else c - 87.

Definition numberOf (radix : Z) (digits : jstring) : Z :=
  fold_left (fun acc c => acc * radix + digitValue c) digits 0.

(** The store holds the check marks of the calendar page under the key of
    the page's plan. *)
Definition inSync {number : Type}
    (w : Calendar.PageState number * gmap jstring jstring) : Prop :=
  snd w !! Calendar.checksKey (Calendar.st_pid (fst w))
  = Some (JSON_stringify_flags (Calendar.st_checks (fst w))).

End Props.

(** ** Instances used in examples *)

(** Integer-valued numbers, printed in decimal. *)
#[export] Instance integerNumbers : JSNumber Z := {
  Number_toString n :=
    if n <? 0 then lit "-" ++ toStringRadix 10 (- n) else toStringRadix 10 n;
  Number_truthy n := negb (n =? 0);
  Number_ofNat := Z.of_nat
}.

(** A browser that never refuses a write. *)
Definition roomy : Browser := {| accepts := fun _ _ _ => true |}.

(** A browser whose store is full. *)
Definition full : Browser := {| accepts := fun _ _ _ => false |}.

(** * Theorems *)

Section Basics.
Context {number : Type} {numberOps : JSNumber number}.

Lemma bind_Ok {A B} (a : A) (k : A -> result B) : bind (Ok a) k = k a.
Proof. reflexivity. Qed.

Lemma truthy_not_nullish (v : value number) :
  truthy v = true -> isNullish v = false.
Proof. by destruct v. Qed.

Lemma isArray_not_nullish (v : value number) :
  isArray v = true -> isNullish v = false.
Proof. by destruct v. Qed.

(** Where [v?.k] is not nullish, [v.k] does not throw and is the same
    value. *)
Lemma prop_optProp (v : value number) (k : jstring) :
  isNullish (optProp v k) = false -> prop v k = Ok (optProp v k).
Proof.
  unfold prop, optProp. by destruct (isNullish v).
Qed.

Lemma home_padSteps_eq (k : nat) (l : list Home.Step) :
  Home.padSteps k l = l ++ (Home.emptyStep <$> seq (S (length l)) k).
Proof.
  revert l. induction k as [|k IH]; intros l; simpl.
  - by rewrite app_nil_r.
  - rewrite IH, length_app, <- app_assoc. simpl.
    by replace (length l + 1)%nat with (S (length l)) by lia.
Qed.

Lemma api_padSteps_eq (k : nat) (l : list Api.PlanStep) :
  Api.padSteps k l = l ++ (Api.emptyStep <$> seq (S (length l)) k).
Proof.
  revert l. induction k as [|k IH]; intros l; simpl.
  - by rewrite app_nil_r.
  - rewrite IH, length_app, <- app_assoc. simpl.
    by replace (length l + 1)%nat with (S (length l)) by lia.
Qed.

(** The array that [coercePlan] reads the steps from. *)
Lemma stepsRaw_ok (raw : value number) :
  (if isArray (optProp raw (lit "steps")) then
     rs <- prop raw (lit "steps") ;;
     match rs with
     | VArr elems => Ok elems
     | _ => Throw (lit "stepsRaw.slice is not a function")
     end
   else Ok [])
  = Ok (match optProp raw (lit "steps") with VArr elems => elems | _ => [] end).
Proof.
  destruct (isArray (optProp raw (lit "steps"))) eqn:E.
  - rewrite prop_optProp; [|by apply isArray_not_nullish].
    rewrite bind_Ok. revert E. by destruct (optProp raw (lit "steps")).
  - revert E. by destruct (optProp raw (lit "steps")).
Qed.
End Basics.

(** ** The plan normaliser of the home page *)

Section HomeNormaliser.
Context {number : Type} {numberOps : JSNumber number}.

(** Reading [raw.inputs] behind its guard does not throw. *)
Lemma inputsRaw_ok (raw : value number) :
  exists v : value number,
    (if truthy (optProp raw (lit "inputs")) then
       ri <- prop raw (lit "inputs") ;;
       if typeofObject ri then prop raw (lit "inputs") else Ok (VObj [])
     else Ok (VObj [])) = Ok v.
Proof.
  destruct (truthy (optProp raw (lit "inputs"))) eqn:E; [|by eexists].
  rewrite prop_optProp; [|by apply truthy_not_nullish].
  rewrite bind_Ok. destruct (typeofObject _); by eexists.
Qed.

Lemma toStrArray_array (elems : list (value number)) :
  Home.toStrArray (VArr elems)
  = List.filter truthyStr
      (trim <$> omap (fun x => match x with VStr s => Some s | _ => None end) elems).
Proof.
  unfold Home.toStrArray.
  induction elems as [|x elems IH]; [done|].
  destruct x; cbn in *; try exact IH.
  destruct (truthyStr (trim s)); by rewrite IH.
Qed.

(** C3.  For every untyped input [raw], [coercePlan] of the home page
    returns (it never throws) a plan with exactly three steps: the first
    three entries of [raw.steps], when that is an array, coerced in order,
    what lies beyond the third dropped, and the missing ones filled with
    empty steps.  Coercing an entry gives: as title its [title] trimmed when
    that is a string with something in it, else "Step" followed by its
    position; as summary and output its [summary] and its [output] (or
    [deliverable]) trimmed when they are strings, else the empty string; as
    bullets the strings of its [whatThisDoes] (or [what], [explain]) and
    [howTo] (or [how_to], [checklist]) trimmed, the empty ones left out,
    when that is a list, its lines when it is one multi-line string, and
    nothing otherwise.  An empty step has the title "Step" followed by its
    position and nothing else. *)
Theorem coercePlan_never_throws_three_steps
    (env : Home.Env) (raw : value number) (ideaFallback : jstring)
    (inputsFallback : Home.Inputs) :
  let stepsRaw :=
    match optProp raw (lit "steps") with VArr elems => elems | _ => [] end in
  let kept := take 3 stepsRaw in
  let text (v : value number) : jstring :=
    match v with VStr t => trim t | _ => [] end in
  let bullets (v : value number) : list jstring :=
    match v with
    | VArr elems =>
        List.filter truthyStr
          (trim <$> omap (fun x => match x with VStr t => Some t | _ => None end)
                      elems)
    | VStr lines =>
        (fun x => trim (stripMarker x))
          <$> List.filter truthyStr (trim <$> splitLines lines)
    | _ => []
    end in
  exists plan : Home.Plan,
    Home.coercePlan env raw ideaFallback inputsFallback = Ok plan
    /\ length (Home.steps plan) = 3%nat
    /\ Home.steps plan
       = imap (fun i s => Home.coerceStep s i) kept
         ++ (Home.emptyStep <$> seq (S (length kept)) (3 - length kept))
    /\ (forall (s : value number) (i : nat),
          Home.safeStr (optProp s (lit "title")) = [] ->
          Home.title (Home.coerceStep s i) = lit "Step " ++ natToString (i + 1))
    /\ Home.title <$> (Home.emptyStep <$> [1; 2; 3]%nat)
       = [lit "Step 1"; lit "Step 2"; lit "Step 3"]
    /\ (forall (i : nat) (s : value number),
          kept !! i = Some s ->
          Home.steps plan !! i
          = Some
              {| Home.title :=
                   (if truthyStr (text (optProp s (lit "title")))
                    then text (optProp s (lit "title"))
                    else lit "Step " ++ natToString (i + 1));
                 Home.summary := text (optProp s (lit "summary"));
                 Home.whatThisDoes :=
                   bullets
                     (nullish (nullish (optProp s (lit "whatThisDoes"))
                                       (optProp s (lit "what")))
                              (optProp s (lit "explain")));
                 Home.howTo :=
                   bullets
                     (nullish (nullish (optProp s (lit "howTo"))
                                       (optProp s (lit "how_to")))
                              (optProp s (lit "checklist")));
                 Home.output :=
                   text (nullish (optProp s (lit "output"))
                                 (optProp s (lit "deliverable"))) |})
    /\ (forall i : nat,
          (length kept <= i < 3)%nat ->
          Home.steps plan !! i
          = Some {| Home.title := lit "Step " ++ natToString (i + 1);
                    Home.summary := []; Home.whatThisDoes := [];
                    Home.howTo := []; Home.output := [] |}).
Proof.
  intros stepsRaw kept text bullets. unfold Home.coercePlan.
  destruct (inputsRaw_ok raw) as [inputsRaw ->]. rewrite bind_Ok.
  rewrite stepsRaw_ok, bind_Ok. fold stepsRaw. fold kept.
  set (coerced := imap (fun i s => Home.coerceStep s i) kept).
  assert (Hlen : length coerced = length kept) by apply length_imap.
  assert (Hkept : (length kept <= 3)%nat).
  { unfold kept. rewrite length_take. lia. }
  assert (Hpad : take 3 (Home.padSteps (3 - length coerced) coerced)
                 = coerced ++ (Home.emptyStep <$> seq (S (length kept)) (3 - length kept))).
  { rewrite home_padSteps_eq, Hlen. apply take_ge.
    rewrite length_app, length_fmap, length_seq. lia. }
  assert (Htext : forall v : value number, Home.safeStr v = text v)
    by (intros v; reflexivity).
  assert (Hbullets : forall v : value number, Home.toStrArray v = bullets v).
  { intros v. destruct v; try reflexivity. apply toStrArray_array. }
  eexists. split; [reflexivity|]. cbn [Home.steps]. rewrite Hpad.
  split; [|split; [reflexivity|split; [|split; [|split]]]].
  - rewrite length_app, length_fmap, length_seq. lia.
  - intros s i Hs. cbn [Home.coerceStep Home.title]. by rewrite Hs.
  - reflexivity.
  - intros i s Hs.
    rewrite lookup_app_l by (rewrite Hlen; by eapply lookup_lt_Some).
    unfold coerced. rewrite list_lookup_imap, Hs. cbn [fmap option_fmap option_map].
    unfold Home.coerceStep. rewrite !Hbullets, !Htext. unfold orStr.
    f_equal. f_equal.
    + change (text (optProp s (lit "summary")))
        with (Home.safeStr (optProp s (lit "summary"))).
      by destruct (Home.safeStr _).
    + change (text (nullish (optProp s (lit "output"))
                            (optProp s (lit "deliverable"))))
        with (Home.safeStr (nullish (optProp s (lit "output"))
                                    (optProp s (lit "deliverable")))).
      by destruct (Home.safeStr _).
  - intros i [Hlo Hhi].
    rewrite lookup_app_r by (rewrite Hlen; lia).
    rewrite Hlen, list_lookup_fmap, lookup_seq_lt by lia.
    cbn [fmap option_fmap option_map]. unfold Home.emptyStep.
    by replace (S (length kept) + (i - length kept))%nat with (i + 1)%nat by lia.
Qed.
End HomeNormaliser.

(** ** The server route *)

Section ApiCoercion.
Context {number : Type} {numberOps : JSNumber number}.

Lemma isNumber_not_nullish (v : value number) :
  Api.isNumber v = true -> isNullish v = false.
Proof. by destruct v. Qed.

Lemma coerceDay_ok (d : value number) (idx : nat) :
  exists c, Api.coerceDay d idx = Ok c.
Proof.
  unfold Api.coerceDay.
  destruct (Api.isNumber (optProp d (lit "day"))) eqn:E.
  - rewrite prop_optProp; [|by apply isNumber_not_nullish]. by eexists.
  - by eexists.
Qed.

Lemma mapIdx_coerceDay_ok (l : list (value number)) (idx : nat) :
  exists ds, Api.mapIdx Api.coerceDay idx l = Ok ds.
Proof.
  revert idx. induction l as [|d l IH]; intros idx; simpl; [by eexists|].
  destruct (coerceDay_ok d idx) as [c ->]. rewrite bind_Ok.
  destruct (IH (S idx)) as [ds ->]. by eexists.
Qed.

Lemma api_inputs_ok (raw : value number) (inputs0 : Home.Inputs) :
  exists v : value number + Home.Inputs,
    (if typeofObject (optProp raw (lit "inputs"))
        && truthy (optProp raw (lit "inputs"))
     then ri <- prop raw (lit "inputs") ;; Ok (inl ri)
     else Ok (inr inputs0)) = Ok v.
Proof.
  destruct (typeofObject _ && truthy _) eqn:E; [|by eexists].
  apply andb_prop in E as [_ E].
  rewrite prop_optProp; [|by apply truthy_not_nullish]. by eexists.
Qed.

(** C10.  The server's bullet coercion gives the empty list for every
    value that is not an array, a multi-line string included (nothing is
    split and no marker is stripped); so the plan the route builds has an
    empty [howTo] (or [whatThisDoes]) for every step of the response in
    which that field is not an array. *)
Theorem ensureArrayOfStrings_non_array :
  (forall x : value number, isArray x = false -> Api.ensureArrayOfStrings x = [])
  /\ (forall s : jstring, Api.ensureArrayOfStrings (VStr (number := number) s) = [])
  /\ forall (env : Api.Env) (raw : value number) (idea0 : jstring)
            (inputs0 : Home.Inputs),
       let stepsRaw :=
         match optProp raw (lit "steps") with VArr elems => elems | _ => [] end in
       exists plan : Api.PlanObject number,
         Api.coercePlan env raw idea0 inputs0 = Ok plan
         /\ length (Api.steps plan) = 3%nat
         /\ forall (i : nat) (s : value number),
              (i < 3)%nat -> stepsRaw !! i = Some s ->
              exists st : Api.PlanStep,
                Api.steps plan !! i = Some st
                /\ (isArray (optProp s (lit "howTo")) = false -> Api.howTo st = [])
                /\ (isArray (optProp s (lit "whatThisDoes")) = false ->
                    Api.whatThisDoes st = []).
Proof.
  assert (Hnon : forall x : value number,
             isArray x = false -> Api.ensureArrayOfStrings x = []).
  { intros x. by destruct x. }
  split; [exact Hnon|]. split; [reflexivity|].
  intros env raw idea0 inputs0 stepsRaw. unfold Api.coercePlan.
  rewrite stepsRaw_ok, bind_Ok. fold stepsRaw.
  assert (Hcal : exists calRaw : list (value number),
    (if isArray (optProp raw (lit "calendarDays")) then
       rc <- prop raw (lit "calendarDays") ;;
       match rc with
       | VArr elems => Ok elems
       | _ => Throw (lit "calRaw.filter is not a function")
       end
     else Ok []) = Ok calRaw).
  { destruct (isArray (optProp raw (lit "calendarDays"))) eqn:E; [|by eexists].
    rewrite prop_optProp; [|by apply isArray_not_nullish].
    rewrite bind_Ok. revert E.
    destruct (optProp raw (lit "calendarDays")); try done. by eexists. }
  destruct Hcal as [calRaw ->]. rewrite bind_Ok.
  destruct (mapIdx_coerceDay_ok
              (take 14 (List.filter (fun d => typeofObject d && truthy d) calRaw)) 0)
    as [ds ->].
  rewrite bind_Ok.
  destruct (api_inputs_ok raw inputs0) as [inp ->]. rewrite bind_Ok.
  eexists. split; [reflexivity|]. cbn [Api.steps].
  set (kept := take 3 stepsRaw).
  set (coerced := imap (fun i s => Api.coerceStep s i) kept).
  assert (Hlen : length coerced = length kept) by apply length_imap.
  assert (Hkept : (length kept <= 3)%nat).
  { unfold kept. rewrite length_take. lia. }
  rewrite api_padSteps_eq. split.
  - rewrite length_app, length_fmap, length_seq. lia.
  - intros i s Hi Hs. exists (Api.coerceStep s i). split.
    + apply lookup_app_l_Some. unfold coerced, kept.
      by rewrite list_lookup_imap, lookup_take_lt, Hs.
    + split; intros Hf; cbn [Api.coerceStep Api.howTo Api.whatThisDoes];
        by apply Hnon.
Qed.
End ApiCoercion.

(** ** Bullet coercion *)

Section Markers.
Lemma isMarker_not_white (c : Z) : isMarker c = true -> isWhite c = false.
Proof.
  unfold isMarker, isWhite. intros Hm.
  repeat match goal with
         | |- context [Z.eqb ?a ?b] => destruct (Z.eqb_spec a b)
         | |- context [Z.leb ?a ?b] => destruct (Z.leb_spec a b)
         end; try reflexivity; subst; try discriminate Hm;
    exfalso; revert Hm;
    repeat match goal with
           | |- context [Z.eqb ?a ?b] => destruct (Z.eqb_spec a b); try lia
           | |- context [Z.leb ?a ?b] => destruct (Z.leb_spec a b); try lia
           end; simpl; congruence.
Qed.

Lemma dropWhile_app_all {A} (p : A -> bool) (l k : list A) :
  forallb p l = true -> dropWhile p (l ++ k) = dropWhile p k.
Proof.
  induction l as [|x l IH]; simpl; [done|].
  intros [Hx Hl]%andb_prop. rewrite Hx. by apply IH.
Qed.

Lemma dropWhile_stop {A} (p : A -> bool) (l : list A) :
  match l with x :: _ => p x = false | [] => True end -> dropWhile p l = l.
Proof. destruct l as [|x l]; simpl; [done|]. by intros ->. Qed.

(** What the regular expression removes: leading white space, a run of
    one or more characters of the class, and the white space after it. *)
Lemma stripMarker_run (ws run rest : jstring) :
  forallb isWhite ws = true ->
  run <> [] ->
  forallb isMarker run = true ->
  match rest with c :: _ => isMarker c = false | [] => True end ->
  stripMarker (ws ++ run ++ rest) = dropWhile isWhite rest.
Proof.
  intros Hws Hne Hrun Hrest. unfold stripMarker.
  rewrite dropWhile_app_all by done.
  destruct run as [|c run]; [done|]. simpl in Hrun.
  apply andb_prop in Hrun as [Hc Hrun].
  rewrite <- app_comm_cons. simpl.
  rewrite (isMarker_not_white c Hc), Hc.
  rewrite dropWhile_app_all by done.
  by rewrite (dropWhile_stop isMarker rest).
Qed.

(** Without a character of the class after the leading white space there
    is no match, and the line is left as it is. *)
Lemma stripMarker_no_match (x : jstring) :
  match dropWhile isWhite x with c :: _ => isMarker c = false | [] => True end ->
  stripMarker x = x.
Proof.
  unfold stripMarker. destruct (dropWhile isWhite x) as [|c r]; [done|].
  by intros ->.
Qed.





End Markers.

Section BulletCoercion.
Context {number : Type} {numberOps : JSNumber number}.

Lemma toStrArray_strings (l : list jstring) :
  Home.toStrArray (number := number) (VArr (VStr <$> l))
  = List.filter truthyStr (trim <$> l).
Proof.
  unfold Home.toStrArray. f_equal.
  induction l as [|x l IH]; [done|]. cbn. f_equal. exact IH.
Qed.

Lemma mapResult_cons {A B} (f : A -> result B) (x : A) (l : list A) :
  mapResult f (x :: l) = (y <- f x ;; ys <- mapResult f l ;; Ok (y :: ys)).
Proof. reflexivity. Qed.

(** Stringifying and trimming a list of strings trims them. *)
Lemma mapResult_strings (f : value number -> result jstring) (l : list jstring) :
  (forall s : jstring, f (VStr s) = Ok (trim s)) ->
  mapResult f (VStr <$> l) = Ok (trim <$> l).
Proof.
  intros Hf. induction l as [|x l IH]; [done|].
  rewrite fmap_cons, mapResult_cons, Hf, IH. reflexivity.
Qed.


End BulletCoercion.


(** The calendar page's coercion does stringify; it throws on an object
    that cannot be converted to a string. *)
Example normalizeBullets_stringifies :
  Calendar.normalizeBullets (VArr [VNum 1; VStr (lit " a "); VNull; VObj []])
  = Ok [lit "1"; lit "a"; lit "[object Object]"]
  /\ Calendar.normalizeBullets
       (VArr [VStr (lit "a"); VObj [(lit "toString", VNum 1)]])
     = Throw (lit "Cannot convert object to primitive value").
Proof. split; reflexivity. Qed.

(** Lines as the regular expression treats them: a marker without white
    space after it, a bare number, a line that is nothing but a marker. *)
Example toStrArray_lines :
  Home.toStrArray (number := Z)
    (VStr (lit "- first" ++ [10] ++ lit "2) second" ++ [10; 10] ++ lit "-third"
           ++ [10] ++ lit "3 hooks" ++ [10] ++ lit "-" ++ [10] ++ lit "plain"))
  = [lit "first"; lit "second"; lit "third"; lit "hooks"; []; lit "plain"].
Proof. reflexivity. Qed.

(** ** The plan identity *)

Section Hash.
Lemma toInt32_mod (z : Z) : toInt32 z mod 2 ^ 32 = z mod 2 ^ 32.
Proof.
  unfold toInt32.
  rewrite (Z.mod_eq (z + 2 ^ 31) (2 ^ 32)) by lia.
  replace (z + 2 ^ 31 - 2 ^ 32 * ((z + 2 ^ 31) / 2 ^ 32) - 2 ^ 31)
    with (z + (- ((z + 2 ^ 31) / 2 ^ 32)) * 2 ^ 32) by lia.
  apply Z_mod_plus_full.
Qed.

Lemma lxor_mod (a b : Z) :
  Z.lxor a b mod 2 ^ 32 = Z.lxor (a mod 2 ^ 32) (b mod 2 ^ 32).
Proof.
  apply Z.bits_inj'. intros n Hn.
  rewrite Z.lxor_spec.
  destruct (Z.ltb_spec n 32).
  - rewrite !Z.mod_pow2_bits_low by lia. apply Z.lxor_spec.
  - by rewrite !Z.mod_pow2_bits_high by lia.
Qed.

(** One round of the loop, read modulo [2^32], is one round of
    FNV-1a. *)
Lemma hash_round (h c : Z) :
  toUint32 (Math_imul (xor32 h c) 16777619)
  = (Z.lxor (toUint32 h) c * 16777619) mod 2 ^ 32.
Proof.
  unfold toUint32, Math_imul, xor32.
  assert (Hx : Z.lxor (toInt32 h) (toInt32 c) mod 2 ^ 32
               = Z.lxor (h mod 2 ^ 32) c mod 2 ^ 32).
  { rewrite (lxor_mod (toInt32 h)), (lxor_mod (h mod 2 ^ 32)).
    rewrite !toInt32_mod. by rewrite Z.mod_mod by lia. }
  rewrite toInt32_mod.
  rewrite Z.mul_mod, (Z.mul_mod (Z.lxor (h mod 2 ^ 32) c)) by lia.
  by rewrite !toInt32_mod, Hx.
Qed.

Lemma hash_fold (s : jstring) (h h' : Z) :
  toUint32 h = h' ->
  toUint32 (fold_left (fun h c => Math_imul (xor32 h c) 16777619) s h)
  = fold_left (fun h c => (Z.lxor h c * 16777619) mod 2 ^ 32) s h'.
Proof.
  revert h h'. induction s as [|c s IH]; intros h h' Hh; simpl; [done|].
  apply IH. rewrite hash_round. by rewrite Hh.
Qed.
End Hash.

Section Identity.
Context {number : Type} {numberOps : JSNumber number}.

Lemma planId_fnv1a (plan : option (Calendar.Plan number)) :
  Calendar.planId plan
  = lit "plan_"
    ++ toStringRadix 16
         (Spec.fnv1a
            (orOpt (plan ≫= Calendar.id)
               (orOpt (plan ≫= Calendar.idea) (lit "latest")))).
Proof.
  unfold Calendar.planId, Calendar.hashLoop, Spec.fnv1a.
  do 2 f_equal. by apply hash_fold.
Qed.

(** C5, as amended.  [planId] is a function of the plan; the string it
    hashes is [plan.id] when that is present and not empty, else
    [plan.idea] when that is present and not empty, else "latest"; the
    result is "plan_" followed by the lower-case hexadecimal digits of the
    unsigned 32-bit FNV-1a hash of the UTF-16 code units of that string.
    So it tells "Coffee cart" from "Coffee Cart", and two plans with the
    same non-empty id have the same identity whatever their ideas. *)
Theorem planId_identity :
  (forall p q : option (Calendar.Plan number),
      p = q -> Calendar.planId p = Calendar.planId q)
  /\ (forall (plan : option (Calendar.Plan number)),
        exists base : jstring,
          Calendar.planId plan = lit "plan_" ++ toStringRadix 16 (Spec.fnv1a base)
          /\ match plan ≫= Calendar.id, plan ≫= Calendar.idea with
             | Some (c :: s), _ => base = c :: s
             | _, Some (c :: s) => base = c :: s
             | _, _ => base = lit "latest"
             end)
  /\ Spec.fnv1a [] = 2166136261
  /\ (forall (s : jstring) (c : Z),
        Spec.fnv1a (s ++ [c]) = (Z.lxor (Spec.fnv1a s) c * 16777619) mod 2 ^ 32)
  /\ Calendar.planId
       (Some {| Calendar.id := None; Calendar.createdAt := None;
                Calendar.idea := Some (lit "Coffee cart");
                Calendar.inputs := @None (list (jstring * value number));
                Calendar.steps := None |})
     <> Calendar.planId
          (Some {| Calendar.id := None; Calendar.createdAt := None;
                   Calendar.idea := Some (lit "Coffee Cart");
                   Calendar.inputs := @None (list (jstring * value number));
                   Calendar.steps := None |})
  /\ (forall (p q : Calendar.Plan number) (s : jstring),
        Calendar.id p = Some s -> Calendar.id q = Some s -> s <> [] ->
        Calendar.planId (Some p) = Calendar.planId (Some q)).
Proof.
  split; [by intros p q ->|].
  split.
  { intros plan. eexists. split; [apply planId_fnv1a|].
    destruct plan as [p|]; [|reflexivity]. cbn [mbind option_bind].
    destruct (Calendar.id p) as [[|c s]|];
      destruct (Calendar.idea p) as [[|c' s']|]; reflexivity. }
  split; [reflexivity|].
  split.
  { intros s c. unfold Spec.fnv1a. by rewrite fold_left_app. }
  split.
  { rewrite !planId_fnv1a. vm_compute. discriminate. }
  intros p q s Hp Hq Hs. rewrite !planId_fnv1a. simpl.
  rewrite Hp, Hq. by destruct s.
Qed.
End Identity.

(** C5 fails as stated on a plan whose id is present and empty: the code
    goes on to the idea, where the claim has the (empty) id hashed. *)
Lemma planId_skips_empty_id :
  let plan : option (Calendar.Plan Z) :=
    Some {| Calendar.id := Some []; Calendar.createdAt := None;
            Calendar.idea := Some (lit "Coffee cart");
            Calendar.inputs := None; Calendar.steps := None |} in
  Calendar.planId plan = lit "plan_f3a340f5"
  /\ Spec.identityOf plan = lit "plan_811c9dc5"
  /\ Calendar.planId plan <> Spec.identityOf plan.
Proof. vm_compute. repeat split; discriminate. Qed.

(** With an empty id the idea decides, so two such plans differ. *)
Example planId_empty_id_two_ideas :
  Calendar.planId (number := Z)
    (Some {| Calendar.id := Some []; Calendar.createdAt := None;
             Calendar.idea := Some (lit "Coffee cart");
             Calendar.inputs := None; Calendar.steps := None |})
  <> Calendar.planId (number := Z)
       (Some {| Calendar.id := Some []; Calendar.createdAt := None;
                Calendar.idea := Some (lit "Coffee Cart");
                Calendar.inputs := None; Calendar.steps := None |}).
Proof. vm_compute. discriminate. Qed.

Example planId_null :
  Calendar.planId (number := Z) None = lit "plan_41704246".
Proof. reflexivity. Qed.

(** ** Generation and the persisted store *)

Section Generation.
Context {number : Type} {numberOps : JSNumber number} {browser : Browser}.
Variable JSON_stringify : Home.Plan -> jstring.

Lemma orVal_truthy (a : value number) (s : jstring) :
  s <> [] -> truthy (Home.orVal a (VStr s)) = true.
Proof.
  intros Hs. unfold Home.orVal. destruct (truthy a) eqn:E; [done|].
  by destruct s.
Qed.

(** Every way through [onGenerate]: the store is left as it was and an
    error message is shown, or a plan was built, the store took it under
    the plan key and no error is shown. *)
(** A branch that ends with the store untouched and a message set. *)
Local Ltac failure_branch :=
  left; split; [reflexivity|]; cbn;
  first [reflexivity | by apply orVal_truthy].

Lemma onGenerate_cases (env : Home.Env) (fetched : Home.Fetched number)
    (p : Home.PageState number) (ls : gmap jstring jstring) :
  let w := Home.onGenerate JSON_stringify env fetched p ls in
  (snd w = ls /\ truthy (Home.st_error (fst w)) = true)
  \/ (exists (resp : Home.Response number) (data : value number)
             (nextPlan : Home.Plan),
        fetched = Home.Resolved resp
        /\ Home.ok resp = true /\ Home.json resp = Some data
        /\ truthy data = true
        /\ Home.coercePlan env data (trim (Home.st_idea p)) (Home.st_inputs p)
           = Ok nextPlan
        /\ snd w = <[Home.LS_PLAN_KEY := JSON_stringify nextPlan]> ls
        /\ Home.st_plan (fst w) = Some nextPlan
        /\ truthy (Home.st_error (fst w)) = false).
Proof.
  unfold Home.onGenerate. cbn zeta.
  destruct (truthyStr (trim (Home.st_idea (Home.setError (VStr []) p)))) eqn:Ei;
    cbn [negb]; [|left; split; reflexivity].
  destruct fetched as [e|resp].
  { failure_branch. }
  unfold Home.afterFetch.
  destruct (negb (Home.ok resp) || negb (truthy (default VNull (Home.json resp))))
    eqn:Ef.
  { failure_branch. }
  apply orb_false_elim in Ef as [Hok Hdata].
  apply negb_false_iff in Hok. apply negb_false_iff in Hdata.
  destruct (Home.json resp) as [data|] eqn:Ej; [|done].
  change (default VNull (Some data)) with data in *.
  cbn [Home.st_idea Home.st_inputs Home.setError Home.setLoading].
  destruct (Home.coercePlan env data (trim (Home.st_idea p)) (Home.st_inputs p))
    as [nextPlan|m] eqn:Ec.
  2:{ failure_branch. }
  unfold setItem.
  destruct (accepts ls Home.LS_PLAN_KEY (JSON_stringify nextPlan)) eqn:Ea.
  - right. exists resp, data, nextPlan. repeat split; try reflexivity; assumption.
  - failure_branch.
Qed.

(** C9.  When [onGenerate] ends in failure, the persisted store is what
    it was before: the plan key and every other entry.  Failure is a
    response that is not ok, a body that does not parse, or a rejected
    request; the same holds whenever the run ends with an error message
    on the page (an empty idea, a body that parses to a falsy value, a
    write the browser refuses). *)
Theorem onGenerate_failure_keeps_store (env : Home.Env)
    (fetched : Home.Fetched number) (p : Home.PageState number)
    (ls : gmap jstring jstring) :
  match fetched with
  | Home.Rejected _ => True
  | Home.Resolved resp => Home.ok resp = false \/ Home.json resp = None
  end
  \/ truthy (Home.st_error (fst (Home.onGenerate JSON_stringify env fetched p ls)))
     = true ->
  snd (Home.onGenerate JSON_stringify env fetched p ls) = ls.
Proof.
  intros Hfail.
  destruct (onGenerate_cases env fetched p ls)
    as [[Hls _]|(resp & data & nextPlan & -> & Hok & Hj & _ & _ & _ & _ & Herr)];
    [exact Hls|].
  exfalso. destruct Hfail as [[Hf|Hf]|Hf]; congruence.
Qed.
End Generation.

(** A response with status 500 and an error body, over a store that holds
    a plan and the checks of a calendar. *)
Lemma onGenerate_failure_keeps_store_witness :
  let stringify := fun plan : Home.Plan => Home.idea plan in
  let env := {| Home.dateNow := lit "1700000000000"; Home.randomHex := lit "9f3a";
                Home.nowISO := lit "2023-11-14T22:13:20.000Z" |} in
  let resp : Home.Response Z :=
    {| Home.ok := false; Home.status := 500;
       Home.json := Some (VObj [(lit "error", VStr (lit "Missing OPENAI_API_KEY in .env.local"))]) |} in
  let noInputs :=
    {| Home.targetCustomer := Some []; Home.coreOffer := Some [];
       Home.differentiator := Some []; Home.pricePoint := Some [];
       Home.geography := Some []; Home.goal14Day := Some []; Home.notes := Some [] |} in
  let page : Home.PageState Z :=
    {| Home.st_idea := lit "Coffee cart"; Home.st_inputs := noInputs;
       Home.st_loading := false; Home.st_error := VStr []; Home.st_plan := None |} in
  let store : gmap jstring jstring :=
    <[Home.LS_PLAN_KEY := lit "{}"]>
      (<[Calendar.checksKey (lit "plan_41704246") := lit "{}"]> ∅) in
  Home.ok resp = false
  /\ snd (Home.onGenerate (browser := roomy) stringify env (Home.Resolved resp)
            page store)
     = store.
Proof.
  intros stringify env resp noInputs page store.
  split; [reflexivity|].
  apply (onGenerate_failure_keeps_store (browser := roomy) stringify env
           (Home.Resolved resp) page store).
  left. left. reflexivity.
Defined.

(** ** The check-box state *)

Section Checks.
Context {number : Type} {numberOps : JSNumber number} {browser : Browser}.

(** What a click on "Reset checks" leaves behind when the browser takes
    the write of the effect: no check in memory, and the storage entry of
    the plan written again by the effect, holding the empty object. *)
Lemma resetChecks_outcome (st : Calendar.PageState number)
    (ls : gmap jstring jstring) :
  let key := Calendar.checksKey (Calendar.st_pid st) in
  accepts (delete key ls) key (lit "{}") = true ->
  Calendar.resetChecks (st, ls)
  = Ok (Calendar.setChecks [] st, <[key := lit "{}"]> (delete key ls)).
Proof.
  intros key Hacc.
  unfold Calendar.resetChecks, Calendar.resetChecks_handler, Calendar.commit,
    Calendar.persistChecks, setItem, removeItem.
  cbn [fst snd Calendar.st_pid Calendar.st_checks Calendar.setChecks].
  change (JSON_stringify_flags []) with (lit "{}"). fold key.
  by rewrite Hacc.
Qed.

(** The handler alone does delete the entry; it is the effect of the
    render that follows which writes it back. *)
Lemma resetChecks_handler_deletes (st : Calendar.PageState number)
    (ls : gmap jstring jstring) :
  snd (Calendar.resetChecks_handler (st, ls))
    !! Calendar.checksKey (Calendar.st_pid st) = None.
Proof. apply lookup_delete_eq. Qed.

Lemma resetChecks_entry_present (st : Calendar.PageState number)
    (ls : gmap jstring jstring) (w : Calendar.PageState number * gmap jstring jstring) :
  Calendar.resetChecks (st, ls) = Ok w ->
  Calendar.st_checks (fst w) = []
  /\ snd w !! Calendar.checksKey (Calendar.st_pid st) = Some (lit "{}").
Proof.
  unfold Calendar.resetChecks, Calendar.resetChecks_handler, Calendar.commit,
    Calendar.persistChecks, setItem, removeItem.
  cbn [fst snd Calendar.st_pid Calendar.st_checks Calendar.setChecks].
  change (JSON_stringify_flags []) with (lit "{}").
  destruct (accepts _ _ _); [|discriminate].
  intros [= <-]. split; [reflexivity|]. apply lookup_insert_eq.
Qed.
End Checks.

(** C8 at a concrete page: day 3, task 1 is checked and stored; after the
    reset has run to the end the mapping is empty, but the storage entry of
    the plan is there, holding "{}", where the claim has it absent. *)
Theorem resetChecks_leaves_empty_entry :
  let st : Calendar.PageState Z :=
    {| Calendar.st_plan := None; Calendar.st_pid := lit "plan_41704246";
       Calendar.st_checks := [(Calendar.checkKey 3 1, true)] |} in
  let key := Calendar.checksKey (lit "plan_41704246") in
  let ls : gmap jstring jstring :=
    <[key := JSON_stringify_flags [(Calendar.checkKey 3 1, true)]]> ∅ in
  exists w,
    Calendar.resetChecks (browser := roomy) (st, ls) = Ok w
    /\ Calendar.st_checks (fst w) = []
    /\ snd w !! key = Some (lit "{}")
    /\ snd w !! key <> None.
Proof.
  intros st key ls.
  destruct (Calendar.resetChecks (browser := roomy) (st, ls)) as [w|m] eqn:E.
  - exists w. split; [reflexivity|].
    destruct (resetChecks_entry_present (browser := roomy) st ls w E) as [Hc Hk].
    assert (Hk' : snd w !! key = Some (lit "{}")) by exact Hk.
    split; [exact Hc|]. split; [exact Hk'|]. by rewrite Hk'.
  - exfalso.
    pose proof (resetChecks_outcome (browser := roomy) st ls eq_refl) as H.
    rewrite H in E. discriminate E.
Qed.

Example toggle_twice :
  let st : Calendar.PageState Z :=
    {| Calendar.st_plan := None; Calendar.st_pid := lit "plan_41704246";
       Calendar.st_checks := [] |} in
  (Calendar.st_checks (fst (Calendar.toggle_handler 3 1 (st, ∅)))
   = [(lit "d3_t1", true)])
  /\ Calendar.st_checks
       (fst (Calendar.toggle_handler 3 1 (Calendar.toggle_handler 3 1 (st, ∅))))
     = [(lit "d3_t1", false)].
Proof. split; reflexivity. Qed.

(** ** Round-robin bucketing *)

Section RoundRobin.
Implicit Types (items : list jstring) (out : list (list jstring)).

Lemma roundRobinFrom_app (D j i : nat) items1 items2 :
  Spec.roundRobinFrom D j i (items1 ++ items2)
  = Spec.roundRobinFrom D j i items1
    ++ Spec.roundRobinFrom D j (i + length items1) items2.
Proof.
  revert i. induction items1 as [|x l IH]; intros i; simpl.
  - by rewrite Nat.add_0_r.
  - rewrite IH. replace (S i + length l)%nat with (i + S (length l))%nat by lia.
    by destruct (decide _).
Qed.

Lemma roundRobinFrom_sublist (D j i : nat) items :
  sublist (Spec.roundRobinFrom D j i items) items.
Proof.
  revert i. induction items as [|x l IH]; intros i; simpl; [done|].
  destruct (decide _); [apply sublist_skip | apply sublist_cons]; apply IH.
Qed.

Lemma length_roundRobin (D : nat) items : length (Spec.roundRobin D items) = D.
Proof. unfold Spec.roundRobin. by rewrite length_map, length_seq. Qed.

Lemma lookup_roundRobin (D j : nat) items :
  (j < D)%nat ->
  Spec.roundRobin D items !! j = Some (Spec.roundRobinFrom D j 0 items).
Proof.
  intros Hj. unfold Spec.roundRobin.
  change (map ?f ?l) with (f <$> l).
  by rewrite list_lookup_fmap, lookup_seq_lt.
Qed.

(** The loop of [chunkEvenly], from any index and any buckets. *)
Lemma pushAll_roundRobin (D i : nat) items out :
  (0 < D)%nat -> length out = D ->
  Calendar.pushAll D i items out
  = Ok (imap (fun j b => b ++ Spec.roundRobinFrom D j i items) out).
Proof.
  intros HD. revert i out.
  induction items as [|x rest IH]; intros i out Hlen; simpl.
  - f_equal. apply list_eq. intros k. rewrite list_lookup_imap.
    destruct (out !! k); simpl; [|done]. by rewrite app_nil_r.
  - unfold Calendar.pushAt, Calendar.remainder.
    destruct D as [|D']; [lia|]. set (D := S D') in *. cbn [mbind option_bind].
    assert (Hk : (i mod D < length out)%nat).
    { rewrite Hlen. apply Nat.mod_upper_bound. lia. }
    destruct (lookup_lt_is_Some_2 out (i mod D) Hk) as [b Hb].
    rewrite Hb. cbn [default from_option id bind].
    rewrite IH by by rewrite length_insert.
    f_equal. apply list_eq. intros k. rewrite !list_lookup_imap.
    destruct (decide ((i mod D)%nat = k)) as [<-|Hne].
    + rewrite list_lookup_insert_eq by done. rewrite Hb. simpl.
      by rewrite <- app_assoc.
    + rewrite list_lookup_insert_ne by done. done.
Qed.

Lemma chunkEvenly_roundRobin (D : nat) items :
  (0 < D)%nat -> Calendar.chunkEvenly items D = Ok (Spec.roundRobin D items).
Proof.
  intros HD. unfold Calendar.chunkEvenly.
  assert (Himap : imap (fun j b => b ++ Spec.roundRobinFrom D j 0 items)
                    (replicate D []) = Spec.roundRobin D items).
  { apply list_eq. intros k. rewrite list_lookup_imap.
    destruct (decide (k < D)%nat) as [Hk|Hk].
    - by rewrite lookup_replicate_2, lookup_roundRobin.
    - rewrite (proj1 (lookup_replicate_None D [] k)) by lia.
      symmetry. apply lookup_ge_None. rewrite length_roundRobin. lia. }
  destruct items as [|x rest].
  - f_equal. rewrite <- Himap. apply list_eq. intros k.
    rewrite list_lookup_imap.
    destruct (replicate D [] !! k); simpl; [by rewrite app_nil_r|done].
  - rewrite pushAll_roundRobin by (done || by rewrite length_replicate).
    by rewrite Himap.
Qed.

(** With no bucket to push to, the loop throws on the first item. *)
Lemma chunkEvenly_no_buckets (x : jstring) items :
  exists m, Calendar.chunkEvenly (x :: items) 0 = Throw m.
Proof. by eexists. Qed.
End RoundRobin.

Section RoundRobinPlaces.
Implicit Types (items : list jstring).

(** Position [m] of bucket [j] holds item [m * D + j]. *)
Lemma roundRobinFrom_lookup (D : nat) items :
  (0 < D)%nat ->
  forall j m : nat, (j < D)%nat ->
    Spec.roundRobinFrom D j 0 items !! m = items !! (m * D + j)%nat.
Proof.
  intros HD. induction items as [|x items IH] using rev_ind; intros j m Hj.
  - by rewrite !lookup_nil.
  - rewrite roundRobinFrom_app. cbn [Spec.roundRobinFrom].
    rewrite Nat.add_0_l.
    set (n := length items).
    pose proof (Nat.div_mod_eq n D) as Hdm.
    pose proof (Nat.mod_upper_bound n D ltac:(lia)) as Hr.
    set (q := (n / D)%nat) in *. set (r := (n mod D)%nat) in *.
    destruct (decide (r = j)) as [Hrj|Hrj].
    + (* the new item goes to this bucket, at position [q] *)
      assert (Hlen : length (Spec.roundRobinFrom D j 0 items) = q).
      { apply Nat.le_antisymm.
        - apply lookup_ge_None. rewrite IH by done.
          apply lookup_ge_None. fold n. nia.
        - destruct q as [|q']; [lia|].
          apply Nat.le_succ_l. apply lookup_lt_is_Some.
          rewrite IH by done. apply lookup_lt_is_Some. fold n. nia. }
      destruct (Nat.lt_trichotomy m q) as [Hm|[Hm|Hm]].
      * rewrite !lookup_app_l; [by apply IH| fold n; nia | lia].
      * subst m. rewrite <- Hlen at 1.
        rewrite list_lookup_middle by done.
        replace (q * D + j)%nat with (length items) by (fold n; nia).
        by rewrite list_lookup_middle.
      * rewrite !(proj2 (lookup_ge_None _ _)); [done| |].
        -- rewrite length_app. simpl. fold n. nia.
        -- rewrite length_app. simpl. lia.
    + rewrite app_nil_r, IH by done.
      destruct (Nat.lt_trichotomy (m * D + j) n) as [Hm|[Hm|Hm]].
      * by rewrite lookup_app_l.
      * exfalso. apply Hrj. unfold r. rewrite <- Hm.
        rewrite Nat.add_comm, Nat.Div0.mod_add. by apply Nat.mod_small.
      * rewrite !(proj2 (lookup_ge_None _ _)); [done| |].
        -- rewrite length_app. simpl. fold n. lia.
        -- fold n. lia.
Qed.

(** Bucket [j] has [floor(N/D)] items, and one more when [j] is below
    the remainder. *)
Lemma roundRobinFrom_length (D j : nat) items :
  (0 < D)%nat -> (j < D)%nat ->
  length (Spec.roundRobinFrom D j 0 items)
  = (length items / D + (if decide (j < length items mod D)%nat then 1 else 0))%nat.
Proof.
  intros HD Hj.
  set (n := length items).
  pose proof (Nat.div_mod_eq n D) as Hdm.
  pose proof (Nat.mod_upper_bound n D ltac:(lia)) as Hr.
  set (q := (n / D)%nat) in *. set (r := (n mod D)%nat) in *.
  set (T := (q + (if decide (j < r)%nat then 1 else 0))%nat).
  apply Nat.le_antisymm.
  - apply lookup_ge_None. rewrite roundRobinFrom_lookup by done.
    apply lookup_ge_None. fold n. unfold T. destruct (decide _); nia.
  - destruct T as [|T'] eqn:ET; [lia|].
    apply Nat.le_succ_l. apply lookup_lt_is_Some.
    rewrite roundRobinFrom_lookup by done. apply lookup_lt_is_Some.
    fold n. unfold T in ET. destruct (decide _); nia.
Qed.

(** Pushing one item to a bucket adds that item and nothing else. *)
Lemma pushAt_Permutation (out out' : list (list jstring)) (k : option nat)
    (x : jstring) :
  Calendar.pushAt out k x = Ok out' -> concat out' ≡ₚ x :: concat out.
Proof.
  unfold Calendar.pushAt. destruct k as [k|]; cbn [mbind option_bind]; [|done].
  destruct (out !! k) as [b|] eqn:Hb; [|done]. intros [= <-].
  cbn [default from_option id].
  rewrite <- (take_drop_middle out k b Hb) at 2.
  rewrite insert_take_drop by by eapply lookup_lt_Some.
  rewrite !concat_app, !concat_cons.
  rewrite <- !app_assoc. cbn [app].
  rewrite <- Permutation_middle. symmetry. apply Permutation_middle.
Qed.

Lemma pushAll_Permutation (D i : nat) items (out out' : list (list jstring)) :
  Calendar.pushAll D i items out = Ok out' ->
  concat out' ≡ₚ items ++ concat out.
Proof.
  revert i out. induction items as [|x rest IH]; intros i out; simpl.
  - by intros [= <-].
  - destruct (Calendar.pushAt out (Calendar.remainder i D) x) as [o|m] eqn:Hp;
      [|done].
    cbn [bind]. intros Hrest. rewrite (IH _ _ Hrest).
    rewrite (pushAt_Permutation _ _ _ _ Hp). symmetry. apply Permutation_middle.
Qed.

Lemma chunkEvenly_Permutation (D : nat) items (buckets : list (list jstring)) :
  Calendar.chunkEvenly items D = Ok buckets -> concat buckets ≡ₚ items.
Proof.
  unfold Calendar.chunkEvenly.
  assert (Hnil : concat (replicate D ([] : list jstring)) = []).
  { induction D; simpl; [done|]. assumption. }
  destruct items as [|x rest].
  - intros [= <-]. by rewrite Hnil.
  - intros Hp. rewrite (pushAll_Permutation _ _ _ _ _ Hp).
    by rewrite Hnil, app_nil_r.
Qed.
End RoundRobinPlaces.

(** ** The calendar deriver *)

Section Deriver.
Variable today : Calendar.Today.

Lemma dayTasks_ok (buckets : list (list jstring)) (i : nat) (b : list jstring) :
  buckets !! i = Some b -> Calendar.dayTasks buckets i = Ok (Spec.tasksOf b).
Proof. unfold Calendar.dayTasks. intros ->. by destruct b. Qed.

(** The inner loop of [buildDays] over the buckets of one block. *)
Lemma forRange_days (title : jstring) (buckets : list (list jstring))
    (c i : nat) (days : list Calendar.Day) (n : nat) :
  (i + c)%nat = length buckets ->
  forRange i c
    (fun i '(days, n) =>
       ts <- Calendar.dayTasks buckets i ;;
       Ok (days ++ [ {| Calendar.day := n;
                        Calendar.dateLabel := Calendar.labelAfter today (n - 1);
                        Calendar.focus := title; Calendar.tasks := ts |} ], S n))
    (days, n)
  = Ok (days
        ++ imap (fun k bucket =>
                   {| Calendar.day := n + k;
                      Calendar.dateLabel := Calendar.labelAfter today (n + k - 1);
                      Calendar.focus := title;
                      Calendar.tasks := Spec.tasksOf bucket |})
             (drop i buckets),
        (n + c)%nat).
Proof.
  revert i days n. induction c as [|c IH]; intros i days n Hlen.
  - rewrite drop_ge by lia. simpl. by rewrite app_nil_r, Nat.add_0_r.
  - assert (Hi : (i < length buckets)%nat) by lia.
    destruct (lookup_lt_is_Some_2 _ _ Hi) as [b Hb].
    cbn [forRange]. rewrite (dayTasks_ok _ _ _ Hb). cbn [bind].
    rewrite IH by lia.
    rewrite (drop_S _ _ _ Hb), imap_cons, <- app_assoc. cbn [app].
    rewrite Nat.add_0_r.
    replace (S n + c)%nat with (n + S c)%nat by lia.
    erewrite imap_ext; [reflexivity|].
    intros k bk _. unfold compose.
    replace (n + S k)%nat with (S n + k)%nat by lia. reflexivity.
Qed.

Lemma blockDays_ok (b : Calendar.Block) (days : list Calendar.Day) (n : nat) :
  (0 < Calendar.b_days b)%nat ->
  Calendar.blockDays today b (days, n)
  = Ok (days ++ Spec.blockDays today b n, (n + Calendar.b_days b)%nat).
Proof.
  intros HD. unfold Calendar.blockDays.
  rewrite chunkEvenly_roundRobin by done. cbn [bind].
  rewrite forRange_days by by rewrite length_roundRobin.
  by rewrite drop_0.
Qed.

Lemma forOf_blockDays (bs : list Calendar.Block) (days : list Calendar.Day)
    (n : nat) :
  Forall (fun b => 0 < Calendar.b_days b)%nat bs ->
  exists n',
    forOf bs (Calendar.blockDays today) (days, n)
    = Ok (days ++ Spec.daysFrom today bs n, n').
Proof.
  intros Hbs. revert days n.
  induction Hbs as [|b bs Hb _ IH]; intros days n; simpl.
  - exists n. by rewrite app_nil_r.
  - rewrite blockDays_ok by done. cbn [bind].
    destruct (IH (days ++ Spec.blockDays today b n) (n + Calendar.b_days b)%nat)
      as [n' ->].
    exists n'. by rewrite <- app_assoc.
Qed.

Context {number : Type} {numberOps : JSNumber number}.

(** On a field of the declared type ([string[] | string | undefined])
    the coercion does not throw. *)
Lemma normalizeBullets_typed (b : option Calendar.Bullets) :
  Calendar.normalizeBullets (number := number) (Calendar.bulletsValue b)
  = Ok (Spec.coerced b).
Proof.
  destruct b as [[items|text]|]; try reflexivity.
  cbn [Calendar.bulletsValue Calendar.normalizeBullets].
  change (map VStr items) with (VStr (number := number) <$> items).
  by rewrite mapResult_strings.
Qed.

Lemma stepBullets_pool (step : option Calendar.Step) :
  Calendar.stepBullets (number := number) step = Ok (Spec.pool step).
Proof.
  unfold Calendar.stepBullets. by rewrite !normalizeBullets_typed.
Qed.

Lemma blocks_ok (plan : option (Calendar.Plan number)) :
  Calendar.blocks plan = Ok (Spec.blocks plan).
Proof.
  unfold Calendar.blocks. cbn zeta. by rewrite !stepBullets_pool.
Qed.

Lemma blocks_days (plan : option (Calendar.Plan number)) :
  Calendar.b_days <$> Spec.blocks plan = [4; 6; 4]%nat.
Proof. reflexivity. Qed.

(** The code computes the calendar of the specification, and it never
    throws. *)
Lemma buildDays_deriveDays (plan : option (Calendar.Plan number)) :
  Calendar.buildDays today plan = Ok (Spec.deriveDays today plan).
Proof.
  unfold Calendar.buildDays, Spec.deriveDays.
  rewrite blocks_ok. cbn [bind].
  destruct (forOf_blockDays (Spec.blocks plan) [] 1) as [n' ->].
  - unfold Spec.blocks. repeat constructor; simpl; lia.
  - reflexivity.
Qed.

Lemma length_blockDays (b : Calendar.Block) (n : nat) :
  length (Spec.blockDays today b n) = Calendar.b_days b.
Proof. unfold Spec.blockDays. by rewrite length_imap, length_roundRobin. Qed.

Lemma day_blockDays (b : Calendar.Block) (n : nat) :
  Calendar.day <$> Spec.blockDays today b n = seq n (Calendar.b_days b).
Proof.
  apply list_eq. intros k. unfold Spec.blockDays.
  rewrite list_lookup_fmap, list_lookup_imap.
  destruct (decide (k < Calendar.b_days b)%nat) as [Hk|Hk].
  - rewrite lookup_roundRobin, lookup_seq_lt by done. reflexivity.
  - rewrite lookup_seq_ge by lia.
    rewrite (proj2 (lookup_ge_None (Spec.roundRobin _ _) k)); [done|].
    rewrite length_roundRobin. lia.
Qed.

Lemma focus_blockDays (b : Calendar.Block) (n : nat) :
  Calendar.focus <$> Spec.blockDays today b n
  = replicate (Calendar.b_days b) (Calendar.b_title b).
Proof.
  apply list_eq. intros k. unfold Spec.blockDays.
  rewrite list_lookup_fmap, list_lookup_imap.
  destruct (decide (k < Calendar.b_days b)%nat) as [Hk|Hk].
  - rewrite lookup_roundRobin, lookup_replicate_2 by done. reflexivity.
  - rewrite (proj1 (lookup_replicate_None _ _ k)) by lia.
    rewrite (proj2 (lookup_ge_None (Spec.roundRobin _ _) k)); [done|].
    rewrite length_roundRobin. lia.
Qed.

Lemma tasks_blockDays (b : Calendar.Block) (n : nat) :
  Calendar.tasks <$> Spec.blockDays today b n
  = Spec.tasksOf <$> Spec.roundRobin (Calendar.b_days b) (Calendar.b_bullets b).
Proof.
  unfold Spec.blockDays. rewrite fmap_imap.
  rewrite <- (imap_const Spec.tasksOf). by apply imap_ext.
Qed.

(** The three blocks' days, none cut off: 4 + 6 + 4 = 14. *)
Lemma deriveDays_blocks (plan : option (Calendar.Plan number)) :
  exists b1 b2 b3,
    Spec.blocks plan = [b1; b2; b3]
    /\ Calendar.b_days b1 = 4%nat /\ Calendar.b_days b2 = 6%nat
    /\ Calendar.b_days b3 = 4%nat
    /\ Spec.deriveDays today plan
       = Spec.blockDays today b1 1 ++ Spec.blockDays today b2 5
         ++ Spec.blockDays today b3 11.
Proof.
  unfold Spec.deriveDays, Spec.blocks.
  eexists _, _, _. split; [reflexivity|]. do 3 (split; [reflexivity|]).
  cbn [Spec.daysFrom Calendar.b_days Nat.add]. rewrite app_nil_r.
  apply take_ge. rewrite !length_app, !length_blockDays. simpl. lia.
Qed.
End Deriver.

Section DeriverDays.
Variable today : Calendar.Today.

(** Where the days of block [k] sit in the calendar. *)
Lemma daysFrom_lookup (bs : list Calendar.Block) (n k i : nat)
    (b : Calendar.Block) :
  bs !! k = Some b -> (i < Calendar.b_days b)%nat ->
  Spec.daysFrom today bs n !! (sum_list (Calendar.b_days <$> take k bs) + i)%nat
  = Spec.blockDays today b (n + sum_list (Calendar.b_days <$> take k bs)) !! i.
Proof.
  revert n k. induction bs as [|b0 bs IH]; intros n k Hk Hi; [done|].
  destruct k as [|k]; simpl in *;
    change (list_fmap Calendar.Block nat Calendar.b_days ?l)
      with (Calendar.b_days <$> l).
  - injection Hk as ->. rewrite Nat.add_0_r.
    by rewrite lookup_app_l by by rewrite length_blockDays.
  - rewrite lookup_app_r by (rewrite length_blockDays; lia).
    rewrite length_blockDays.
    replace (Calendar.b_days b0 + sum_list (Calendar.b_days <$> take k bs) + i
             - Calendar.b_days b0)%nat
      with (sum_list (Calendar.b_days <$> take k bs) + i)%nat by lia.
    rewrite (IH _ _ Hk Hi). by rewrite Nat.add_assoc.
Qed.

Lemma blockDays_lookup (b : Calendar.Block) (n i : nat) :
  (i < Calendar.b_days b)%nat ->
  Spec.blockDays today b n !! i
  = Some {| Calendar.day := n + i;
            Calendar.dateLabel := Calendar.labelAfter today (n + i - 1);
            Calendar.focus := Calendar.b_title b;
            Calendar.tasks :=
              Spec.tasksOf
                (Spec.roundRobinFrom (Calendar.b_days b) i 0 (Calendar.b_bullets b)) |}.
Proof.
  intros Hi. unfold Spec.blockDays.
  by rewrite list_lookup_imap, lookup_roundRobin.
Qed.

Context {number : Type} {numberOps : JSNumber number}.

Lemma deriveDays_all (plan : option (Calendar.Plan number)) :
  Spec.deriveDays today plan = Spec.daysFrom today (Spec.blocks plan) 1.
Proof.
  destruct (deriveDays_blocks today plan)
    as (b1 & b2 & b3 & Hb & H1 & H2 & H3 & ->).
  rewrite Hb. cbn [Spec.daysFrom]. rewrite H1, H2, app_nil_r. reflexivity.
Qed.

Lemma blocks_days_pos (plan : option (Calendar.Plan number)) (k : nat)
    (b : Calendar.Block) :
  Spec.blocks plan !! k = Some b -> (0 < Calendar.b_days b)%nat.
Proof.
  unfold Spec.blocks.
  destruct k as [|[|[|k]]]; simpl; intros [= <-]; simpl; lia.
Qed.

(** C1.  For every plan, [null] included, [buildDays] returns exactly
    14 days, numbered 1 to 14 in order; their focus labels are the title
    of step 1 four times, that of step 2 six times and that of step 3 four
    times, whatever the plan holds (a step without a title takes its
    default title). *)
Theorem buildDays_fourteen_days (plan : option (Calendar.Plan number)) :
  let steps := default [] (plan ≫= Calendar.steps) in
  exists (days : list Calendar.Day) (block : list Calendar.Block),
    Calendar.buildDays today plan = Ok days
    /\ Calendar.blocks plan = Ok block
    /\ length days = 14%nat
    /\ Calendar.day <$> days = seq 1 14
    /\ Calendar.b_days <$> block = [4; 6; 4]%nat
    /\ Calendar.focus <$> days
       = replicate 4 (Calendar.stepTitle (steps !! 0%nat) (lit "Step 1: Positioning"))
         ++ replicate 6
              (Calendar.stepTitle (steps !! 1%nat) (lit "Step 2: Acquisition Sprint"))
         ++ replicate 4
              (Calendar.stepTitle (steps !! 2%nat) (lit "Step 3: Retention & Proof")).
Proof.
  intros steps. exists (Spec.deriveDays today plan), (Spec.blocks plan).
  split; [apply buildDays_deriveDays|]. split; [apply blocks_ok|].
  destruct (deriveDays_blocks today plan)
    as (b1 & b2 & b3 & Hb & H1 & H2 & H3 & ->).
  unfold Spec.blocks in Hb. injection Hb as <- <- <-.
  split.
  { rewrite !length_app, !length_blockDays. reflexivity. }
  split.
  { rewrite !fmap_app, !day_blockDays. reflexivity. }
  split; [reflexivity|].
  rewrite !fmap_app, !focus_blockDays. reflexivity.
Qed.

(** C6.  Without a plan the calendar has 14 days, each with exactly one
    task: the four canned tasks of step 1, then the six of step 2, then
    the four of step 3, in order; no day is without a task. *)
Theorem buildDays_null_canned :
  exists days : list Calendar.Day,
    Calendar.buildDays today (@None (Calendar.Plan number)) = Ok days
    /\ length days = 14%nat
    /\ Calendar.tasks <$> days
       = (fun t => [t])
           <$> (Calendar.fallback1 ++ Calendar.fallback2 ++ Calendar.fallback3)
    /\ Calendar.tasks <$> take 4 days = (fun t => [t]) <$> Calendar.fallback1
    /\ Calendar.tasks <$> take 6 (drop 4 days) = (fun t => [t]) <$> Calendar.fallback2
    /\ Calendar.tasks <$> drop 10 days = (fun t => [t]) <$> Calendar.fallback3
    /\ Forall (fun d => Calendar.tasks d <> []) days.
Proof.
  exists (Spec.deriveDays today (@None (Calendar.Plan number))).
  split; [apply buildDays_deriveDays|].
  repeat split; try reflexivity.
  repeat constructor; discriminate.
Qed.
End DeriverDays.

Section Distribution.
Variable today : Calendar.Today.
Context {number : Type} {numberOps : JSNumber number}.

(** The general statement about [chunkEvenly]. *)
Lemma chunkEvenly_places (items : list jstring) (D : nat) :
  (0 < D)%nat ->
  exists buckets : list (list jstring),
    Calendar.chunkEvenly items D = Ok buckets
    /\ length buckets = D
    /\ (forall (i : nat) (x : jstring),
          items !! i = Some x ->
          exists b, buckets !! (i mod D)%nat = Some b /\ b !! (i / D)%nat = Some x)
    /\ (forall (j m : nat) (b : list jstring),
          buckets !! j = Some b -> b !! m = items !! (m * D + j)%nat)
    /\ concat buckets ≡ₚ items
    /\ (forall (j : nat) (b : list jstring),
          buckets !! j = Some b ->
          sublist b items
          /\ length b
             = (length items / D
                + (if decide (j < length items mod D)%nat then 1 else 0))%nat)
    /\ (forall (j k : nat) (b c : list jstring),
          buckets !! j = Some b -> buckets !! k = Some c ->
          (length b <= length c + 1)%nat).
Proof.
  intros HD. exists (Spec.roundRobin D items).
  pose proof (chunkEvenly_roundRobin D items HD) as Hch.
  assert (Hget : forall j b, Spec.roundRobin D items !! j = Some b ->
                   (j < D)%nat /\ b = Spec.roundRobinFrom D j 0 items).
  { intros j b Hb.
    assert (Hj : (j < D)%nat).
    { rewrite <- (length_roundRobin D items). by eapply lookup_lt_Some. }
    rewrite lookup_roundRobin in Hb by done. by injection Hb as <-. }
  split; [exact Hch|]. split; [apply length_roundRobin|].
  split.
  { intros i x Hx.
    assert (Hj : (i mod D < D)%nat) by (apply Nat.mod_upper_bound; lia).
    eexists. split; [by apply lookup_roundRobin|].
    rewrite roundRobinFrom_lookup by done.
    rewrite <- Hx. f_equal. pose proof (Nat.div_mod_eq i D). lia. }
  split.
  { intros j m b Hb. destruct (Hget j b Hb) as [Hj ->].
    by apply roundRobinFrom_lookup. }
  split; [by apply chunkEvenly_Permutation with D|].
  split.
  { intros j b Hb. destruct (Hget j b Hb) as [Hj ->].
    split; [apply roundRobinFrom_sublist | by apply roundRobinFrom_length]. }
  intros j k b c Hb Hc.
  destruct (Hget j b Hb) as [Hj ->]. destruct (Hget k c Hc) as [Hk ->].
  rewrite !roundRobinFrom_length by done.
  repeat destruct (decide _); lia.
Qed.

(** C2.  The pool of a step is its coerced [howTo] followed by its
    coerced [whatThisDoes] (a list of strings is coerced to its strings
    trimmed, the empty ones left out; nothing is coerced to nothing).
    [chunkEvenly] puts item [i] of N items at position [i / D] of bucket
    [i mod D], so that every item is in exactly one bucket (the buckets
    together are a permutation of the pool), each bucket keeps the list
    order, and a bucket has floor(N/D) or ceil(N/D) items.  In the calendar
    of every plan there are three blocks, of 4, 6 and 4 days, one for each
    of the first three steps; the bullets of a block are the pool of its
    step, or the canned list when the pool is empty; item [i] of the bullets
    is task [i / D] of the block's day [i mod D], and the tasks of day [j]
    of the block are the items [j], [j + D], [j + 2D], ... and nothing else
    (the generic task alone when there is no item [j]). *)
Theorem chunkEvenly_round_robin :
  ((forall items : list jstring,
       Calendar.normalizeBullets (number := number) (VArr (map VStr items))
       = Ok (List.filter truthyStr (map trim items)))
   /\ (forall text : jstring,
         Calendar.normalizeBullets (number := number) (VStr text)
         = Ok (map (fun x => trim (stripMarker x))
                 (List.filter truthyStr (map trim (splitLines text)))))
   /\ Calendar.normalizeBullets (number := number) VUndefined = Ok []
   /\ (forall step : option Calendar.Step,
         exists hs ws : list jstring,
           Calendar.normalizeBullets (number := number)
             (Calendar.bulletsValue (step ≫= Calendar.howTo)) = Ok hs
           /\ Calendar.normalizeBullets (number := number)
                (Calendar.bulletsValue (step ≫= Calendar.whatThisDoes)) = Ok ws
           /\ Calendar.stepBullets (number := number) step = Ok (hs ++ ws)))
  /\ (forall (items : list jstring) (D : nat),
        (0 < D)%nat ->
        exists buckets : list (list jstring),
          Calendar.chunkEvenly items D = Ok buckets
          /\ length buckets = D
          /\ (forall (i : nat) (x : jstring),
                items !! i = Some x ->
                exists b,
                  buckets !! (i mod D)%nat = Some b /\ b !! (i / D)%nat = Some x)
          /\ (forall (j m : nat) (b : list jstring),
                buckets !! j = Some b -> b !! m = items !! (m * D + j)%nat)
          /\ concat buckets ≡ₚ items
          /\ (forall (j : nat) (b : list jstring),
                buckets !! j = Some b ->
                sublist b items
                /\ length b
                   = (length items / D
                      + (if decide (j < length items mod D)%nat then 1 else 0))%nat)
          /\ (forall (j k : nat) (b c : list jstring),
                buckets !! j = Some b -> buckets !! k = Some c ->
                (length b <= length c + 1)%nat))
  /\ (forall plan : option (Calendar.Plan number),
        let steps := default [] (plan ≫= Calendar.steps) in
        exists (b1 b2 b3 : Calendar.Block) (pool1 pool2 pool3 : list jstring)
               (days : list Calendar.Day),
          Calendar.stepBullets (number := number) (steps !! 0%nat) = Ok pool1
          /\ Calendar.stepBullets (number := number) (steps !! 1%nat) = Ok pool2
          /\ Calendar.stepBullets (number := number) (steps !! 2%nat) = Ok pool3
          /\ Calendar.blocks plan = Ok [b1; b2; b3]
          /\ Calendar.b_days <$> [b1; b2; b3] = [4; 6; 4]%nat
          /\ Calendar.b_bullets b1
             = match pool1 with [] => Calendar.fallback1 | _ :: _ => pool1 end
          /\ Calendar.b_bullets b2
             = match pool2 with [] => Calendar.fallback2 | _ :: _ => pool2 end
          /\ Calendar.b_bullets b3
             = match pool3 with [] => Calendar.fallback3 | _ :: _ => pool3 end
          /\ Calendar.buildDays today plan = Ok days
          /\ length days = 14%nat
          /\ forall (k : nat) (b : Calendar.Block),
               [b1; b2; b3] !! k = Some b ->
               let D := Calendar.b_days b in
               let before := sum_list (Calendar.b_days <$> take k [b1; b2; b3]) in
               (forall (i : nat) (x : jstring),
                   Calendar.b_bullets b !! i = Some x ->
                   exists d : Calendar.Day,
                     days !! (before + i mod D)%nat = Some d
                     /\ Calendar.tasks d !! (i / D)%nat = Some x)
               /\ (forall j : nat,
                     (j < D)%nat ->
                     exists d : Calendar.Day,
                       days !! (before + j)%nat = Some d
                       /\ Calendar.day d = (before + j + 1)%nat
                       /\ ((Calendar.b_bullets b !! j <> None
                            /\ forall m : nat,
                                 Calendar.tasks d !! m
                                 = Calendar.b_bullets b !! (m * D + j)%nat)
                           \/ (Calendar.b_bullets b !! j = None
                               /\ Calendar.tasks d = [Calendar.filler])))).
Proof.
  split.
  { split.
    { intros items.
      apply (normalizeBullets_typed (Some (Calendar.BList items))). }
    split; [reflexivity|]. split; [reflexivity|].
    intros step.
    exists (Spec.coerced (step ≫= Calendar.howTo)),
           (Spec.coerced (step ≫= Calendar.whatThisDoes)).
    split; [apply normalizeBullets_typed|].
    split; [apply normalizeBullets_typed|]. apply stepBullets_pool. }
  split; [exact chunkEvenly_places|].
  intros plan steps.
  destruct (deriveDays_blocks today plan)
    as (b1 & b2 & b3 & Hb & H1 & H2 & H3 & Hdays).
  exists b1, b2, b3, (Spec.pool (steps !! 0%nat)), (Spec.pool (steps !! 1%nat)),
         (Spec.pool (steps !! 2%nat)), (Spec.deriveDays today plan).
  split; [apply stepBullets_pool|]. split; [apply stepBullets_pool|].
  split; [apply stepBullets_pool|].
  split; [by rewrite blocks_ok, Hb|].
  split; [by rewrite <- Hb|].
  assert (Hbullets :
    Calendar.b_bullets b1
    = match Spec.pool (steps !! 0%nat) with
      | [] => Calendar.fallback1 | _ :: _ => Spec.pool (steps !! 0%nat) end
    /\ Calendar.b_bullets b2
       = match Spec.pool (steps !! 1%nat) with
         | [] => Calendar.fallback2 | _ :: _ => Spec.pool (steps !! 1%nat) end
    /\ Calendar.b_bullets b3
       = match Spec.pool (steps !! 2%nat) with
         | [] => Calendar.fallback3 | _ :: _ => Spec.pool (steps !! 2%nat) end).
  { unfold Spec.blocks in Hb. injection Hb as <- <- <-.
    cbn [Calendar.b_bullets]. unfold Calendar.orFallback. fold steps.
    repeat split; by destruct (Spec.pool _). }
  destruct Hbullets as (Hp1 & Hp2 & Hp3).
  split; [exact Hp1|]. split; [exact Hp2|]. split; [exact Hp3|].
  split; [apply buildDays_deriveDays|].
  split.
  { rewrite Hdays, !length_app, !length_blockDays, H1, H2, H3. reflexivity. }
  intros k b Hk D before.
  assert (HD : (0 < D)%nat).
  { apply (blocks_days_pos plan k b). by rewrite Hb. }
  assert (Hday : forall j : nat,
            (j < D)%nat ->
            Spec.deriveDays today plan !! (before + j)%nat
            = Some {| Calendar.day := 1 + before + j;
                      Calendar.dateLabel :=
                        Calendar.labelAfter today (1 + before + j - 1);
                      Calendar.focus := Calendar.b_title b;
                      Calendar.tasks :=
                        Spec.tasksOf
                          (Spec.roundRobinFrom D j 0 (Calendar.b_bullets b)) |}).
  { intros j Hj. rewrite deriveDays_all. unfold before. rewrite <- Hb in Hk |- *.
    rewrite (daysFrom_lookup today _ _ _ _ _ Hk Hj).
    by rewrite blockDays_lookup. }
  split.
  - intros i x Hx.
    assert (Hj : (i mod D < D)%nat) by (apply Nat.mod_upper_bound; lia).
    rewrite (Hday _ Hj). eexists. split; [reflexivity|]. cbn [Calendar.tasks].
    assert (Hin : Spec.roundRobinFrom D (i mod D) 0 (Calendar.b_bullets b)
                  !! (i / D)%nat = Some x).
    { rewrite roundRobinFrom_lookup by done. rewrite <- Hx. f_equal.
      pose proof (Nat.div_mod_eq i D). lia. }
    destruct (Spec.roundRobinFrom _ _ _ _) as [|y bucket]; [done|].
    exact Hin.
  - intros j Hj. rewrite (Hday _ Hj). eexists. split; [reflexivity|].
    cbn [Calendar.day Calendar.tasks]. split; [lia|].
    pose proof (roundRobinFrom_lookup D (Calendar.b_bullets b) HD j) as Hget.
    destruct (Spec.roundRobinFrom D j 0 (Calendar.b_bullets b))
      as [|y bucket] eqn:E.
    + right. split; [|reflexivity].
      specialize (Hget 0%nat Hj). simpl in Hget. congruence.
    + left. cbn [Spec.tasksOf]. split.
      * specialize (Hget 0%nat Hj). simpl in Hget. congruence.
      * intros m. by apply Hget.
Qed.

(** C7.  A day whose bucket is empty gets the filler task alone, and a
    day whose bucket is not empty gets the bucket; so a step that has
    three bullets for its six days gives them, in order, to its first
    three days, one each, and the filler task to its last three. *)
Theorem buildDays_filler (plan : option (Calendar.Plan number)) :
  exists (days : list Calendar.Day) (block : list Calendar.Block),
    Calendar.buildDays today plan = Ok days
    /\ Calendar.blocks plan = Ok block
    /\ (forall (k i : nat) (b : Calendar.Block),
          block !! k = Some b -> (i < Calendar.b_days b)%nat ->
          exists (buckets : list (list jstring)) (bucket : list jstring)
                 (d : Calendar.Day),
            Calendar.chunkEvenly (Calendar.b_bullets b) (Calendar.b_days b)
            = Ok buckets
            /\ buckets !! i = Some bucket
            /\ days !! (sum_list (Calendar.b_days <$> take k block) + i)%nat
               = Some d
            /\ Calendar.tasks d
               = match bucket with
                 | [] => [Calendar.filler]
                 | _ :: _ => bucket
                 end)
    /\ Calendar.filler = lit "Execute the next best action from this step."
    /\ (forall x y z : jstring,
          Calendar.stepBullets (number := number)
            (default [] (plan ≫= Calendar.steps) !! 1%nat) = Ok [x; y; z] ->
          Calendar.tasks <$> take 6 (drop 4 days)
          = [[x]; [y]; [z]; [Calendar.filler]; [Calendar.filler];
             [Calendar.filler]]).
Proof.
  exists (Spec.deriveDays today plan), (Spec.blocks plan).
  split; [apply buildDays_deriveDays|]. split; [apply blocks_ok|]. split.
  { intros k i b Hb Hi.
    pose proof (blocks_days_pos plan k b Hb) as HD.
    eexists _, _, _. split; [by apply chunkEvenly_roundRobin|].
    split; [by apply lookup_roundRobin|].
    rewrite deriveDays_all, (daysFrom_lookup today _ _ _ _ _ Hb Hi).
    split; [by apply blockDays_lookup|]. reflexivity. }
  split; [reflexivity|].
  intros x y z. rewrite stepBullets_pool. intros [= Hpool].
  destruct (deriveDays_blocks today plan)
    as (b1 & b2 & b3 & Hb & H1 & H2 & H3 & ->).
  unfold Spec.blocks in Hb. injection Hb as <- <- <-.
  rewrite drop_app_length' by by rewrite length_blockDays.
  rewrite take_app_length' by by rewrite length_blockDays.
  rewrite tasks_blockDays. cbn [Calendar.b_days Calendar.b_bullets].
  rewrite Hpool. reflexivity.
Qed.
End Distribution.

(** Seven items over three buckets. *)
Example chunkEvenly_seven_over_three :
  Calendar.chunkEvenly
    [lit "a"; lit "b"; lit "c"; lit "d"; lit "e"; lit "f"; lit "g"] 3
  = Ok [[lit "a"; lit "d"; lit "g"]; [lit "b"; lit "e"]; [lit "c"; lit "f"]].
Proof. reflexivity. Qed.

(** A plan whose second step has two checklist items and one line of
    explanation: days 5 to 7 get them, days 8 to 10 the filler. *)
Example buildDays_three_over_six :
  let step2 :=
    {| Calendar.title := Some (lit " Reach "); Calendar.summary := None;
       Calendar.whatThisDoes := Some (Calendar.BText (lit "- explain"));
       Calendar.howTo := Some (Calendar.BList [lit "post"; lit " call "]);
       Calendar.output := None |} in
  let empty :=
    {| Calendar.title := None; Calendar.summary := None;
       Calendar.whatThisDoes := None; Calendar.howTo := None;
       Calendar.output := None |} in
  let plan : option (Calendar.Plan Z) :=
    Some {| Calendar.id := Some (lit "p1"); Calendar.createdAt := None;
            Calendar.idea := Some (lit "Coffee cart"); Calendar.inputs := None;
            Calendar.steps := Some [empty; step2; empty] |} in
  exists days : list Calendar.Day,
    Calendar.buildDays {| Calendar.labelAfter := natToString |} plan = Ok days
    /\ Calendar.day <$> take 6 (drop 4 days) = [5; 6; 7; 8; 9; 10]%nat
    /\ Calendar.focus <$> take 6 (drop 4 days) = replicate 6 (lit "Reach")
    /\ Calendar.tasks <$> take 6 (drop 4 days)
       = [[lit "post"]; [lit "call"]; [lit "explain"]; [Calendar.filler];
          [Calendar.filler]; [Calendar.filler]].
Proof. eexists. split; [reflexivity|]. repeat split. Qed.

(** ** The theorems at concrete inputs *)

(** A response with five steps.  The first has a padded title, a number
    where the summary should be, a list of bullets with a number and a blank
    in it, its check-list under the name [how_to] as one multi-line string,
    and its output under the name [deliverable]; the second is a number and
    the third a string.  Three steps are kept. *)
Lemma coercePlan_never_throws_three_steps_witness :
  let env := {| Home.dateNow := lit "1700000000000"; Home.randomHex := lit "9f3a";
                Home.nowISO := lit "2023-11-14T22:13:20.000Z" |} in
  let noInputs :=
    {| Home.targetCustomer := None; Home.coreOffer := None;
       Home.differentiator := None; Home.pricePoint := None;
       Home.geography := None; Home.goal14Day := None; Home.notes := None |} in
  let first : value Z :=
    VObj [(lit "title", VStr (lit "  Positioning "));
          (lit "summary", VNum 3);
          (lit "whatThisDoes",
           VArr [VStr (lit " makes the offer clear "); VNum 1; VStr (lit "  ")]);
          (lit "how_to",
           VStr (lit "- call ten customers" ++ [10] ++ lit "2) write the offer"));
          (lit "deliverable", VStr (lit " one page "))] in
  let raw : value Z :=
    VObj [(lit "steps", VArr [first; VNum 7; VStr (lit "x"); VNull; VObj []])] in
  exists plan : Home.Plan,
    Home.coercePlan env raw (lit "Coffee cart") noInputs = Ok plan
    /\ Home.steps plan
       = [ {| Home.title := lit "Positioning"; Home.summary := [];
              Home.whatThisDoes := [lit "makes the offer clear"];
              Home.howTo := [lit "call ten customers"; lit "write the offer"];
              Home.output := lit "one page" |};
           {| Home.title := lit "Step 2"; Home.summary := [];
              Home.whatThisDoes := []; Home.howTo := []; Home.output := [] |};
           {| Home.title := lit "Step 3"; Home.summary := [];
              Home.whatThisDoes := []; Home.howTo := []; Home.output := [] |} ].
Proof.
  intros env noInputs first raw.
  destruct (coercePlan_never_throws_three_steps env raw (lit "Coffee cart") noInputs)
    as (plan & Hp & Hlen & _ & _ & _ & Hkept & _).
  exists plan. split; [exact Hp|].
  pose proof (Hkept 0%nat first eq_refl) as H0.
  pose proof (Hkept 1%nat (VNum 7) eq_refl) as H1.
  pose proof (Hkept 2%nat (VStr (lit "x")) eq_refl) as H2.
  destruct (Home.steps plan) as [|s0 [|s1 [|s2 [|s3 rest]]]];
    try discriminate Hlen.
  injection H0 as ->. injection H1 as ->. injection H2 as ->.
  reflexivity.
Defined.

(** A multi-line string where a list is expected. *)
Lemma ensureArrayOfStrings_non_array_witness :
  Api.ensureArrayOfStrings (number := Z)
    (VStr (lit "- call ten customers" ++ [10] ++ lit "- write the offer")) = [].
Proof.
  apply (proj1 (ensureArrayOfStrings_non_array (number := Z))). reflexivity.
Defined.


(** The divergence that the amended claim leaves out: the expression of
    the code also removes a bare number and a marker that no white space
    follows, which the markers of the specification do not cover. *)
Example toStrArray_bare_number :
  Home.toStrArray (number := Z) (VStr (lit "3 hooks for the campaign"))
  = [lit "hooks for the campaign"]
  /\ Spec.toList (number := Z) (VStr (lit "3 hooks for the campaign"))
     = Ok [lit "3 hooks for the campaign"]
  /\ Home.toStrArray (number := Z) (VStr (lit "-third")) = [lit "third"]
  /\ Spec.toList (number := Z) (VStr (lit "-third")) = Ok [lit "-third"]
  /\ Home.toStrArray (number := Z) (VStr (lit "1.5x growth in leads"))
     = [lit "x growth in leads"]
  /\ Spec.toList (number := Z) (VStr (lit "1.5x growth in leads"))
     = Ok [lit "1.5x growth in leads"].
Proof. repeat split; reflexivity. Qed.

(** Two plans with the id "x" and different ideas. *)
Lemma planId_identity_witness :
  Calendar.planId (number := Z)
    (Some {| Calendar.id := Some (lit "x"); Calendar.createdAt := None;
             Calendar.idea := Some (lit "Coffee cart");
             Calendar.inputs := None; Calendar.steps := None |})
  = Calendar.planId (number := Z)
      (Some {| Calendar.id := Some (lit "x"); Calendar.createdAt := None;
               Calendar.idea := Some (lit "Coffee Cart");
               Calendar.inputs := None; Calendar.steps := None |}).
Proof.
  apply (proj2 (proj2 (proj2 (proj2 (proj2 (planId_identity (number := Z))))))
           _ _ (lit "x")); [reflexivity | reflexivity | discriminate].
Defined.

(** A plan whose second step has seven check-list items and one
    explanation: eight bullets over six days.  Day 5 gets items 0 and 6,
    day 6 gets items 1 and 7. *)
Lemma chunkEvenly_round_robin_witness :
  let step2 :=
    {| Calendar.title := Some (lit "Reach"); Calendar.summary := None;
       Calendar.whatThisDoes := Some (Calendar.BList [lit " h "]);
       Calendar.howTo :=
         Some (Calendar.BList [lit "a"; lit "b"; lit "c"; lit "d"; lit "e";
                               lit "f"; lit ""; lit "g"]);
       Calendar.output := None |} in
  let empty :=
    {| Calendar.title := None; Calendar.summary := None;
       Calendar.whatThisDoes := None; Calendar.howTo := None;
       Calendar.output := None |} in
  let plan : option (Calendar.Plan Z) :=
    Some {| Calendar.id := Some (lit "p1"); Calendar.createdAt := None;
            Calendar.idea := Some (lit "Coffee cart"); Calendar.inputs := None;
            Calendar.steps := Some [empty; step2; empty] |} in
  exists (days : list Calendar.Day) (d5 d6 : Calendar.Day),
    Calendar.buildDays {| Calendar.labelAfter := natToString |} plan = Ok days
    /\ length days = 14%nat
    /\ days !! 4%nat = Some d5 /\ Calendar.day d5 = 5%nat
    /\ Calendar.tasks d5 = [lit "a"; lit "g"]
    /\ days !! 5%nat = Some d6 /\ Calendar.day d6 = 6%nat
    /\ Calendar.tasks d6 = [lit "b"; lit "h"].
Proof.
  intros step2 empty plan.
  destruct (proj2 (proj2 (chunkEvenly_round_robin (number := Z)
                            {| Calendar.labelAfter := natToString |})) plan)
    as (b1 & b2 & b3 & pool1 & pool2 & pool3 & days
        & _ & Hpool2 & _ & _ & Hdays & _ & Hb2 & _ & Hbuild & Hlen & Hplace).
  injection Hpool2 as <-. injection Hdays as Hd1 Hd2 Hd3.
  change (Calendar.b_bullets b2
          = [lit "a"; lit "b"; lit "c"; lit "d"; lit "e"; lit "f"; lit "g";
             lit "h"]) in Hb2.
  destruct (Hplace 1%nat b2 eq_refl) as [_ Hday].
  cbn zeta in Hday. cbn [take fmap list_fmap sum_list sum_list_with] in Hday.
  rewrite Hd1, Hd2, Hb2 in Hday.
  assert (Htasks : forall (d : Calendar.Day) (x y : jstring) (j : nat),
    (Calendar.tasks d !! 0%nat = Some x) ->
    (Calendar.tasks d !! 1%nat = Some y) ->
    (Calendar.tasks d !! 2%nat = None) -> Calendar.tasks d = [x; y]).
  { intros d x y j. destruct (Calendar.tasks d) as [|t0 [|t1 [|t2 l]]];
      cbn; congruence. }
  destruct (Hday 0%nat ltac:(lia)) as (d5 & Hd5 & Hn5 & [[_ Ht5]|[Hnone _]]);
    [|discriminate Hnone].
  destruct (Hday 1%nat ltac:(lia)) as (d6 & Hd6 & Hn6 & [[_ Ht6]|[Hnone _]]);
    [|discriminate Hnone].
  exists days, d5, d6.
  split; [exact Hbuild|]. split; [exact Hlen|].
  split; [exact Hd5|]. split; [exact Hn5|].
  split; [apply (Htasks d5 _ _ 0%nat);
          [exact (Ht5 0%nat) | exact (Ht5 1%nat) | exact (Ht5 2%nat)]|].
  split; [exact Hd6|]. split; [exact Hn6|].
  apply (Htasks d6 _ _ 0%nat);
    [exact (Ht6 0%nat) | exact (Ht6 1%nat) | exact (Ht6 2%nat)].
Defined.

(** Three bullets for the six days of step 2. *)
Lemma buildDays_filler_witness :
  let step2 :=
    {| Calendar.title := Some (lit " Reach "); Calendar.summary := None;
       Calendar.whatThisDoes := Some (Calendar.BText (lit "- explain"));
       Calendar.howTo := Some (Calendar.BList [lit "post"; lit " call "]);
       Calendar.output := None |} in
  let empty :=
    {| Calendar.title := None; Calendar.summary := None;
       Calendar.whatThisDoes := None; Calendar.howTo := None;
       Calendar.output := None |} in
  let plan : option (Calendar.Plan Z) :=
    Some {| Calendar.id := Some (lit "p1"); Calendar.createdAt := None;
            Calendar.idea := Some (lit "Coffee cart"); Calendar.inputs := None;
            Calendar.steps := Some [empty; step2; empty] |} in
  exists days : list Calendar.Day,
    Calendar.buildDays {| Calendar.labelAfter := natToString |} plan = Ok days
    /\ Calendar.tasks <$> take 6 (drop 4 days)
       = [[lit "post"]; [lit "call"]; [lit "explain"]; [Calendar.filler];
          [Calendar.filler]; [Calendar.filler]].
Proof.
  intros step2 empty plan.
  destruct (buildDays_filler {| Calendar.labelAfter := natToString |} plan)
    as (days & block & Hd & _ & _ & _ & Hthree).
  exists days. split; [exact Hd|].
  apply (Hthree (lit "post") (lit "call") (lit "explain")). reflexivity.
Defined.


(** * Further properties of the code *)

(** ** [trim] and the decimal digits *)

Section Trim.
Lemma dropWhile_head {A} (p : A -> bool) (l : list A) (x : A) (r : list A) :
  dropWhile p l = x :: r -> p x = false.
Proof.
  induction l as [|a l IH]; simpl; [done|].
  destruct (p a) eqn:E; [exact IH|]. by intros [= <- _].
Qed.

Lemma dropWhile_snoc_stop {A} (p : A -> bool) (l : list A) (x : A) :
  p x = false -> dropWhile p (l ++ [x]) = dropWhile p l ++ [x].
Proof.
  intros Hx. induction l as [|a l IH]; simpl; [by rewrite Hx|].
  by destruct (p a).
Qed.

(** A string with something other than white space at both ends is
    trimmed. *)
Lemma trim_fixed (x y : Z) (p q : jstring) :
  isWhite x = false -> isWhite y = false -> x :: p = q ++ [y] ->
  trim (x :: p) = x :: p.
Proof.
  intros Hx Hy Heq. unfold trim, trimStart, trimEnd. simpl. rewrite Hx.
  rewrite Heq, rev_app_distr. simpl. rewrite Hy. simpl.
  by rewrite rev_involutive.
Qed.

(** What [trim] returns is empty or has something other than white space
    at both ends. *)
Lemma trim_ends (s : jstring) :
  trim s = []
  \/ exists (x y : Z) (p q : jstring),
       trim s = x :: p /\ x :: p = q ++ [y]
       /\ isWhite x = false /\ isWhite y = false.
Proof.
  unfold trim, trimStart, trimEnd.
  destruct (dropWhile isWhite s) as [|x u] eqn:Eu; [by left|].
  pose proof (dropWhile_head _ _ _ _ Eu) as Hx. right.
  simpl. rewrite dropWhile_snoc_stop by done.
  destruct (dropWhile isWhite (rev u)) as [|y v] eqn:Ev.
  - exists x, x, [], []. by repeat split.
  - pose proof (dropWhile_head _ _ _ _ Ev) as Hy.
    rewrite rev_app_distr. simpl.
    exists x, y, (rev v ++ [y]), (x :: rev v). by repeat split.
Qed.

Lemma trim_idem (s : jstring) : trim (trim s) = trim s.
Proof.
  destruct (trim_ends s) as [->|(x & y & p & q & -> & Heq & Hx & Hy)]; [done|].
  by eapply trim_fixed.
Qed.

Lemma trim_nil : trim [] = [].
Proof. reflexivity. Qed.

(** A trimmed string that is not empty starts with something other than
    white space. *)
Lemma trimmed_head (s : jstring) :
  trim s = s -> match s with c :: _ => isWhite c = false | [] => True end.
Proof.
  intros Hs. destruct (trim_ends s) as [H|(x & y & p & q & H & _ & Hx & _)];
    rewrite Hs in H; by subst.
Qed.

Lemma digitsOf_acc (fuel : nat) (radix n : Z) (acc : jstring) :
  digitsOf fuel radix n acc = digitsOf fuel radix n [] ++ acc.
Proof.
  revert n acc. induction fuel as [|f IH]; intros n acc; simpl; [done|].
  destruct (n / radix =? 0); [done|].
  rewrite IH, (IH _ [_]). by rewrite <- app_assoc.
Qed.

(** A number printed in decimal ends with a digit. *)
Lemma natToString_last (n : nat) :
  exists (p : jstring) (d : Z), natToString n = p ++ [d] /\ 48 <= d <= 57.
Proof.
  unfold natToString, toStringRadix. cbn [digitsOf].
  set (z := Z.of_nat n).
  assert (Hd : 48 <= digitChar (z mod 10) <= 57).
  { pose proof (Z.mod_pos_bound z 10 ltac:(lia)). unfold digitChar.
    destruct (Z.ltb_spec (z mod 10) 10); lia. }
  destruct (z / 10 =? 0).
  - by exists [], (digitChar (z mod 10)).
  - rewrite digitsOf_acc. by eexists _, _.
Qed.

Lemma digit_not_white (d : Z) : 48 <= d <= 57 -> isWhite d = false.
Proof.
  intros Hd. unfold isWhite.
  repeat match goal with
         | |- context [Z.eqb ?a ?b] => destruct (Z.eqb_spec a b); [lia|]
         | |- context [Z.leb ?a ?b] => destruct (Z.leb_spec a b); try lia
         end; reflexivity.
Qed.

(** "Step 3", "Day 12" and the like are trimmed. *)
Lemma trim_label (c : Z) (label : jstring) (n : nat) :
  isWhite c = false ->
  trim ((c :: label) ++ natToString n) = (c :: label) ++ natToString n.
Proof.
  intros Hc. destruct (natToString_last n) as (p & d & -> & Hd).
  rewrite <- app_comm_cons.
  apply (trim_fixed c d _ ((c :: label) ++ p)); [done| |].
  - by apply digit_not_white.
  - by rewrite <- app_assoc.
Qed.
End Trim.

(** ** What the coercions return *)

Section CoercionResults.
Context {number : Type} {numberOps : JSNumber number}.

Lemma filter_bullets (l : list jstring) :
  Forall Props.bullet l -> List.filter truthyStr (trim <$> l) = l.
Proof.
  induction 1 as [|x l [Hx Hne] _ IH]; [done|].
  cbn [fmap list_fmap List.filter].
  change (list_fmap jstring jstring trim l) with (trim <$> l).
  rewrite Hx, IH. by destruct x.
Qed.

Lemma filter_trimmed (l : list jstring) :
  Forall Props.trimmed l ->
  List.filter truthyStr (trim <$> l) = List.filter truthyStr l.
Proof.
  induction 1 as [|x l Hx _ IH]; [done|].
  cbn [fmap list_fmap List.filter].
  change (list_fmap jstring jstring trim l) with (trim <$> l).
  by rewrite Hx, IH.
Qed.

Lemma safeStr_trimmed (v : value number) : Props.trimmed (Home.safeStr v).
Proof. destruct v; try reflexivity. apply trim_idem. Qed.

Lemma toStrArray_list_bullets (elems : list (value number)) :
  Forall Props.bullet (Home.toStrArray (VArr elems)).
Proof.
  unfold Home.toStrArray.
  induction elems as [|x elems IH]; [constructor|].
  cbn [map List.filter].
  destruct (truthyStr (Home.safeStr x)) eqn:E; [|exact IH].
  constructor; [|exact IH]. split; [apply safeStr_trimmed|].
  by destruct (Home.safeStr x).
Qed.

Lemma toStrArray_trimmed (v : value number) :
  Forall Props.trimmed (Home.toStrArray v).
Proof.
  destruct v; try constructor.
  - unfold Home.toStrArray.
    induction (List.filter truthyStr (map trim (splitLines s))) as [|x l IH];
      [constructor|].
    constructor; [apply trim_idem | exact IH].
  - eapply Forall_impl; [apply toStrArray_list_bullets|]. by intros x [Hx _].
Qed.

Lemma length_list_filter {A} (p : A -> bool) (l : list A) :
  (length (List.filter p l) <= length l)%nat.
Proof. induction l as [|x l IH]; simpl; [done|]. destruct (p x); simpl; lia. Qed.

(** X2.  On a list, the normaliser's bullet coercion returns only trimmed,
    non-empty strings, never more of them than the list has elements;
    coercing its own result again changes nothing; and the server's
    coercion gives the same list. *)
Theorem toStrArray_list_idempotent (elems : list (value number)) :
  Forall Props.bullet (Home.toStrArray (VArr elems))
  /\ (length (Home.toStrArray (VArr elems)) <= length elems)%nat
  /\ Home.toStrArray (number := number) (VArr (VStr <$> Home.toStrArray (VArr elems)))
     = Home.toStrArray (VArr elems)
  /\ Api.ensureArrayOfStrings (VArr elems) = Home.toStrArray (VArr elems).
Proof.
  split; [apply toStrArray_list_bullets|]. split.
  { unfold Home.toStrArray.
    etrans; [apply length_list_filter|]. by rewrite length_map. }
  split; [|reflexivity].
  rewrite toStrArray_strings. apply filter_bullets, toStrArray_list_bullets.
Qed.

Lemma splitLines_line (x : jstring) :
  Forall (fun c => c <> 10) x -> splitLines x = [x].
Proof.
  induction 1 as [|c x Hc _ IH]; [done|]. cbn [splitLines].
  destruct (Z.eqb_spec c 10); [done|]. by rewrite IH.
Qed.

Lemma splitLines_break (x rest : jstring) :
  Forall (fun c => c <> 10) x ->
  splitLines (x ++ 10 :: rest) = x :: splitLines rest.
Proof.
  induction 1 as [|c x Hc _ IH]; [done|].
  rewrite <- app_comm_cons. cbn [splitLines].
  destruct (Z.eqb_spec c 10); [done|]. by rewrite IH.
Qed.

(** Splitting on newlines undoes joining with newlines. *)
Lemma splitLines_join (x : jstring) (l : list jstring) :
  Forall (fun y => Forall (fun c => c <> 10) y) (x :: l) ->
  splitLines (join [10] (x :: l)) = x :: l.
Proof.
  revert x. induction l as [|y l IH]; intros x Hl.
  - apply splitLines_line. by inversion Hl.
  - inversion Hl as [|? ? Hx Hrest]; subst.
    change (join [10] (x :: y :: l)) with (x ++ 10 :: join [10] (y :: l)).
    rewrite splitLines_break by done. by rewrite IH.
Qed.

Lemma plainLine_kept (x : jstring) :
  Props.plainLine x -> trim (stripMarker x) = x /\ trim x = x /\ truthyStr x = true.
Proof.
  intros ((Hx & Hne) & _ & Hm).
  pose proof (trimmed_head x Hx) as Hw.
  rewrite stripMarker_no_match.
  - split; [done|]. split; [done|]. by destruct x.
  - destruct x as [|c x]; [done|]. simpl. by rewrite Hw.
Qed.

(** X3.  Lines that the coercion would leave alone (trimmed, not empty,
    without a newline inside, not starting with a marker character) come
    back unchanged when they are joined with newlines and coerced as one
    string. *)
Theorem toStrArray_join_round_trip (l : list jstring) :
  Forall Props.plainLine l ->
  Home.toStrArray (number := number) (VStr (join [10] l)) = l.
Proof.
  intros Hl. unfold Home.toStrArray.
  destruct l as [|x l]; [reflexivity|].
  rewrite splitLines_join.
  2:{ eapply Forall_impl; [exact Hl|]. by intros y (_ & Hy & _). }
  induction Hl as [|y l' Hy _ IH]; [done|].
  destruct (plainLine_kept y Hy) as (Hs & Ht & Hne).
  cbn [map List.filter]. rewrite Ht, Hne. cbn [map]. rewrite Hs.
  f_equal. exact IH.
Qed.
End CoercionResults.

Lemma toStrArray_join_round_trip_witness :
  Forall Props.plainLine [lit "Call ten customers"; lit "Write the offer"]
  /\ Home.toStrArray (number := Z)
       (VStr (join [10] [lit "Call ten customers"; lit "Write the offer"]))
     = [lit "Call ten customers"; lit "Write the offer"].
Proof.
  assert (H : Forall Props.plainLine
                [lit "Call ten customers"; lit "Write the offer"]).
  { repeat constructor; try discriminate; intros [=]. }
  split; [exact H|]. exact (toStrArray_join_round_trip _ H).
Defined.

(** ** The plans the two normalisers build *)

Section NormalisedPlans.
Context {number : Type} {numberOps : JSNumber number}.

Lemma orStr_bullet (a b : jstring) :
  Props.trimmed a -> Props.bullet b -> Props.bullet (orStr a b).
Proof.
  intros Ha Hb. unfold orStr. destruct a as [|c a]; [exact Hb|]. by split.
Qed.

Lemma orStr_trimmed (a : jstring) : Props.trimmed a -> Props.trimmed (orStr a []).
Proof. intros Ha. unfold orStr. by destruct a. Qed.

Lemma label_bullet (c : Z) (label : jstring) (n : nat) :
  isWhite c = false -> Props.bullet ((c :: label) ++ natToString n).
Proof. intros Hc. split; [by apply trim_label | done]. Qed.

Lemma home_coerceStep_clean (s : value number) (i : nat) :
  Props.cleanHomeStep (Home.coerceStep s i).
Proof.
  split.
  { apply orStr_bullet; [apply safeStr_trimmed|].
    by apply (label_bullet 83 (lit "tep ")). }
  split; [apply orStr_trimmed, safeStr_trimmed|].
  split; [apply orStr_trimmed, safeStr_trimmed|].
  split; apply toStrArray_trimmed.
Qed.

Lemma home_emptyStep_clean (n : nat) : Props.cleanHomeStep (Home.emptyStep n).
Proof.
  split; [by apply (label_bullet 83 (lit "tep "))|].
  repeat split; constructor.
Qed.

(** The plan of the home page, field by field. *)
Lemma home_coercePlan_shape (env : Home.Env) (raw : value number)
    (ideaFallback : jstring) (inputsFallback : Home.Inputs) :
  let kept :=
    take 3 (match optProp raw (lit "steps") with VArr elems => elems | _ => [] end) in
  exists plan : Home.Plan,
    Home.coercePlan env raw ideaFallback inputsFallback = Ok plan
    /\ Home.id plan
       = orStr (Home.safeStr (optProp raw (lit "id")))
           (lit "plan_" ++ Home.dateNow env ++ lit "_" ++ Home.randomHex env)
    /\ Home.createdAt plan
       = orStr (Home.safeStr (optProp raw (lit "createdAt"))) (Home.nowISO env)
    /\ Home.idea plan
       = orStr (Home.safeStr (optProp raw (lit "idea"))) ideaFallback
    /\ Home.steps plan
       = imap (fun i s => Home.coerceStep s i) kept
         ++ (Home.emptyStep <$> seq (S (length kept)) (3 - length kept)).
Proof.
  intros kept. unfold Home.coercePlan.
  destruct (inputsRaw_ok raw) as [inputsRaw ->]. rewrite bind_Ok.
  rewrite stepsRaw_ok, bind_Ok. fold kept.
  eexists. split; [reflexivity|]. do 3 (split; [reflexivity|]).
  cbn [Home.steps]. rewrite home_padSteps_eq, length_imap.
  apply take_ge. rewrite length_app, length_fmap, length_seq, length_imap.
  assert ((length kept <= 3)%nat) by (unfold kept; rewrite length_take; lia).
  lia.
Qed.

(** X1.  Whatever the input, the plan of the home page has an id that is
    not empty, an idea that is the caller's fallback or a trimmed non-empty
    string, and three steps whose titles are trimmed and not empty and whose
    other texts and bullets are trimmed. *)
Theorem coercePlan_clean_plan (env : Home.Env) (raw : value number)
    (ideaFallback : jstring) (inputsFallback : Home.Inputs) :
  exists plan : Home.Plan,
    Home.coercePlan env raw ideaFallback inputsFallback = Ok plan
    /\ Home.id plan <> []
    /\ (Home.idea plan = ideaFallback \/ Props.bullet (Home.idea plan))
    /\ length (Home.steps plan) = 3%nat
    /\ Forall Props.cleanHomeStep (Home.steps plan).
Proof.
  destruct (home_coercePlan_shape env raw ideaFallback inputsFallback)
    as (plan & Hp & Hid & _ & Hidea & Hsteps).
  exists plan. split; [exact Hp|]. split.
  { rewrite Hid. unfold orStr.
    by destruct (Home.safeStr (optProp raw (lit "id"))). }
  split.
  { rewrite Hidea. unfold orStr.
    pose proof (safeStr_trimmed (optProp raw (lit "idea"))) as Ht.
    destruct (Home.safeStr (optProp raw (lit "idea"))) as [|c a];
      [left; reflexivity|].
    right. split; [exact Ht | discriminate]. }
  rewrite Hsteps. split.
  { rewrite length_app, length_fmap, length_seq, length_imap, length_take. lia. }
  apply Forall_app. split.
  - apply Forall_forall. intros s [i [x [-> _]]]%elem_of_lookup_imap.
    apply home_coerceStep_clean.
  - apply Forall_fmap, Forall_forall. intros n _. apply home_emptyStep_clean.
Qed.

Lemma api_coerceStep_clean (s : value number) (i : nat) :
  Props.cleanStep (Api.coerceStep s i).
Proof.
  assert (Hc : forall v : value number, Props.trimmed (Api.cleanStr v)).
  { intros v. destruct v; try reflexivity. apply trim_idem. }
  split.
  { apply orStr_bullet; [apply Hc|].
    by apply (label_bullet 83 (lit "tep ")). }
  split; [apply orStr_trimmed, Hc|].
  split; [apply orStr_trimmed, Hc|].
  cbn [Api.coerceStep Api.whatThisDoes Api.howTo].
  split.
  - destruct (optProp s (lit "whatThisDoes")); try constructor.
    apply (toStrArray_list_bullets elems).
  - destruct (optProp s (lit "howTo")); try constructor.
    apply (toStrArray_list_bullets elems).
Qed.

Lemma api_emptyStep_clean (n : nat) : Props.cleanStep (Api.emptyStep n).
Proof.
  split; [by apply (label_bullet 83 (lit "tep "))|].
  repeat split; constructor.
Qed.

(** The client's coercion of a step that the server built gives the same
    fields back. *)
Lemma home_coerceStep_stepJSON (s : Api.PlanStep) (i : nat) :
  Props.cleanStep s ->
  Props.homeFields (Home.coerceStep (Api.stepJSON (number := number) s) i) = Props.apiFields s.
Proof.
  intros ([Ht Htne] & Hsum & Hout & Hw & Hh).
  unfold Props.homeFields, Props.apiFields, Home.coerceStep.
  cbn [Home.title Home.summary Home.whatThisDoes Home.howTo Home.output].
  change (optProp (Api.stepJSON (number := number) s) (lit "title")) with (VStr (number := number) (Api.title s)).
  change (optProp (Api.stepJSON (number := number) s) (lit "summary"))
    with (VStr (number := number) (Api.summary s)).
  change (optProp (Api.stepJSON (number := number) s) (lit "whatThisDoes"))
    with (VArr (number := number) (VStr <$> Api.whatThisDoes s)).
  change (optProp (Api.stepJSON (number := number) s) (lit "howTo"))
    with (VArr (number := number) (VStr <$> Api.howTo s)).
  change (optProp (Api.stepJSON (number := number) s) (lit "output"))
    with (VStr (number := number) (Api.output s)).
  cbn [nullish isNullish Home.safeStr].
  rewrite !toStrArray_strings, !filter_bullets by done.
  unfold Props.trimmed in *. rewrite Ht, Hsum, Hout.
  unfold orStr. destruct (Api.title s); [done|].
  by destruct (Api.summary s), (Api.output s).
Qed.
End NormalisedPlans.

(** ** The server's plan *)

Section ServerPlan.
Context {number : Type} {numberOps : JSNumber number}.

Lemma coerceDay_eq (d : value number) (idx : nat) :
  Api.coerceDay d idx = Ok (Props.coercedDay d idx).
Proof.
  unfold Api.coerceDay, Props.coercedDay.
  destruct (Api.isNumber (optProp d (lit "day"))) eqn:E; [|reflexivity].
  by rewrite prop_optProp by by apply isNumber_not_nullish.
Qed.

Lemma mapIdx_coerceDay_eq (l : list (value number)) (idx : nat) :
  Api.mapIdx Api.coerceDay idx l
  = Ok (imap (fun k d => Props.coercedDay d (idx + k)) l).
Proof.
  revert idx. induction l as [|d l IH]; intros idx; [reflexivity|].
  cbn [Api.mapIdx]. rewrite coerceDay_eq, IH. cbn [bind].
  rewrite imap_cons, Nat.add_0_r. do 2 f_equal.
  apply imap_ext. intros k x _. unfold compose. f_equal. lia.
Qed.

Lemma api_padDays_eq (k : nat) (l : list (Api.CalendarDay number)) :
  Api.padDays k l = l ++ (Api.fillerDay <$> seq (S (length l)) k).
Proof.
  revert l. induction k as [|k IH]; intros l; simpl.
  - by rewrite app_nil_r.
  - rewrite IH, length_app, <- app_assoc. simpl.
    by replace (length l + 1)%nat with (S (length l)) by lia.
Qed.

(** The server's plan, field by field. *)
Lemma api_coercePlan_shape (env : Api.Env) (raw : value number)
    (idea0 : jstring) (inputs0 : Home.Inputs) :
  let kept :=
    take 3 (match optProp raw (lit "steps") with VArr elems => elems | _ => [] end) in
  let objs :=
    take 14
      (List.filter (fun d => typeofObject d && truthy d)
         (match optProp raw (lit "calendarDays") with
          | VArr elems => elems
          | _ => []
          end)) in
  exists plan : Api.PlanObject number,
    Api.coercePlan env raw idea0 inputs0 = Ok plan
    /\ Api.idea plan = orStr (Api.cleanStr (optProp raw (lit "idea"))) idea0
    /\ Api.id plan = orStr (Api.cleanStr (optProp raw (lit "id"))) (Api.uid env)
    /\ Api.inputs plan
       = (if typeofObject (optProp raw (lit "inputs"))
             && truthy (optProp raw (lit "inputs"))
          then inl (optProp raw (lit "inputs")) else inr inputs0)
    /\ Api.steps plan
       = imap (fun i s => Api.coerceStep s i) kept
         ++ (Api.emptyStep <$> seq (S (length kept)) (3 - length kept))
    /\ Api.calendarDays plan
       = imap (fun k d => Props.coercedDay d k) objs
         ++ (Api.fillerDay <$> seq (S (length objs)) (14 - length objs)).
Proof.
  intros kept objs. unfold Api.coercePlan.
  rewrite stepsRaw_ok, bind_Ok. fold kept.
  assert (Hcal :
    (if isArray (optProp raw (lit "calendarDays")) then
       rc <- prop raw (lit "calendarDays") ;;
       match rc with
       | VArr elems => Ok elems
       | _ => Throw (lit "calRaw.filter is not a function")
       end
     else Ok [])
    = Ok (match optProp raw (lit "calendarDays") with
          | VArr elems => elems
          | _ => []
          end)).
  { destruct (isArray (optProp raw (lit "calendarDays"))) eqn:E.
    - rewrite prop_optProp; [|by apply isArray_not_nullish].
      rewrite bind_Ok. revert E.
      by destruct (optProp raw (lit "calendarDays")).
    - revert E. by destruct (optProp raw (lit "calendarDays")). }
  rewrite Hcal, bind_Ok. fold objs.
  rewrite mapIdx_coerceDay_eq, bind_Ok.
  assert (Hin :
    (if typeofObject (optProp raw (lit "inputs"))
        && truthy (optProp raw (lit "inputs"))
     then ri <- prop raw (lit "inputs") ;; Ok (inl ri)
     else Ok (inr inputs0))
    = Ok (if typeofObject (optProp raw (lit "inputs"))
             && truthy (optProp raw (lit "inputs"))
          then inl (optProp raw (lit "inputs")) else inr inputs0)).
  { destruct (typeofObject _ && truthy _) eqn:E; [|reflexivity].
    apply andb_prop in E as [_ E].
    by rewrite prop_optProp by by apply truthy_not_nullish. }
  rewrite Hin, bind_Ok.
  eexists. split; [reflexivity|]. do 3 (split; [reflexivity|]).
  cbn [Api.steps Api.calendarDays].
  rewrite api_padSteps_eq, api_padDays_eq, !length_imap. done.
Qed.

(** X4.  The server always answers with fourteen calendar days.  Entries
    of [raw.calendarDays] that are not objects are skipped, and the objects
    that follow move up; an object keeps the day number it gives (whatever
    it is) and gets its position as the default, its title defaults to
    "Day" and its position, and its task list may be empty; the places after
    the last object are filled with numbered days holding the one generic
    task.  [raw.inputs] is passed on as it is when it is an object or an
    array, else the inputs of the request are. *)
Theorem api_coercePlan_calendar (env : Api.Env) (raw : value number)
    (idea0 : jstring) (inputs0 : Home.Inputs) :
  let objs :=
    take 14
      (List.filter (fun d => typeofObject d && truthy d)
         (match optProp raw (lit "calendarDays") with
          | VArr elems => elems
          | _ => []
          end)) in
  exists plan : Api.PlanObject number,
    Api.coercePlan env raw idea0 inputs0 = Ok plan
    /\ length (Api.calendarDays plan) = 14%nat
    /\ (forall (idx : nat) (d : value number),
          objs !! idx = Some d ->
          exists c : Api.CalendarDay number,
            Api.calendarDays plan !! idx = Some c
            /\ Api.day c
               = (if Api.isNumber (optProp d (lit "day")) then optProp d (lit "day")
                  else VNum (Number_ofNat (idx + 1)))
            /\ Props.bullet (Api.c_title c)
            /\ (Api.cleanStr (optProp d (lit "title")) = [] ->
                Api.c_title c = lit "Day " ++ natToString (idx + 1))
            /\ Api.tasks c = Api.ensureArrayOfStrings (optProp d (lit "tasks")))
    /\ (forall idx : nat,
          (length objs <= idx < 14)%nat ->
          Api.calendarDays plan !! idx = Some (Api.fillerDay (idx + 1)))
    /\ Api.inputs plan
       = (match optProp raw (lit "inputs") with
          | VObj _ | VArr _ => inl (optProp raw (lit "inputs"))
          | _ => inr inputs0
          end).
Proof.
  intros objs.
  destruct (api_coercePlan_shape env raw idea0 inputs0)
    as (plan & Hp & _ & _ & Hin & _ & Hcal).
  fold objs in Hcal.
  assert (Hobjs : (length objs <= 14)%nat).
  { unfold objs. rewrite length_take. lia. }
  exists plan. split; [exact Hp|]. rewrite Hcal. split.
  { rewrite length_app, length_fmap, length_seq, length_imap. lia. }
  split.
  { intros idx d Hd. exists (Props.coercedDay d idx). split.
    - apply lookup_app_l_Some. by rewrite list_lookup_imap, Hd.
    - split; [reflexivity|]. split.
      + cbn [Props.coercedDay Api.c_title]. apply orStr_bullet.
        * destruct (optProp d (lit "title")); try reflexivity. apply trim_idem.
        * by apply (label_bullet 68 (lit "ay ")).
      + split; [|reflexivity]. intros Ht.
        cbn [Props.coercedDay Api.c_title]. by rewrite Ht. }
  split.
  { intros idx [Hlo Hhi].
    rewrite lookup_app_r by (rewrite length_imap; lia).
    rewrite length_imap, list_lookup_fmap, lookup_seq_lt by lia.
    cbn. f_equal. f_equal. lia. }
  rewrite Hin. by destruct (optProp raw (lit "inputs")).
Qed.

(** X5.  When the steps of the response body are the server's steps, the
    client's normaliser gives them back field by field: title, summary,
    both bullet lists and the output are what the server made. *)
Theorem client_keeps_server_steps (envA : Api.Env) (rawA : value number)
    (idea0 : jstring) (inputs0 : Home.Inputs) :
  exists plan : Api.PlanObject number,
    Api.coercePlan envA rawA idea0 inputs0 = Ok plan
    /\ Forall Props.cleanStep (Api.steps plan)
    /\ forall (envH : Home.Env) (resp : value number) (ideaFallback : jstring)
              (inputsFallback : Home.Inputs),
         optProp resp (lit "steps") = VArr (Api.stepJSON <$> Api.steps plan) ->
         exists hp : Home.Plan,
           Home.coercePlan envH resp ideaFallback inputsFallback = Ok hp
           /\ Props.homeFields <$> Home.steps hp
              = Props.apiFields <$> Api.steps plan.
Proof.
  destruct (api_coercePlan_shape envA rawA idea0 inputs0)
    as (plan & Hp & _ & _ & _ & Hsteps & _).
  set (kept := take 3 _) in Hsteps.
  assert (Hkept : (length kept <= 3)%nat).
  { unfold kept. rewrite length_take. lia. }
  assert (Hclean : Forall Props.cleanStep (Api.steps plan)).
  { rewrite Hsteps. apply Forall_app. split.
    - apply Forall_forall. intros s [i [x [-> _]]]%elem_of_lookup_imap.
      apply api_coerceStep_clean.
    - apply Forall_fmap, Forall_forall. intros n _. apply api_emptyStep_clean. }
  assert (Hlen : length (Api.steps plan) = 3%nat).
  { rewrite Hsteps, length_app, length_fmap, length_seq, length_imap. lia. }
  exists plan. split; [exact Hp|]. split; [exact Hclean|].
  intros envH resp ideaFallback inputsFallback Hresp.
  destruct (home_coercePlan_shape envH resp ideaFallback inputsFallback)
    as (hp & Hhp & _ & _ & _ & Hhsteps).
  rewrite Hresp in Hhsteps.
  exists hp. split; [exact Hhp|]. rewrite Hhsteps.
  rewrite (take_ge (Api.stepJSON <$> Api.steps plan))
    by (rewrite length_fmap; lia).
  rewrite length_fmap, Hlen. cbn [seq fmap list_fmap Nat.sub].
  rewrite app_nil_r.
  apply list_eq. intros k.
  rewrite !list_lookup_fmap, list_lookup_imap, list_lookup_fmap.
  destruct (Api.steps plan !! k) as [s|] eqn:Hs; [|reflexivity].
  cbn [fmap option_fmap option_map]. f_equal.
  apply home_coerceStep_stepJSON.
  eapply Forall_lookup_1; [exact Hclean | exact Hs].
Qed.
End ServerPlan.

(** ** The route handler *)

Section RouteHandler.
Context {number : Type} {numberOps : JSNumber number}.
Variable JSON_parse : jstring -> option (value number).

Lemma api_coercePlan_sound (env : Api.Env) (raw : value number)
    (idea0 : jstring) (inputs0 : Home.Inputs) :
  exists plan : Api.PlanObject number,
    Api.coercePlan env raw idea0 inputs0 = Ok plan
    /\ (idea0 <> [] -> Api.idea plan <> [])
    /\ length (Api.steps plan) = 3%nat
    /\ Forall Props.cleanStep (Api.steps plan)
    /\ length (Api.calendarDays plan) = 14%nat.
Proof.
  destruct (api_coercePlan_shape env raw idea0 inputs0)
    as (plan & Hp & Hidea & _ & _ & Hsteps & Hcal).
  set (kept := take 3 _) in Hsteps. set (objs := take 14 _) in Hcal.
  assert (Hkept : (length kept <= 3)%nat).
  { unfold kept. rewrite length_take. lia. }
  assert (Hobjs : (length objs <= 14)%nat).
  { unfold objs. rewrite length_take. lia. }
  exists plan. split; [exact Hp|]. split.
  { intros Hne. rewrite Hidea. unfold orStr.
    destruct (truthyStr _) eqn:E; [|exact Hne].
    intros Hnil. by rewrite Hnil in E. }
  split.
  { rewrite Hsteps, length_app, length_fmap, length_seq, length_imap. lia. }
  split.
  { rewrite Hsteps. apply Forall_app. split.
    - apply Forall_forall. intros s [i [x [-> _]]]%elem_of_lookup_imap.
      apply api_coerceStep_clean.
    - apply Forall_fmap, Forall_forall. intros n _. apply api_emptyStep_clean. }
  rewrite Hcal, length_app, length_fmap, length_seq, length_imap. lia.
Qed.

Lemma serverError_outcome (err : value number) :
  Api.r_status (Api.serverError err) = 500%nat
  /\ exists e : value number,
       Api.r_body (Api.serverError err) = Api.ErrorBody e None
       /\ truthy e = true.
Proof.
  split; [reflexivity|]. eexists. split; [reflexivity|].
  unfold Home.orVal. by destruct (truthy (optProp err (lit "message"))) eqn:E.
Qed.

(** What [afterUpstream] answers: a plan with status 200, or an error with
    status 500. *)
Lemma afterUpstream_outcome (env : Api.Env) (idea0 : jstring)
    (inputs0 : Home.Inputs) (resp : Api.Upstream number) :
  idea0 <> [] ->
  let r := Api.afterUpstream JSON_parse env idea0 inputs0 resp in
  match Api.r_body r with
  | Api.PlanBody plan =>
      Api.r_status r = 200%nat
      /\ Api.up_ok resp = true
      /\ Api.idea plan <> []
      /\ length (Api.steps plan) = 3%nat
      /\ Forall Props.cleanStep (Api.steps plan)
      /\ length (Api.calendarDays plan) = 14%nat
  | Api.ErrorBody e _ => Api.r_status r = 500%nat /\ truthy e = true
  end.
Proof.
  intros Hne r. subst r. unfold Api.afterUpstream.
  destruct (Api.up_ok resp); cbn [negb]; [|by split].
  destruct (Api.up_json resp) as [data|e].
  2:{ destruct (serverError_outcome e) as [Hs (e' & -> & He)]. by split. }
  cbv zeta. destruct (String_ _) as [str|m].
  2:{ destruct (serverError_outcome (Api.thrownError m)) as [Hs (e' & -> & He)].
      by split. }
  destruct (JSON_parse str) as [parsed|]; [|by split].
  destruct (api_coercePlan_sound env parsed idea0 inputs0)
    as (plan & -> & Hidea & Hlen & Hclean & Hcal).
  cbn [Api.r_body Api.r_status]. repeat split; try done. by apply Hidea.
Qed.

(** X6.  The handler answers 400 exactly when the idea of the request is
    missing, not a string or blank, and then whatever the key and the
    provider are; with an idea and no key it answers 500 without looking at
    the provider; a body that is a plan comes with status 200, a non-empty
    idea, three normalised steps and fourteen calendar days; every other
    answer is an error with status 400 or 500 whose message is not empty. *)
Theorem POST_outcome (env : Api.Env) (body : option (value number))
    (apiKey : option jstring) (upstream : Api.Settled number (Api.Upstream number)) :
  let r := Api.POST JSON_parse env body apiKey upstream in
  let idea0 := Api.cleanStr (optProp (default (VObj []) body) (lit "idea")) in
  (Api.r_status r = 400%nat <-> idea0 = [])
  /\ (idea0 = [] ->
      r = {| Api.r_status := 400;
             Api.r_body := Api.ErrorBody (VStr (lit "Missing business idea")) None |})
  /\ (idea0 <> [] -> default [] apiKey = [] ->
      r = {| Api.r_status := 500;
             Api.r_body :=
               Api.ErrorBody (VStr (lit "Missing OPENAI_API_KEY in .env.local"))
                             None |})
  /\ match Api.r_body r with
     | Api.PlanBody plan =>
         Api.r_status r = 200%nat
         /\ idea0 <> [] /\ default [] apiKey <> []
         /\ Api.idea plan <> []
         /\ length (Api.steps plan) = 3%nat
         /\ Forall Props.cleanStep (Api.steps plan)
         /\ length (Api.calendarDays plan) = 14%nat
     | Api.ErrorBody e _ =>
         (Api.r_status r = 400%nat \/ Api.r_status r = 500%nat)
         /\ truthy e = true
     end.
Proof.
  intros r idea0. subst r. unfold Api.POST. cbv zeta. fold idea0.
  destruct idea0 as [|c idea] eqn:Eidea.
  { cbn [truthyStr negb]. repeat split; try done. by left. }
  change (truthyStr (c :: idea)) with true. cbn [negb].
  split; [|split; [done|]].
  { split; [|done]. intros H. exfalso. revert H.
    destruct (default [] apiKey); [done|].
    change (truthyStr (_ :: _)) with true. cbn [negb].
    destruct upstream as [resp|e]; [|done].
    match goal with
    | |- context [Api.afterUpstream _ _ _ ?i _] =>
        pose proof (afterUpstream_outcome env (c :: idea) i resp ltac:(done)) as H
    end.
    cbv zeta in H. destruct (Api.r_body _); intros Hs; destruct H as [H _];
      rewrite H in Hs; done. }
  destruct (default [] apiKey) as [|k key] eqn:Ekey.
  { cbn [truthyStr negb]. split; [done|]. split; [by right|done]. }
  change (truthyStr (k :: key)) with true. cbn [negb].
  split; [done|].
  destruct upstream as [resp|e].
  - match goal with
    | |- context [Api.afterUpstream _ _ _ ?i _] =>
        pose proof (afterUpstream_outcome env (c :: idea) i resp ltac:(done)) as H
    end.
    cbv zeta in H. destruct (Api.r_body _).
    + destruct H as [H He]. split; [by right|done].
    + destruct H as (Hs & _ & H). repeat split; try done; apply H.
  - destruct (serverError_outcome e) as [Hs (e' & -> & He)].
    split; [by right|done].
Qed.
End RouteHandler.

(** ** The home page and the store *)

Section HomePage.
Context {number : Type} {numberOps : JSNumber number} {browser : Browser}.
Variable JSON_stringify : Home.Plan -> jstring.

Lemma home_coercePlan_sound (env : Home.Env) (raw : value number)
    (ideaFallback : jstring) (inputsFallback : Home.Inputs) :
  exists plan : Home.Plan,
    Home.coercePlan env raw ideaFallback inputsFallback = Ok plan
    /\ Home.id plan <> []
    /\ (ideaFallback <> [] -> Home.idea plan <> [])
    /\ length (Home.steps plan) = 3%nat
    /\ Forall Props.cleanHomeStep (Home.steps plan).
Proof.
  destruct (home_coercePlan_shape env raw ideaFallback inputsFallback)
    as (plan & Hp & Hid & _ & Hidea & Hsteps).
  exists plan. split; [exact Hp|]. split.
  { rewrite Hid. unfold orStr.
    by destruct (Home.safeStr (optProp raw (lit "id"))). }
  split.
  { intros Hne. rewrite Hidea. unfold orStr.
    by destruct (Home.safeStr (optProp raw (lit "idea"))). }
  rewrite Hsteps. split.
  { rewrite length_app, length_fmap, length_seq, length_imap, length_take. lia. }
  apply Forall_app. split.
  - apply Forall_forall. intros s [i [x [-> _]]]%elem_of_lookup_imap.
    apply home_coerceStep_clean.
  - apply Forall_fmap, Forall_forall. intros n _. apply home_emptyStep_clean.
Qed.

(** No key of check marks is the key of the plan. *)
Lemma checksKey_not_plan_key (id : jstring) :
  Calendar.checksKey id <> Home.LS_PLAN_KEY.
Proof. intros H. vm_compute in H. discriminate H. Qed.

(** What [onGenerate] does to the page and to the store. *)
Lemma onGenerate_effects (env : Home.Env) (fetched : Home.Fetched number)
    (p : Home.PageState number) (ls : gmap jstring jstring) :
  let w := Home.onGenerate JSON_stringify env fetched p ls in
  Home.st_idea (fst w) = Home.st_idea p
  /\ Home.st_inputs (fst w) = Home.st_inputs p
  /\ (snd w = ls
      \/ exists plan : Home.Plan,
           Home.st_plan (fst w) = Some plan
           /\ snd w = <[Home.LS_PLAN_KEY := JSON_stringify plan]> ls)
  /\ (Home.st_plan (fst w) = Home.st_plan p
      \/ exists plan : Home.Plan,
           Home.st_plan (fst w) = Some plan
           /\ Home.id plan <> [] /\ Home.idea plan <> []
           /\ length (Home.steps plan) = 3%nat
           /\ Forall Props.cleanHomeStep (Home.steps plan)).
Proof.
  intros w. subst w. unfold Home.onGenerate. cbn zeta.
  destruct (truthyStr (trim (Home.st_idea (Home.setError (VStr []) p)))) eqn:Ei;
    cbn [negb]; [|by repeat split; left].
  cbn [Home.st_idea Home.setError] in Ei.
  assert (Hidea : trim (Home.st_idea p) <> []).
  { intros Hnil. by rewrite Hnil in Ei. }
  destruct fetched as [e|resp]; [by repeat split; left|].
  unfold Home.afterFetch.
  destruct (negb (Home.ok resp) || negb (truthy (default VNull (Home.json resp))));
    [by repeat split; left|].
  cbn [Home.st_idea Home.st_inputs Home.setError Home.setLoading].
  destruct (home_coercePlan_sound env (default VNull (Home.json resp))
              (trim (Home.st_idea p)) (Home.st_inputs p))
    as (plan & -> & Hid & Hi & Hlen & Hclean).
  assert (Hplan : exists plan' : Home.Plan,
            Some plan = Some plan'
            /\ Home.id plan' <> [] /\ Home.idea plan' <> []
            /\ length (Home.steps plan') = 3%nat
            /\ Forall Props.cleanHomeStep (Home.steps plan')).
  { exists plan. repeat split; try done. by apply Hi. }
  unfold setItem.
  destruct (accepts ls Home.LS_PLAN_KEY (JSON_stringify plan)).
  - split; [reflexivity|]. split; [reflexivity|]. split; [|by right].
    right. by exists plan.
  - split; [reflexivity|]. split; [reflexivity|]. split; [by left|by right].
Qed.

(** X7.  Whatever the network and the browser do, [onGenerate] leaves
    every key of the store other than the plan key as it is (the check
    marks of every plan among them), and the idea and the inputs of the
    page as they are; the store is either unchanged or holds, under the plan
    key, the text of the very plan the page shows; and the plan of the page
    is either the one it was or a normalised plan: an id and an idea that
    are not empty and three normalised steps. *)
Theorem onGenerate_frame (env : Home.Env) (fetched : Home.Fetched number)
    (p : Home.PageState number) (ls : gmap jstring jstring) :
  let w := Home.onGenerate JSON_stringify env fetched p ls in
  (forall k : jstring, k <> Home.LS_PLAN_KEY -> snd w !! k = ls !! k)
  /\ (forall id : jstring,
        snd w !! Calendar.checksKey id = ls !! Calendar.checksKey id)
  /\ Home.st_idea (fst w) = Home.st_idea p
  /\ Home.st_inputs (fst w) = Home.st_inputs p
  /\ (snd w = ls
      \/ exists plan : Home.Plan,
           Home.st_plan (fst w) = Some plan
           /\ snd w = <[Home.LS_PLAN_KEY := JSON_stringify plan]> ls)
  /\ (Home.st_plan (fst w) = Home.st_plan p
      \/ exists plan : Home.Plan,
           Home.st_plan (fst w) = Some plan
           /\ Home.id plan <> [] /\ Home.idea plan <> []
           /\ length (Home.steps plan) = 3%nat
           /\ Forall Props.cleanHomeStep (Home.steps plan)).
Proof.
  intros w.
  destruct (onGenerate_effects env fetched p ls) as (Hi & Hin & Hls & Hplan).
  fold w in Hi, Hin, Hls, Hplan.
  assert (Hframe : forall k : jstring,
            k <> Home.LS_PLAN_KEY -> snd w !! k = ls !! k).
  { intros k Hk. destruct Hls as [->|(plan & _ & ->)]; [reflexivity|].
    by rewrite lookup_insert_ne. }
  split; [exact Hframe|]. split; [|done].
  intros id. apply Hframe, checksKey_not_plan_key.
Qed.

(** X8.  When the response is good and the browser refuses the write,
    the page shows the new plan together with an error, while the store
    still holds what it held: the page and the store disagree, and the
    calendar page goes on reading the plan of before. *)
Theorem onGenerate_refused_write (env : Home.Env) (resp : Home.Response number)
    (data : value number) (p : Home.PageState number)
    (ls : gmap jstring jstring) :
  trim (Home.st_idea p) <> [] ->
  Home.ok resp = true -> Home.json resp = Some data -> truthy data = true ->
  (forall v : jstring, accepts ls Home.LS_PLAN_KEY v = false) ->
  let w := Home.onGenerate JSON_stringify env (Home.Resolved resp) p ls in
  exists plan : Home.Plan,
    Home.coercePlan env data (trim (Home.st_idea p)) (Home.st_inputs p) = Ok plan
    /\ Home.st_plan (fst w) = Some plan
    /\ snd w = ls
    /\ truthy (Home.st_error (fst w)) = true
    /\ Home.st_loading (fst w) = false.
Proof.
  intros Hidea Hok Hjson Hdata Hfull w. subst w.
  unfold Home.onGenerate. cbn zeta. cbn [Home.st_idea Home.setError].
  destruct (trim (Home.st_idea p)) as [|c idea] eqn:Ei; [done|].
  change (truthyStr (c :: idea)) with true. cbn [negb].
  unfold Home.afterFetch. rewrite Hok, Hjson.
  change (default VNull (Some data)) with data. rewrite Hdata. cbn [negb orb].
  cbn [Home.st_idea Home.st_inputs Home.setError Home.setLoading].
  destruct (home_coercePlan_sound env data (c :: idea) (Home.st_inputs p))
    as (plan & Hp & _).
  rewrite Hp. unfold setItem. rewrite Hfull.
  exists plan. repeat split.
Qed.

(** X9.  [clearAll] removes the plan and nothing else from the store:
    the check marks that the calendar page stored for the plan, and for
    every other plan, stay behind; it leaves the loading flag as it is; done
    twice it does what it does once; and after any [onGenerate] it leaves
    the store that it leaves without it. *)
Theorem clearAll_keeps_checks (p : Home.PageState number)
    (ls : gmap jstring jstring) :
  let w := Home.clearAll p ls in
  snd w !! Home.LS_PLAN_KEY = None
  /\ (forall k : jstring, k <> Home.LS_PLAN_KEY -> snd w !! k = ls !! k)
  /\ (forall id : jstring,
        snd w !! Calendar.checksKey id = ls !! Calendar.checksKey id)
  /\ Home.st_loading (fst w) = Home.st_loading p
  /\ Home.st_plan (fst w) = None
  /\ Home.clearAll (fst w) (snd w) = w
  /\ (forall (env : Home.Env) (fetched : Home.Fetched number),
        let w' := Home.onGenerate JSON_stringify env fetched p ls in
        snd (Home.clearAll (fst w') (snd w')) = snd w).
Proof.
  intros w. subst w. unfold Home.clearAll, removeItem. cbn [fst snd].
  assert (Hframe : forall k : jstring,
            k <> Home.LS_PLAN_KEY -> delete Home.LS_PLAN_KEY ls !! k = ls !! k).
  { intros k Hk. by rewrite lookup_delete_ne. }
  split; [apply lookup_delete_eq|]. split; [exact Hframe|].
  split; [intros id; apply Hframe, checksKey_not_plan_key|].
  split; [reflexivity|]. split; [reflexivity|].
  split; [by rewrite delete_delete_eq|].
  intros env fetched.
  destruct (onGenerate_effects env fetched p ls) as (_ & _ & Hls & _).
  destruct Hls as [->|(plan & _ & ->)]; [reflexivity|].
  apply delete_insert_eq.
Qed.
End HomePage.

Lemma onGenerate_refused_write_witness :
  let stringify : Home.Plan -> jstring := fun plan => Home.id plan in
  let env := {| Home.dateNow := lit "1700000000000"; Home.randomHex := lit "9f3a";
                Home.nowISO := lit "2023-11-14T22:13:20.000Z" |} in
  let resp : Home.Response Z :=
    {| Home.ok := true; Home.status := 200; Home.json := Some (VObj []) |} in
  let noInputs :=
    {| Home.targetCustomer := Some []; Home.coreOffer := Some [];
       Home.differentiator := Some []; Home.pricePoint := Some [];
       Home.geography := Some []; Home.goal14Day := Some []; Home.notes := Some [] |} in
  let page : Home.PageState Z :=
    {| Home.st_idea := lit "Coffee cart"; Home.st_inputs := noInputs;
       Home.st_loading := false; Home.st_error := VStr []; Home.st_plan := None |} in
  let store : gmap jstring jstring := <[Home.LS_PLAN_KEY := lit "{}"]> ∅ in
  let w := Home.onGenerate (browser := full) stringify env (Home.Resolved resp)
             page store in
  exists plan : Home.Plan,
    Home.st_plan (fst w) = Some plan /\ snd w = store.
Proof.
  intros stringify env resp noInputs page store w.
  destruct (onGenerate_refused_write (browser := full) stringify env resp
              (VObj []) page store)
    as (plan & _ & Hplan & Hstore & _);
    [by vm_compute | reflexivity | reflexivity | reflexivity
     | intros v; reflexivity |].
  exists plan. split; [exact Hplan | exact Hstore].
Defined.

(** ** The check marks of the calendar page and the store *)

Section CheckMarks.
Context {number : Type} {numberOps : JSNumber number} {browser : Browser}.

Lemma getCheck_withCheck (key : jstring) (b : bool) (c : list (jstring * bool)) :
  Calendar.getCheck key (Calendar.withCheck key b c) = Some b.
Proof.
  induction c as [|[k b'] c IH]; simpl.
  - by rewrite decide_True.
  - destruct (decide (key = k)) as [->|Hne]; simpl.
    + by rewrite decide_True.
    + by rewrite decide_False.
Qed.

Lemma getCheck_withCheck_ne (k key : jstring) (b : bool)
    (c : list (jstring * bool)) :
  k <> key ->
  Calendar.getCheck k (Calendar.withCheck key b c) = Calendar.getCheck k c.
Proof.
  intros Hk. induction c as [|[k' b'] c IH]; simpl.
  - by rewrite decide_False.
  - destruct (decide (key = k')) as [<-|Hne]; simpl.
    + by rewrite !decide_False.
    + by rewrite IH.
Qed.

Lemma keys_withCheck (key : jstring) (b : bool) (c : list (jstring * bool)) :
  fst <$> Calendar.withCheck key b c
  = (fst <$> c)
    ++ match Calendar.getCheck key c with Some _ => [] | None => [key] end.
Proof.
  induction c as [|[k b'] c IH]; simpl; [reflexivity|].
  destruct (decide (key = k)) as [->|Hne]; simpl.
  - by rewrite app_nil_r.
  - f_equal. exact IH.
Qed.

Lemma withCheck_same (key : jstring) (b : bool) (c : list (jstring * bool)) :
  Calendar.getCheck key c = Some b -> Calendar.withCheck key b c = c.
Proof.
  induction c as [|[k b'] c IH]; simpl; [done|].
  destruct (decide (key = k)) as [->|Hne].
  - by intros [= ->].
  - intros H. by rewrite IH.
Qed.

Lemma withCheck_absent (key : jstring) (b : bool) (c : list (jstring * bool)) :
  Calendar.getCheck key c = None -> Calendar.withCheck key b c = c ++ [(key, b)].
Proof.
  induction c as [|[k b'] c IH]; simpl; [done|].
  destruct (decide (key = k)) as [->|Hne]; [done|].
  intros H. by rewrite IH.
Qed.

Lemma withCheck_withCheck (key : jstring) (b1 b2 : bool)
    (c : list (jstring * bool)) :
  Calendar.withCheck key b2 (Calendar.withCheck key b1 c)
  = Calendar.withCheck key b2 c.
Proof.
  induction c as [|[k b'] c IH]; simpl.
  - by rewrite decide_True.
  - destruct (decide (key = k)) as [->|Hne]; simpl.
    + by rewrite decide_True.
    + by rewrite decide_False, IH.
Qed.

(** A render with its effect: the write of the check marks, or a throw
    when the browser refuses it. *)
Lemma commit_cases (w : Calendar.PageState number * gmap jstring jstring) :
  let key := Calendar.checksKey (Calendar.st_pid (fst w)) in
  let text := JSON_stringify_flags (Calendar.st_checks (fst w)) in
  (accepts (snd w) key text = true
   /\ Calendar.commit w = Ok (fst w, <[key := text]> (snd w)))
  \/ (accepts (snd w) key text = false
      /\ exists m, Calendar.commit w = Throw m).
Proof.
  intros key text. unfold Calendar.commit, Calendar.persistChecks, setItem.
  fold key text. destruct (accepts (snd w) key text).
  - by left.
  - right. split; [reflexivity|]. by eexists.
Qed.

(** The key of the first render is the key of no plan. *)
Lemma stray_key_not_plan (plan : option (Calendar.Plan number)) :
  Calendar.checksKey (lit "latest") <> Calendar.checksKey (Calendar.planId plan).
Proof.
  unfold Calendar.checksKey, Calendar.planId. cbv zeta. intros H.
  apply app_inv_head in H. revert H.
  generalize (toStringRadix 16
                (toUint32
                   (Calendar.hashLoop
                      (orOpt (plan ≫= Calendar.id)
                         (orOpt (plan ≫= Calendar.idea) (lit "latest")))))).
  intros digits H. vm_compute in H. discriminate H.
Qed.

(** X10.  A click on a task negates its mark (a task never clicked counts
    as unmarked), leaves every other mark as it is, keeps the order of the
    keys (a new key goes to the end), leaves the plan and its key alone, and
    when the page is idle again the store holds exactly the marks of the
    page under the key of the plan and every other entry as before.  The
    click fails only when the browser refuses the write. *)
Theorem toggle_outcome (day idx : nat)
    (w : Calendar.PageState number * gmap jstring jstring) :
  let key := Calendar.checkKey day idx in
  let checks := Calendar.st_checks (fst w) in
  let was := default false (Calendar.getCheck key checks) in
  match Calendar.toggle day idx w with
  | Ok w' =>
      Calendar.getCheck key (Calendar.st_checks (fst w')) = Some (negb was)
      /\ (forall k : jstring,
            k <> key ->
            Calendar.getCheck k (Calendar.st_checks (fst w'))
            = Calendar.getCheck k checks)
      /\ fst <$> Calendar.st_checks (fst w')
         = (fst <$> checks)
           ++ match Calendar.getCheck key checks with
              | Some _ => []
              | None => [key]
              end
      /\ Calendar.st_pid (fst w') = Calendar.st_pid (fst w)
      /\ Calendar.st_plan (fst w') = Calendar.st_plan (fst w)
      /\ Props.inSync w'
      /\ (forall k : jstring,
            k <> Calendar.checksKey (Calendar.st_pid (fst w)) ->
            snd w' !! k = snd w !! k)
  | Throw _ =>
      accepts (snd w) (Calendar.checksKey (Calendar.st_pid (fst w)))
        (JSON_stringify_flags (Calendar.withCheck key (negb was) checks))
      = false
  end.
Proof.
  intros key checks was. unfold Calendar.toggle.
  destruct (commit_cases (Calendar.toggle_handler day idx w))
    as [[_ ->]|[Hacc [m ->]]]; [|exact Hacc].
  cbn [fst snd Calendar.toggle_handler Calendar.setChecks Calendar.st_checks
       Calendar.st_pid Calendar.st_plan].
  fold key checks was.
  split; [apply getCheck_withCheck|].
  split; [intros k Hk; by apply getCheck_withCheck_ne|].
  split; [apply keys_withCheck|].
  split; [reflexivity|]. split; [reflexivity|].
  split; [apply lookup_insert_eq|].
  intros k Hk. by rewrite lookup_insert_ne.
Qed.

(** X11.  Two clicks on the same task give back the marks of before when
    the task had a mark; a task that had none ends with the mark [false] at
    the end of the record, so that the stored text is no longer the one of
    before.  In both cases the task reads as it did. *)
Theorem toggle_twice_restores (day idx : nat)
    (w : Calendar.PageState number * gmap jstring jstring) :
  let key := Calendar.checkKey day idx in
  let checks := Calendar.st_checks (fst w) in
  match w1 <- Calendar.toggle day idx w ;; Calendar.toggle day idx w1 with
  | Ok w2 =>
      default false (Calendar.getCheck key (Calendar.st_checks (fst w2)))
      = default false (Calendar.getCheck key checks)
      /\ Calendar.st_checks (fst w2)
         = match Calendar.getCheck key checks with
           | Some _ => checks
           | None => checks ++ [(key, false)]
           end
      /\ Props.inSync w2
  | Throw _ => exists ls k v, accepts ls k v = false
  end.
Proof.
  intros key checks. unfold Calendar.toggle.
  destruct (commit_cases (Calendar.toggle_handler day idx w))
    as [[_ ->]|[Hacc [m ->]]]; [|by eexists _, _, _].
  cbn [bind].
  destruct (commit_cases
              (Calendar.toggle_handler day idx
                 (fst (Calendar.toggle_handler day idx w),
                  <[Calendar.checksKey
                      (Calendar.st_pid (fst (Calendar.toggle_handler day idx w))) :=
                      JSON_stringify_flags
                        (Calendar.st_checks
                           (fst (Calendar.toggle_handler day idx w)))]>
                    (snd (Calendar.toggle_handler day idx w)))))
    as [[_ ->]|[Hacc [m ->]]]; [|by eexists _, _, _].
  cbn [fst snd Calendar.toggle_handler Calendar.setChecks Calendar.st_checks
       Calendar.st_pid Calendar.st_plan].
  fold key checks.
  rewrite !getCheck_withCheck, withCheck_withCheck.
  cbn [from_option id]. rewrite negb_involutive.
  split; [reflexivity|].
  split; [|apply lookup_insert_eq].
  destruct (Calendar.getCheck key checks) as [b|] eqn:E; cbn [default].
  - by apply withCheck_same.
  - by apply withCheck_absent.
Qed.

Section Loading.
Variable JSON_parse_plan : jstring -> option (Calendar.Plan number).
Variable JSON_parse_checks : jstring -> option (list (jstring * bool)).

(** What mounting the page gives. *)
Lemma mount_cases (ls : gmap jstring jstring) :
  let p := Calendar.safeJsonParse JSON_parse_plan (ls !! Calendar.PLAN_KEY) in
  let stray := Calendar.checksKey (lit "latest") in
  let key := Calendar.checksKey (Calendar.planId p) in
  let checks :=
    default [] (Calendar.safeJsonParse JSON_parse_checks (ls !! key)) in
  (Calendar.mount JSON_parse_plan JSON_parse_checks ls
   = Ok ({| Calendar.st_plan := p; Calendar.st_pid := Calendar.planId p;
            Calendar.st_checks := checks |},
         <[key := JSON_stringify_flags checks]> (<[stray := lit "{}"]> ls)))
  \/ ((accepts ls stray (lit "{}") = false
       \/ accepts (<[stray := lit "{}"]> ls) key (JSON_stringify_flags checks)
          = false)
      /\ exists m, Calendar.mount JSON_parse_plan JSON_parse_checks ls = Throw m).
Proof.
  intros p stray key checks. subst checks key stray p.
  unfold Calendar.mount, Calendar.commit, Calendar.persistChecks, setItem.
  cbn zeta.
  cbn [fst snd Calendar.initialState Calendar.st_pid Calendar.st_checks].
  change (JSON_stringify_flags []) with (lit "{}").
  destruct (accepts ls _ _) eqn:E1; cbn [bind].
  2:{ right. split; [by left|by eexists]. }
  destruct (accepts (<[_ := _]> ls) _ _) eqn:E2; cbn [bind].
  - left. reflexivity.
  - right. split; [by right|by eexists].
Qed.

(** X12.  Mounting the page reads the plan and the marks stored for it,
    takes the plan's key from [planId], and writes twice: first the empty
    record under the key of the first render, "latest", which is the key of
    no plan and stays in the store, then the marks it has just read under
    the key of the plan.  The plan itself and every other entry are left as
    they are.  Mounting fails only when the browser refuses one of the two
    writes. *)
Theorem mount_outcome (ls : gmap jstring jstring) :
  let p := Calendar.safeJsonParse JSON_parse_plan (ls !! Calendar.PLAN_KEY) in
  let stray := Calendar.checksKey (lit "latest") in
  let key := Calendar.checksKey (Calendar.planId p) in
  let checks :=
    default [] (Calendar.safeJsonParse JSON_parse_checks (ls !! key)) in
  match Calendar.mount JSON_parse_plan JSON_parse_checks ls with
  | Ok w =>
      Calendar.st_plan (fst w) = p
      /\ Calendar.st_pid (fst w) = Calendar.planId p
      /\ Calendar.st_checks (fst w) = checks
      /\ snd w !! stray = Some (lit "{}")
      /\ stray <> key
      /\ Props.inSync w
      /\ snd w !! Calendar.PLAN_KEY = ls !! Calendar.PLAN_KEY
      /\ (forall k : jstring, k <> stray -> k <> key -> snd w !! k = ls !! k)
  | Throw _ =>
      accepts ls stray (lit "{}") = false
      \/ accepts (<[stray := lit "{}"]> ls) key (JSON_stringify_flags checks)
         = false
  end.
Proof.
  intros p stray key checks.
  destruct (mount_cases ls) as [->|[Hacc [m ->]]]; [|exact Hacc].
  fold p. fold key. fold checks. fold stray. cbn [fst snd Calendar.st_plan
    Calendar.st_pid Calendar.st_checks].
  assert (Hstray : stray <> key) by apply stray_key_not_plan.
  split; [reflexivity|]. split; [reflexivity|]. split; [reflexivity|].
  split; [by rewrite lookup_insert_ne, lookup_insert_eq|].
  split; [exact Hstray|].
  split; [apply lookup_insert_eq|].
  split.
  - rewrite !lookup_insert_ne; [reflexivity| |];
      intros H; by apply (checksKey_not_plan_key _ H).
  - intros k Hk1 Hk2. by rewrite !lookup_insert_ne.
Qed.

(** X13.  Loading the page again gives back the state it had: when the
    store holds the marks of the page, the key of the page is the key of
    its plan, and the parser reads the stored plan and the stored marks
    back, a new mount ends in the same plan, key and marks, and the store
    differs at most by the entry of the first render. *)
Theorem reload_restores (w : Calendar.PageState number * gmap jstring jstring) :
  Props.inSync w ->
  Calendar.st_pid (fst w) = Calendar.planId (Calendar.st_plan (fst w)) ->
  Calendar.safeJsonParse JSON_parse_plan (snd w !! Calendar.PLAN_KEY)
  = Calendar.st_plan (fst w) ->
  JSON_parse_checks (JSON_stringify_flags (Calendar.st_checks (fst w)))
  = Some (Calendar.st_checks (fst w)) ->
  match Calendar.mount JSON_parse_plan JSON_parse_checks (snd w) with
  | Ok w' =>
      fst w' = fst w
      /\ (forall k : jstring,
            k <> Calendar.checksKey (lit "latest") -> snd w' !! k = snd w !! k)
  | Throw _ => exists ls k v, accepts ls k v = false
  end.
Proof.
  intros Hsync Hpid Hplan Hchecks.
  destruct (mount_cases (snd w)) as [->|[Hacc [m ->]]].
  2:{ destruct Hacc as [Hacc|Hacc]; by eexists _, _, _. }
  destruct w as [[plan pid checks] ls].
  cbn [fst snd Calendar.st_plan Calendar.st_pid Calendar.st_checks] in *.
  unfold Props.inSync in Hsync.
  cbn [fst snd Calendar.st_plan Calendar.st_pid Calendar.st_checks] in Hsync.
  rewrite Hplan, <- Hpid, Hsync.
  assert (Hread :
    Calendar.safeJsonParse JSON_parse_checks (Some (JSON_stringify_flags checks))
    = Some checks).
  { unfold Calendar.safeJsonParse.
    change (truthyStr (JSON_stringify_flags checks)) with true. exact Hchecks. }
  rewrite Hread. cbn [default]. split; [reflexivity|].
  intros k Hk.
  destruct (decide (k = Calendar.checksKey pid)) as [->|Hne].
  - by rewrite lookup_insert_eq, Hsync.
  - by rewrite !lookup_insert_ne.
Qed.
End Loading.
End CheckMarks.

(** A page without a plan whose one mark, day 3 task 1, is stored. *)
Lemma reload_restores_witness :
  let checks := [(Calendar.checkKey 3 1, true)] in
  let parse_plan : jstring -> option (Calendar.Plan Z) := fun _ => None in
  let parse_checks : jstring -> option (list (jstring * bool)) :=
    fun s => if decide (s = JSON_stringify_flags checks) then Some checks else None in
  let pid := Calendar.planId (number := Z) None in
  let page : Calendar.PageState Z :=
    {| Calendar.st_plan := None; Calendar.st_pid := pid;
       Calendar.st_checks := checks |} in
  let store : gmap jstring jstring :=
    <[Calendar.checksKey pid := JSON_stringify_flags checks]> ∅ in
  Props.inSync (page, store)
  /\ exists w' : Calendar.PageState Z * gmap jstring jstring,
       Calendar.mount (browser := roomy) parse_plan parse_checks store = Ok w'
       /\ fst w' = page.
Proof.
  intros checks parse_plan parse_checks pid page store.
  assert (Hsync : Props.inSync (page, store)) by apply lookup_insert_eq.
  assert (Hparse : parse_checks (JSON_stringify_flags checks) = Some checks).
  { unfold parse_checks. by rewrite decide_True. }
  assert (Hplan :
    Calendar.safeJsonParse parse_plan (store !! Calendar.PLAN_KEY) = None).
  { unfold store. rewrite lookup_insert_ne; [reflexivity|].
    apply checksKey_not_plan_key. }
  split; [exact Hsync|].
  pose proof (reload_restores (browser := roomy) parse_plan parse_checks
                (page, store) Hsync (eq_refl pid) Hplan Hparse) as H.
  cbn [fst snd] in H.
  destruct (Calendar.mount parse_plan parse_checks store) as [w'|m].
  - exists w'. split; [reflexivity | apply H].
  - destruct H as (ls & k & v & Hacc). discriminate Hacc.
Defined.

(** ** The days of the calendar *)

Section CalendarDays.
Variable today : Calendar.Today.
Context {number : Type} {numberOps : JSNumber number}.

(** X14.  For a count of buckets that is a natural number below 2^32,
    [chunkEvenly] throws exactly when the count is 0 and there is an item to
    place (it then reads [push] of a slot that is not there); with no
    bucket and no item it returns the empty array; with a positive count it
    returns that many buckets. *)
Theorem chunkEvenly_throws_iff (items : list jstring) (D : nat) :
  Z.of_nat D < 2 ^ 32 ->
  ((exists m, Calendar.chunkEvenly items D = Throw m)
   <-> (D = 0%nat /\ items <> []))
  /\ (D = 0%nat -> items = [] -> Calendar.chunkEvenly items D = Ok [])
  /\ ((0 < D)%nat ->
      exists buckets : list (list jstring),
        Calendar.chunkEvenly items D = Ok buckets /\ length buckets = D).
Proof.
  intros _. split; [split|split].
  - intros [m Hm]. destruct D as [|D].
    + split; [reflexivity|]. intros ->. discriminate Hm.
    + rewrite chunkEvenly_roundRobin in Hm by lia. discriminate Hm.
  - intros [-> Hne]. destruct items as [|x items]; [done|].
    apply chunkEvenly_no_buckets.
  - by intros -> ->.
  - intros HD. exists (Spec.roundRobin D items).
    split; [by apply chunkEvenly_roundRobin | apply length_roundRobin].
Qed.

Lemma blockDays_days (b : Calendar.Block) (n : nat) (d : Calendar.Day) :
  d ∈ Spec.blockDays today b n ->
  Calendar.tasks d <> []
  /\ Calendar.dateLabel d = Calendar.labelAfter today (Calendar.day d - 1)
  /\ Calendar.focus d = Calendar.b_title b
  /\ (Calendar.tasks d = [Calendar.filler]
      \/ sublist (Calendar.tasks d) (Calendar.b_bullets b)).
Proof.
  unfold Spec.blockDays. intros [i [bucket [-> Hb]]]%elem_of_lookup_imap.
  cbn [Calendar.tasks Calendar.dateLabel Calendar.day Calendar.focus].
  assert (Hi : (i < Calendar.b_days b)%nat).
  { apply lookup_lt_Some in Hb. by rewrite length_roundRobin in Hb. }
  rewrite lookup_roundRobin in Hb by done. injection Hb as <-.
  split.
  { by destruct (Spec.roundRobinFrom _ _ _ _). }
  split; [reflexivity|]. split; [reflexivity|].
  destruct (Spec.roundRobinFrom (Calendar.b_days b) i 0 (Calendar.b_bullets b))
    as [|x bucket] eqn:E; [by left|].
  right. cbn [Spec.tasksOf]. rewrite <- E. apply roundRobinFrom_sublist.
Qed.

(** The days of a plan, block by block. *)
Lemma deriveDays_days (plan : option (Calendar.Plan number))
    (P : Calendar.Block -> Calendar.Day -> Prop) :
  (forall (b : Calendar.Block) (n : nat) (d : Calendar.Day),
     b ∈ Spec.blocks plan -> d ∈ Spec.blockDays today b n -> P b d) ->
  Forall (fun d => exists b, b ∈ Spec.blocks plan /\ P b d)
         (Spec.deriveDays today plan).
Proof.
  intros HP.
  destruct (deriveDays_blocks today plan)
    as (b1 & b2 & b3 & Hb & _ & _ & _ & ->).
  rewrite !Forall_app. rewrite Hb in HP |- *.
  repeat split; apply Forall_forall; intros d Hd.
  - exists b1. split; [set_solver|]. eapply HP; [set_solver|exact Hd].
  - exists b2. split; [set_solver|]. eapply HP; [set_solver|exact Hd].
  - exists b3. split; [set_solver|]. eapply HP; [set_solver|exact Hd].
Qed.

(** X15.  Whatever the plan, no day of the calendar is without a task,
    the date of a day is the date of today moved on by the day's number
    less one, and the tasks of a day are either the one generic task or
    bullets of the block of the day, in the order they have there. *)
Theorem buildDays_every_day (plan : option (Calendar.Plan number)) :
  exists (days : list Calendar.Day) (block : list Calendar.Block),
    Calendar.buildDays today plan = Ok days
    /\ Calendar.blocks plan = Ok block
    /\ Forall
         (fun d =>
            exists b : Calendar.Block,
              b ∈ block
              /\ Calendar.tasks d <> []
              /\ Calendar.dateLabel d
                 = Calendar.labelAfter today (Calendar.day d - 1)
              /\ Calendar.focus d = Calendar.b_title b
              /\ (Calendar.tasks d = [Calendar.filler]
                  \/ sublist (Calendar.tasks d) (Calendar.b_bullets b)))
         days.
Proof.
  exists (Spec.deriveDays today plan), (Spec.blocks plan).
  split; [apply buildDays_deriveDays|]. split; [apply blocks_ok|].
  apply (deriveDays_days plan
           (fun b d =>
              Calendar.tasks d <> []
              /\ Calendar.dateLabel d
                 = Calendar.labelAfter today (Calendar.day d - 1)
              /\ Calendar.focus d = Calendar.b_title b
              /\ (Calendar.tasks d = [Calendar.filler]
                  \/ sublist (Calendar.tasks d) (Calendar.b_bullets b)))).
  intros b n d _ Hd. by apply (blockDays_days b n).
Qed.

(** A step of the home page, read back by the calendar page: its title
    is kept, and its pool is its bullets without the empty ones. *)
Lemma stored_step (s : Home.Step) (dflt : jstring) :
  Props.cleanHomeStep s ->
  Calendar.stepTitle (Some (Calendar.storedStep s)) dflt = Home.title s
  /\ Spec.pool (Some (Calendar.storedStep s))
     = List.filter truthyStr (Home.howTo s ++ Home.whatThisDoes s).
Proof.
  intros ([Ht Hne] & _ & _ & Hw & Hh). split.
  - unfold Calendar.stepTitle. cbn. rewrite Ht. unfold orStr.
    by destruct (Home.title s).
  - unfold Spec.pool. cbn [mbind option_bind Calendar.storedStep
      Calendar.howTo Calendar.whatThisDoes Spec.coerced].
    rewrite List.filter_app.
    change (map trim ?l) with (trim <$> l).
    by rewrite !filter_trimmed.
Qed.

Lemma fallbacks_bullets :
  Forall Props.bullet Calendar.fallback1
  /\ Forall Props.bullet Calendar.fallback2
  /\ Forall Props.bullet Calendar.fallback3
  /\ Props.bullet Calendar.filler.
Proof.
  repeat split; repeat constructor; try (vm_compute; reflexivity);
    try (vm_compute; discriminate).
Qed.

Lemma filter_truthy_bullets (l : list jstring) :
  Forall Props.trimmed l -> Forall Props.bullet (List.filter truthyStr l).
Proof.
  induction 1 as [|x l Hx _ IH]; [constructor|].
  cbn [List.filter]. destruct x as [|c x]; cbn [truthyStr]; [exact IH|].
  constructor; [|exact IH]. by split.
Qed.

(** X16.  The calendar of a plan that the home page has normalised and
    stored: the focus of the days is the title of step 1 four times, of
    step 2 six times and of step 3 four times, exactly as the home page
    shows them; the pool of a step is its how-to bullets followed by its
    what-this-does bullets, the empty ones left out; every task of every
    day is a trimmed string that is not empty; and the key of the check marks
    comes from the hash of the plan's id, never of its idea. *)
Theorem calendar_of_home_plan (env : Home.Env) (raw : value number)
    (ideaFallback : jstring) (inputsFallback : Home.Inputs) :
  exists (hp : Home.Plan) (s1 s2 s3 : Home.Step) (days : list Calendar.Day),
    Home.coercePlan env raw ideaFallback inputsFallback = Ok hp
    /\ Home.steps hp = [s1; s2; s3]
    /\ Calendar.blocks (Some (Calendar.storedPlan (number := number) hp))
       = Ok [ {| Calendar.b_title := Home.title s1; Calendar.b_days := 4;
                 Calendar.b_bullets :=
                   Calendar.orFallback
                     (List.filter truthyStr (Home.howTo s1 ++ Home.whatThisDoes s1))
                     Calendar.fallback1 |};
              {| Calendar.b_title := Home.title s2; Calendar.b_days := 6;
                 Calendar.b_bullets :=
                   Calendar.orFallback
                     (List.filter truthyStr (Home.howTo s2 ++ Home.whatThisDoes s2))
                     Calendar.fallback2 |};
              {| Calendar.b_title := Home.title s3; Calendar.b_days := 4;
                 Calendar.b_bullets :=
                   Calendar.orFallback
                     (List.filter truthyStr (Home.howTo s3 ++ Home.whatThisDoes s3))
                     Calendar.fallback3 |} ]
    /\ Calendar.buildDays today (Some (Calendar.storedPlan (number := number) hp))
       = Ok days
    /\ Calendar.focus <$> days
       = replicate 4 (Home.title s1) ++ replicate 6 (Home.title s2)
         ++ replicate 4 (Home.title s3)
    /\ Forall (fun d => Forall Props.bullet (Calendar.tasks d)) days
    /\ Calendar.planId (Some (Calendar.storedPlan (number := number) hp))
       = lit "plan_" ++ toStringRadix 16 (Spec.fnv1a (Home.id hp)).
Proof.
  destruct (home_coercePlan_sound env raw ideaFallback inputsFallback)
    as (hp & Hp & Hid & _ & Hlen & Hclean).
  destruct (Home.steps hp) as [|s1 [|s2 [|s3 [|s4 rest]]]] eqn:Hsteps;
    try discriminate Hlen.
  apply Forall_cons in Hclean as [H1 Hclean].
  apply Forall_cons in Hclean as [H2 Hclean].
  apply Forall_cons in Hclean as [H3 _].
  set (plan := Some (Calendar.storedPlan (number := number) hp)).
  assert (Hblocks : Spec.blocks plan
    = [ {| Calendar.b_title := Home.title s1; Calendar.b_days := 4;
           Calendar.b_bullets :=
             Calendar.orFallback
               (List.filter truthyStr (Home.howTo s1 ++ Home.whatThisDoes s1))
               Calendar.fallback1 |};
        {| Calendar.b_title := Home.title s2; Calendar.b_days := 6;
           Calendar.b_bullets :=
             Calendar.orFallback
               (List.filter truthyStr (Home.howTo s2 ++ Home.whatThisDoes s2))
               Calendar.fallback2 |};
        {| Calendar.b_title := Home.title s3; Calendar.b_days := 4;
           Calendar.b_bullets :=
             Calendar.orFallback
               (List.filter truthyStr (Home.howTo s3 ++ Home.whatThisDoes s3))
               Calendar.fallback3 |} ]).
  { unfold Spec.blocks, plan.
    cbn [mbind option_bind Calendar.steps Calendar.storedPlan default
         from_option id].
    rewrite Hsteps. cbn [fmap list_fmap lookup list_lookup].
    destruct (stored_step s1 (lit "Step 1: Positioning") H1) as [-> ->].
    destruct (stored_step s2 (lit "Step 2: Acquisition Sprint") H2) as [-> ->].
    destruct (stored_step s3 (lit "Step 3: Retention & Proof") H3) as [-> ->].
    reflexivity. }
  exists hp, s1, s2, s3, (Spec.deriveDays today plan).
  fold plan.
  split; [exact Hp|]. split; [exact Hsteps|].
  split; [by rewrite blocks_ok, Hblocks|].
  split; [apply buildDays_deriveDays|].
  split.
  { destruct (deriveDays_blocks today plan)
      as (b1 & b2 & b3 & Hb & _ & _ & _ & ->).
    rewrite Hblocks in Hb. injection Hb as <- <- <-.
    rewrite !fmap_app, !focus_blockDays. reflexivity. }
  split.
  { destruct fallbacks_bullets as (Hf1 & Hf2 & Hf3 & Hfill).
    assert (Hpool : forall b, b ∈ Spec.blocks plan ->
              Forall Props.bullet (Calendar.b_bullets b)).
    { intros b Hb. rewrite Hblocks in Hb.
      assert (Hor : forall (s : Home.Step) fb,
                Props.cleanHomeStep s -> Forall Props.bullet fb ->
                Forall Props.bullet
                  (Calendar.orFallback
                     (List.filter truthyStr (Home.howTo s ++ Home.whatThisDoes s))
                     fb)).
      { intros s fb (_ & _ & _ & Hw & Hh) Hfb.
        pose proof (filter_truthy_bullets (Home.howTo s ++ Home.whatThisDoes s))
          as Hb'.
        destruct (List.filter truthyStr (Home.howTo s ++ Home.whatThisDoes s));
          [exact Hfb|].
        apply Hb', Forall_app. by split. }
      apply elem_of_cons in Hb as [->|Hb]; [by apply Hor|].
      apply elem_of_cons in Hb as [->|Hb]; [by apply Hor|].
      apply list_elem_of_singleton in Hb as ->. by apply Hor. }
    eapply Forall_impl;
      [apply (deriveDays_days plan
                (fun b d => Forall Props.bullet (Calendar.tasks d)))|].
    - intros b n d Hb Hd.
      destruct (blockDays_days b n d Hd) as (_ & _ & _ & [->|Hsub]).
      + by constructor.
      + apply Forall_forall. intros t Ht.
        pose proof (Hpool b Hb) as Hall.
        rewrite Forall_forall in Hall. apply Hall.
        eapply elem_of_sublist; [exact Ht | exact Hsub].
    - intros d (b & _ & Hd). exact Hd. }
  rewrite planId_fnv1a. unfold plan.
  cbn [mbind option_bind Calendar.id Calendar.storedPlan orOpt].
  unfold orStr. by destruct (Home.id hp).
Qed.
End CalendarDays.

(** One item and no bucket. *)
Lemma chunkEvenly_throws_iff_witness :
  Z.of_nat 0 < 2 ^ 32
  /\ exists m, Calendar.chunkEvenly [lit "a"] 0 = Throw m.
Proof.
  split; [reflexivity|].
  apply (proj2 (proj1 (chunkEvenly_throws_iff [lit "a"] 0%nat eq_refl))).
  split; [reflexivity | discriminate].
Defined.

(** ** Lines that are only a marker *)

Section MarkerLines.
Context {number : Type} {numberOps : JSNumber number}.

(** X17.  A text that is one line of marker characters only (hyphens,
    bullet dots, digits, full stops, closing parentheses) is coerced to a
    list that holds the empty string, by the home page and by the calendar
    page alike: empty lines are dropped before the marker is stripped, not
    after.  The same text as the one element of a list is kept as it is:
    markers are stripped from texts only. *)
Theorem marker_line_gives_empty_bullet (s : jstring) :
  s <> [] -> forallb isMarker s = true ->
  Home.toStrArray (number := number) (VStr s) = [[]]
  /\ Calendar.normalizeBullets (number := number) (VStr s) = Ok [[]]
  /\ Home.toStrArray (number := number) (VArr [VStr s]) = [s].
Proof.
  intros Hne Hm.
  assert (Hall : Forall (fun c => isMarker c = true) s).
  { apply Forall_forall. intros c Hc%list_elem_of_In.
    by apply (proj1 (forallb_forall _ _) Hm). }
  assert (Hline : splitLines s = [s]).
  { apply splitLines_line. eapply Forall_impl; [exact Hall|].
    intros c Hc ->. discriminate Hc. }
  assert (Htrim : trim s = s).
  { destruct s as [|x p]; [done|].
    destruct (exists_last (l := x :: p)) as (q & y & Hq); [done|].
    apply (trim_fixed x y p q); [| |exact Hq].
    - apply isMarker_not_white. by apply Forall_cons in Hall as [? _].
    - apply isMarker_not_white. rewrite Hq in Hall.
      by apply Forall_app in Hall as [_ [? _]%Forall_cons]. }
  assert (Hstrip : stripMarker s = []).
  { pose proof (stripMarker_run [] s [] eq_refl Hne Hm I) as H.
    by rewrite app_nil_l, app_nil_r in H. }
  assert (Htruthy : truthyStr s = true) by by destruct s.
  split; [|split].
  - unfold Home.toStrArray. rewrite Hline. cbn [map]. rewrite Htrim.
    cbn [List.filter]. rewrite Htruthy. cbn [map]. by rewrite Hstrip.
  - unfold Calendar.normalizeBullets. rewrite Hline. cbn [map]. rewrite Htrim.
    cbn [List.filter]. rewrite Htruthy. cbn [map]. by rewrite Hstrip.
  - unfold Home.toStrArray. cbn [map Home.safeStr]. rewrite Htrim.
    cbn [List.filter]. by rewrite Htruthy.
Qed.
End MarkerLines.

(** The line "1." *)
Lemma marker_line_gives_empty_bullet_witness :
  Home.toStrArray (number := Z) (VStr (lit "1.")) = [[]]
  /\ Calendar.normalizeBullets (number := Z) (VStr (lit "1.")) = Ok [[]]
  /\ Home.toStrArray (number := Z) (VArr [VStr (lit "1.")]) = [lit "1."].
Proof.
  apply (marker_line_gives_empty_bullet (number := Z) (lit "1."));
    [discriminate | reflexivity].
Defined.

(** ** Lines that start with characters of the marker expression *)

Section MarkerExpression.
Context {number : Type} {numberOps : JSNumber number}.

(** X20.  What the marker expression of the code does to a line, whether
    or not the line has a marker of the specification: the whole leading run
    of the characters hyphen, bullet dot, digit, full stop and closing
    parenthesis goes, with the white space that follows it if there is any.
    So a bare number at the start of a line is removed, and so is a hyphen
    that no white space follows.  The home page and the calendar page do the
    same. *)
Theorem toStrArray_strips_class_run (run rest : jstring) :
  run <> [] -> forallb isMarker run = true ->
  match rest with c :: _ => isMarker c = false | [] => True end ->
  Forall (fun c => c <> 10) (run ++ rest) ->
  trim (run ++ rest) = run ++ rest ->
  Home.toStrArray (number := number) (VStr (run ++ rest))
  = [trim (dropWhile isWhite rest)]
  /\ Calendar.normalizeBullets (number := number) (VStr (run ++ rest))
     = Ok [trim (dropWhile isWhite rest)].
Proof.
  intros Hrun Hclass Hrest Hline Htrim.
  assert (Hstrip : stripMarker (run ++ rest) = dropWhile isWhite rest).
  { by apply (stripMarker_run [] run rest). }
  assert (Htruthy : truthyStr (run ++ rest) = true) by by destruct run.
  assert (Hlines :
    map (fun x => trim (stripMarker x))
      (List.filter truthyStr (map trim (splitLines (run ++ rest))))
    = [trim (dropWhile isWhite rest)]).
  { rewrite splitLines_line by done. cbn [map]. rewrite Htrim.
    cbn [List.filter]. rewrite Htruthy. cbn [map]. by rewrite Hstrip. }
  split.
  - unfold Home.toStrArray. exact Hlines.
  - unfold Calendar.normalizeBullets. by rewrite Hlines.
Qed.
End MarkerExpression.

(** A line that starts with a bare number. *)
Lemma toStrArray_strips_class_run_witness :
  Home.toStrArray (number := Z) (VStr (lit "3" ++ lit " hooks for the campaign"))
  = [lit "hooks for the campaign"]
  /\ Calendar.normalizeBullets (number := Z)
       (VStr (lit "3" ++ lit " hooks for the campaign"))
     = Ok [lit "hooks for the campaign"].
Proof.
  apply (toStrArray_strips_class_run (number := Z)
           (lit "3") (lit " hooks for the campaign"));
    [discriminate | reflexivity | reflexivity | | reflexivity].
  repeat constructor; discriminate.
Defined.

(** ** Keys: printed numbers can be read back *)

Section Keys.
Context {number : Type} {numberOps : JSNumber number} {browser : Browser}.

Lemma digitValue_digitChar (d : Z) :
  0 <= d < 36 -> Props.digitValue (digitChar d) = d.
Proof.
  intros Hd. unfold Props.digitValue, digitChar.
  destruct (Z.ltb_spec d 10).
  - destruct (Z.ltb_spec (48 + d) 58); lia.
  - destruct (Z.ltb_spec (87 + d) 58); lia.
Qed.

Lemma numberOf_snoc (radix : Z) (l : jstring) (c : Z) :
  Props.numberOf radix (l ++ [c])
  = Props.numberOf radix l * radix + Props.digitValue c.
Proof. unfold Props.numberOf. by rewrite fold_left_app. Qed.

(** With enough fuel the digits that are written stand for the number. *)
Lemma numberOf_digitsOf (radix : Z) (fuel : nat) (n : Z) :
  2 <= radix <= 36 -> 0 <= n < radix ^ Z.of_nat fuel ->
  Props.numberOf radix (digitsOf fuel radix n []) = n.
Proof.
  intros Hr. revert n. induction fuel as [|f IH]; intros n Hn.
  { change (radix ^ Z.of_nat 0) with 1 in Hn. assert (n = 0) as -> by lia.
    reflexivity. }
  cbn [digitsOf].
  pose proof (Z.mod_pos_bound n radix ltac:(lia)) as Hmod.
  pose proof (Z.div_mod n radix ltac:(lia)) as Hdiv.
  destruct (Z.eqb_spec (n / radix) 0) as [Hz|Hz].
  - change [digitChar (n mod radix)] with ([] ++ [digitChar (n mod radix)]).
    rewrite numberOf_snoc, digitValue_digitChar by lia.
    change (Props.numberOf radix []) with 0. lia.
  - rewrite digitsOf_acc, numberOf_snoc, digitValue_digitChar by lia.
    rewrite IH; [lia|].
    split; [apply Z.div_pos; lia|].
    apply Z.div_lt_upper_bound; [lia|].
    rewrite Nat2Z.inj_succ, Z.pow_succ_r in Hn by lia. lia.
Qed.

(** The fuel of [toStringRadix] is enough. *)
Lemma numberOf_toStringRadix (radix n : Z) :
  2 <= radix <= 36 -> 0 <= n ->
  Props.numberOf radix (toStringRadix radix n) = n.
Proof.
  intros Hr Hn. unfold toStringRadix. apply numberOf_digitsOf; [done|].
  split; [done|].
  rewrite Nat2Z.inj_succ, Z2Nat.id by apply Z.log2_nonneg.
  destruct (Z.eq_dec n 0) as [->|Hne].
  { change (Z.log2 0) with 0. simpl. lia. }
  pose proof (Z.log2_spec n ltac:(lia)) as [_ Hlt].
  eapply Z.lt_le_trans; [exact Hlt|].
  apply Z.pow_le_mono_l. lia.
Qed.

Lemma toStringRadix_inj (radix a b : Z) :
  2 <= radix <= 36 -> 0 <= a -> 0 <= b ->
  toStringRadix radix a = toStringRadix radix b -> a = b.
Proof.
  intros Hr Ha Hb H.
  rewrite <- (numberOf_toStringRadix radix a), <- (numberOf_toStringRadix radix b)
    by done.
  by rewrite H.
Qed.

Lemma natToString_inj (a b : nat) : natToString a = natToString b -> a = b.
Proof.
  unfold natToString. intros H. apply toStringRadix_inj in H; lia.
Qed.

Lemma digitsOf_decimal (fuel : nat) (n : Z) (acc : jstring) :
  Forall (fun c => 48 <= c <= 57) acc ->
  Forall (fun c => 48 <= c <= 57) (digitsOf fuel 10 n acc).
Proof.
  revert n acc. induction fuel as [|f IH]; intros n acc Hacc; [exact Hacc|].
  cbn [digitsOf].
  assert (Hd : 48 <= digitChar (n mod 10) <= 57).
  { pose proof (Z.mod_pos_bound n 10 ltac:(lia)). unfold digitChar.
    destruct (Z.ltb_spec (n mod 10) 10); lia. }
  destruct (n / 10 =? 0).
  - by constructor.
  - apply IH. by constructor.
Qed.

Lemma natToString_decimal (n : nat) :
  Forall (fun c => 48 <= c <= 57) (natToString n).
Proof. apply digitsOf_decimal. constructor. Qed.

(** Two texts that start with digits up to a first underscore agree on
    the digits and on the rest. *)
Lemma digits_then_underscore (l1 l2 r1 r2 : jstring) :
  Forall (fun c => 48 <= c <= 57) l1 ->
  Forall (fun c => 48 <= c <= 57) l2 ->
  l1 ++ 95 :: r1 = l2 ++ 95 :: r2 -> l1 = l2 /\ r1 = r2.
Proof.
  intros H1. revert l2. induction H1 as [|c l1 Hc _ IH]; intros l2 H2 H.
  - destruct H2 as [|c2 l2 Hc2 _]; simpl in H.
    + by injection H as ->.
    + injection H as <- _. lia.
  - destruct H2 as [|c2 l2 Hc2 H2]; simpl in H.
    + injection H as -> _. lia.
    + injection H as -> H. destruct (IH l2 H2 H) as [-> ->]. done.
Qed.

Lemma checkKey_inj (day idx day' idx' : nat) :
  Calendar.checkKey day idx = Calendar.checkKey day' idx' ->
  day = day' /\ idx = idx'.
Proof.
  unfold Calendar.checkKey. intros H.
  change (lit "d") with [100] in H. change (lit "_t") with [95; 116] in H.
  cbn [app] in H. injection H as H.
  apply digits_then_underscore in H as [Hd Hi];
    [|apply natToString_decimal|apply natToString_decimal].
  injection Hi as Hi.
  split; by apply natToString_inj.
Qed.

(** X18.  The key of a task names its day and its position: two tasks
    have the same key only when they are the same task.  So a click on a
    task changes the mark of no other task. *)
Theorem checkKey_names_one_task (day idx day' idx' : nat)
    (w : Calendar.PageState number * gmap jstring jstring) :
  (Calendar.checkKey day idx = Calendar.checkKey day' idx'
   <-> (day = day' /\ idx = idx'))
  /\ ((day, idx) <> (day', idx') ->
      match Calendar.toggle day idx w with
      | Ok w' =>
          Calendar.getCheck (Calendar.checkKey day' idx')
            (Calendar.st_checks (fst w'))
          = Calendar.getCheck (Calendar.checkKey day' idx')
              (Calendar.st_checks (fst w))
      | Throw _ => exists ls k v, accepts ls k v = false
      end).
Proof.
  split.
  - split; [apply checkKey_inj|]. by intros [-> ->].
  - intros Hne. unfold Calendar.toggle.
    destruct (commit_cases (Calendar.toggle_handler day idx w))
      as [[_ ->]|[Hacc [m ->]]]; [|by eexists _, _, _].
    cbn [fst snd Calendar.toggle_handler Calendar.setChecks Calendar.st_checks].
    apply getCheck_withCheck_ne. intros H.
    apply checkKey_inj in H as [-> ->]. by apply Hne.
Qed.

Lemma fnv1a_range (s : jstring) : 0 <= Spec.fnv1a s < 2 ^ 32.
Proof.
  unfold Spec.fnv1a.
  induction s as [|c s IH] using rev_ind; [simpl; lia|].
  rewrite fold_left_app. cbn [fold_left]. apply Z.mod_pos_bound. lia.
Qed.

(** X19.  Two plans get the same identity, and so share one record of
    check marks in the store, exactly when the hashes of their base strings
    (the id, else the idea, else "latest", empty strings passed over) are
    equal: printing the hash in hexadecimal loses nothing. *)
Theorem planId_same_iff_hash (p q : option (Calendar.Plan number)) :
  let base (plan : option (Calendar.Plan number)) :=
    orOpt (plan ≫= Calendar.id)
      (orOpt (plan ≫= Calendar.idea) (lit "latest")) in
  (Calendar.planId p = Calendar.planId q
   <-> Spec.fnv1a (base p) = Spec.fnv1a (base q))
  /\ (Calendar.checksKey (Calendar.planId p)
      = Calendar.checksKey (Calendar.planId q)
      <-> Spec.fnv1a (base p) = Spec.fnv1a (base q))
  /\ Props.numberOf 16 (drop 5 (Calendar.planId p)) = Spec.fnv1a (base p).
Proof.
  intros base.
  assert (Hiff : Calendar.planId p = Calendar.planId q
                 <-> Spec.fnv1a (base p) = Spec.fnv1a (base q)).
  { rewrite !planId_fnv1a. fold (base p) (base q). split.
    - intros H. apply app_inv_head in H.
      apply toStringRadix_inj in H; [done|lia| |]; apply fnv1a_range.
    - by intros ->. }
  split; [exact Hiff|]. split.
  - rewrite <- Hiff. unfold Calendar.checksKey. split.
    + apply app_inv_head.
    + by intros ->.
  - rewrite planId_fnv1a. fold (base p).
    change (drop 5 (lit "plan_" ++ ?x)) with x.
    apply numberOf_toStringRadix; [lia|apply fnv1a_range].
Qed.
End Keys.
